(** * ss: subtitle search - a shallow embedding of [ss.py]

    The development follows the Python module: values and exceptions, the
    library primitives the code calls (files, [struct], [os.path], XML-RPC,
    processes), then the functions of [ss.py] under their own names, and
    finally the properties proved about them. *)

From Stdlib Require Import ZArith List String Ascii Strings.Byte Lia Bool.
From Stdlib Require Import DecimalString.
From stdpp Require Import base option list gmap strings.

Local Open Scope Z_scope.

(** ** Python outcomes *)

(** The exceptions the modelled code and its library calls can raise. *)
Inductive exn :=
| IOError          (* open() of a missing path or of a directory *)
| OSError          (* os.listdir / os.path.getsize on a bad path *)
| struct_error     (* struct.unpack on a buffer of the wrong length *)
| ValueError       (* int() of a non-numeric string, read() on a closed file *)
| KeyError         (* subscript of a missing dictionary key *)
| AttributeError   (* lookup of a name the object does not have *)
| ProtocolError    (* any failure of an XML-RPC call *)
| CalledProcessError (returncode : Z) (output : string).

(** A Python call either returns a value or raises. *)
Inductive outcome (A : Type) :=
| Return (a : A)
| Raise (e : exn).
Arguments Return {A} a.
Arguments Raise {A} e.

Definition is_raise {A} (o : outcome A) : Prop :=
  match o with Raise _ => True | Return _ => False end.

(** ** Values exchanged with the collaborators *)

(** What the operating system answers for a path string. *)
Inductive node :=
| File (data : list byte)
| Dir (st_size : Z) (entries : list string).

(** An open binary file: its bytes and the read position. *)
Record file_object := FileObject { f_data : list byte; f_pos : nat }.

(** The fields of a guessit [Guess] that [obtain_guessit_query] reads. *)
Record guess := Guess {
  g_type : option string;
  g_series : option string;
  g_title : option string;
  g_releaseGroup : option string;
  g_year : option Z;
  g_season : option Z;
  g_episodeNumber : option Z
}.

(** The dictionary built by [obtain_guessit_query]; the keys ['season'] and
    ['episode'] are optional. *)
Record guessit_query := GuessitQuery {
  q_query : string;
  q_season : option Z;
  q_episode : option Z;
  q_sublanguageid : string
}.

(** The dictionary built by [obtain_movie_hash_query]. *)
Record movie_hash_query := MovieHashQuery {
  q_moviehash : string;
  q_moviebytesize : string;
  q_hash_sublanguageid : string
}.

Inductive search_query :=
| ByName (q : guessit_query)
| ByHash (q : movie_hash_query).

(** A search result is the dictionary of strings the service returns. *)
Abbreviation search_result := (gmap string string).

Inductive rpc_call :=
| LogIn (username password language useragent : string)
| SearchSubtitles (token : string) (queries : list search_query)
| LogOut (token : string).

(** An XML-RPC answer: a dictionary that may carry ['token'] and ['data'];
    the service's [data: False] is the empty list. *)
Record response := Response {
  r_token : option string;
  r_data : option (list search_result)
}.

Inductive byteorder := little | big.

(** ** The world *)

(** The process state the program reads and changes: the file system, the
    table of file objects indexed by handle (a closed one is [None]), and the
    logs of remote calls, of started processes (their argument vectors) and
    of printed lines, all in chronological order. *)
Record world := World {
  w_fs : gmap string node;
  w_files : list (option file_object);
  w_rpc : list rpc_call;
  w_procs : list (list string);
  w_stdout : list string
}.

Definition with_fs (w : world) (fs : gmap string node) : world :=
  World fs (w_files w) (w_rpc w) (w_procs w) (w_stdout w).
Definition with_files (w : world) (files : list (option file_object)) : world :=
  World (w_fs w) files (w_rpc w) (w_procs w) (w_stdout w).
Definition with_rpc (w : world) (log : list rpc_call) : world :=
  World (w_fs w) (w_files w) log (w_procs w) (w_stdout w).
Definition with_procs (w : world) (log : list (list string)) : world :=
  World (w_fs w) (w_files w) (w_rpc w) log (w_stdout w).
Definition with_stdout (w : world) (lines : list string) : world :=
  World (w_fs w) (w_files w) (w_rpc w) (w_procs w) lines.

(** What lies outside the program: the host, the libraries it imports and the
    services it talks to.  A remote answer and a process result may depend on
    everything the program did before. *)
Record environment := Environment {
  sys_byteorder : byteorder;
  builtin_int : string -> option Z;
  guess_file_info : string -> guess;
  xmlrpc_server : list rpc_call -> rpc_call -> outcome response;
  popen : list (list string) -> list string -> Z * string;
  configparser_read : list byte -> outcome (gmap string string)
}.

(** ** The monad of Python statements *)

Definition py (A : Type) : Type := world -> outcome A * world.

#[global] Instance py_ret : MRet py := fun A a w => (Return a, w).
#[global] Instance py_bind : MBind py := fun A B k m w =>
  match m w with
  | (Return a, w') => k a w'
  | (Raise e, w') => (Raise e, w')
  end.

Definition raise {A} (e : exn) : py A := fun w => (Raise e, w).

Definition lift {A} (o : outcome A) : py A := fun w => (o, w).

(** [try: body finally: final].  The outcome of [body] stands unless [final]
    raises, in which case the exception of [final] replaces it. *)
Definition try_finally {A} (body : py A) (final : py unit) : py A := fun w =>
  let '(o, w') := body w in
  match final w' with
  | (Return _, w'') => (o, w'')
  | (Raise e, w'') => (Raise e, w'')
  end.

(** [d[key]] *)
Definition subscript {A} (d : option A) : py A :=
  match d with
  | Some a => mret a
  | None => raise KeyError
  end.

(** [print(line, file=stream)] *)
Definition print (line : string) : py unit := fun w =>
  (Return tt, with_stdout w (w_stdout w ++ [line])).

(** ** str *)

(** A Python [str] is held as its UTF-8 encoding, one [ascii] per byte.
    [rfind] and the slices count bytes where Python counts code points: an
    index [rfind] finds is only used to slice the string it was found in, and
    the characters searched for are single bytes that occur in no longer
    sequence, so what is cut is what Python cuts. *)

Module pystr.

Definition chars : string -> list ascii := list_ascii_of_string.
Definition str : list ascii -> string := string_of_list_ascii.

(** A byte [10xxxxxx] continues the code point of the byte before it. *)
Definition is_continuation (a : ascii) : bool :=
  let n := N_of_ascii a in
  ((128 <=? n) && (n <? 192))%N.

(** [len(s)]: the number of code points. *)
Definition len (s : string) : Z :=
  Z.of_nat (length (List.filter (fun a => negb (is_continuation a)) (chars s))).

(** [s.rfind(c)]: the highest index of [c], or -1; [i] is the index of the
    first character of [s]. *)
Fixpoint rfind_from (c : ascii) (s : string) (i : Z) : Z :=
  match s with
  | EmptyString => -1
  | String a s' =>
      let r := rfind_from c s' (i + 1) in
      if r =? -1 then (if Ascii.eqb a c then i else -1) else r
  end.
Definition rfind (c : ascii) (s : string) : Z := rfind_from c s 0.

(** [s[:i]] and [s[i:]] for [0 <= i]; [s[i:j]] for [0 <= i <= j]. *)
Definition slice_to (s : string) (i : Z) : string :=
  str (take (Z.to_nat i) (chars s)).
Definition slice_from (s : string) (i : Z) : string :=
  str (drop (Z.to_nat i) (chars s)).
Definition slice (s : string) (i j : Z) : string :=
  slice_from (slice_to s j) i.

(** The last [n] code points of a string given backwards, backwards. *)
Fixpoint take_last (backwards : list ascii) (n : nat) : list ascii :=
  match backwards, n with
  | a :: rest, S n' =>
      a :: take_last rest (if is_continuation a then S n' else n')
  | _, _ => []
  end.

(** [s[-n:]] for [0 < n] *)
Definition suffix (n : Z) (s : string) : string :=
  str (rev (take_last (rev (chars s)) (Z.to_nat n))).

Definition startswith (s : string) (c : ascii) : bool :=
  match s with
  | String a _ => Ascii.eqb a c
  | EmptyString => false
  end.

Definition endswith (s : string) (c : ascii) : bool :=
  match rev (chars s) with
  | a :: _ => Ascii.eqb a c
  | [] => false
  end.

Fixpoint lstrip_chars (c : ascii) (l : list ascii) : list ascii :=
  match l with
  | a :: l' => if Ascii.eqb a c then lstrip_chars c l' else l
  | [] => []
  end.

(** [s.rstrip(c)] *)
Definition rstrip (c : ascii) (s : string) : string :=
  str (rev (lstrip_chars c (rev (chars s)))).

(** [c * n] *)
Definition times (c : ascii) (n : Z) : string := str (repeat c (Z.to_nat n)).

Definition lower_char (a : ascii) : ascii :=
  let n := N_of_ascii a in
  if ((65 <=? n) && (n <=? 90))%N then ascii_of_N (n + 32) else a.

(** [s.lower()].  The letters [A-Z] are lowered.  Two other code points
    have an ASCII letter in their lower case: U+212A KELVIN SIGN (bytes
    [E2 84 AA]) becomes [k], and U+0130 (bytes [C4 B0]) becomes [i] followed
    by U+0307 (bytes [CC 87]).  Every other cased letter of Unicode lowers
    to letters outside ASCII and is left as it is here: that changes no
    comparison of a lowered string with an ASCII literal, which is all the
    program does with one. *)
Fixpoint lower_bytes (l : list ascii) : list ascii :=
  match l with
  | [] => []
  | a :: rest =>
      match N_of_ascii a, rest with
      | 226%N, b :: c :: rest' =>
          if ((N_of_ascii b =? 132) && (N_of_ascii c =? 170))%N
          then "k"%char :: lower_bytes rest'
          else a :: lower_bytes rest
      | 196%N, b :: rest' =>
          if (N_of_ascii b =? 176)%N
          then "i"%char :: ascii_of_N 204 :: ascii_of_N 135 :: lower_bytes rest'
          else a :: lower_bytes rest
      | _, _ => lower_char a :: lower_bytes rest
      end
  end.

Definition lower (s : string) : string := str (lower_bytes (chars s)).

(** [str(n)] of an integer. *)
Definition of_int (n : Z) : string := NilZero.string_of_int (Z.to_int n).

(** [sep.join(parts)] *)
Fixpoint join (sep : string) (parts : list string) : string :=
  match parts with
  | [] => ""
  | [p] => p
  | p :: rest => p +:+ sep +:+ join sep rest
  end.

End pystr.

(** ** Files *)

(** [open(name, "rb")] *)
Definition open_rb (name : string) : py nat := fun w =>
  match w_fs w !! name with
  | Some (File data) =>
      (Return (length (w_files w)),
       with_files w (w_files w ++ [Some (FileObject data 0)]))
  | _ => (Raise IOError, w)
  end.

(** [os.path.getsize(name)] *)
Definition os_path_getsize (name : string) : py Z := fun w =>
  match w_fs w !! name with
  | Some (File data) => (Return (Z.of_nat (length data)), w)
  | Some (Dir st_size _) => (Return st_size, w)
  | None => (Raise OSError, w)
  end.

(** [f.read(n)]: at most [n] bytes from the current position, which advances
    by the number of bytes returned. *)
Definition f_read (f : nat) (n : Z) : py (list byte) := fun w =>
  match w_files w !! f with
  | Some (Some fo) =>
      let buffer := take (Z.to_nat n) (drop (f_pos fo) (f_data fo)) in
      (Return buffer,
       with_files w
         (<[f := Some (FileObject (f_data fo) (f_pos fo + length buffer))]>
            (w_files w)))
  | _ => (Raise ValueError, w)
  end.

(** [f.seek(offset, 0)] *)
Definition f_seek (f : nat) (offset : Z) : py unit := fun w =>
  match w_files w !! f with
  | Some (Some fo) =>
      if offset <? 0 then (Raise IOError, w)
      else (Return tt,
            with_files w
              (<[f := Some (FileObject (f_data fo) (Z.to_nat offset))]>
                 (w_files w)))
  | _ => (Raise ValueError, w)
  end.

(** [f.close()] *)
Definition f_close (f : nat) : py unit := fun w =>
  (Return tt, with_files w (<[f := None]> (w_files w))).

(** A handle is released when its table entry is closed. *)
Definition released (f : nat) (w : world) : Prop := w_files w !! f = Some None.
Definition still_open (f : nat) (w : world) : Prop :=
  exists fo, w_files w !! f = Some (Some fo).

(** [os.path.isfile], [os.path.isdir], [os.listdir] *)
Definition os_path_isfile (fs : gmap string node) (path : string) : bool :=
  match fs !! path with Some (File _) => true | _ => false end.
Definition os_path_isdir (fs : gmap string node) (path : string) : bool :=
  match fs !! path with Some (Dir _ _) => true | _ => false end.
Definition os_listdir (fs : gmap string node) (path : string)
    : outcome (list string) :=
  match fs !! path with
  | Some (Dir _ entries) => Return entries
  | _ => Raise OSError
  end.

(** ** struct *)

(** [struct.calcsize('q')] *)
Definition calcsize_q : Z := 8.

Definition byte_val (b : byte) : Z := Z.of_N (Byte.to_N b).

(** The unsigned value of a byte string, least significant byte first. *)
Definition uint_of_bytes (bs : list byte) : Z :=
  fold_right (fun b acc => byte_val b + 256 * acc) 0 bs.

(** [struct.unpack('q', buffer)].  The format carries no byte-order prefix, so
    the bytes are read in the byte order of the host.  A buffer of the wrong
    size raises [struct.error]; otherwise the value is the two's-complement
    reading of the eight bytes. *)
Definition struct_unpack_q (order : byteorder) (buffer : list byte) : py Z :=
  if decide (length buffer = Z.to_nat calcsize_q) then
    let u := uint_of_bytes (match order with
                            | little => buffer
                            | big => rev buffer
                            end) in
    mret (if 2 ^ 63 <=? u then u - 2 ^ 64 else u)
  else raise struct_error.

(** ** ["%016x" % n] *)

Definition hexdigit (d : Z) : ascii :=
  match d with
  | 0 => "0" | 1 => "1" | 2 => "2" | 3 => "3" | 4 => "4" | 5 => "5"
  | 6 => "6" | 7 => "7" | 8 => "8" | 9 => "9" | 10 => "a" | 11 => "b"
  | 12 => "c" | 13 => "d" | 14 => "e" | _ => "f"
  end%char.

(** Digits of a non-negative number, most significant first, produced by
    repeated division; [fuel] bounds the number of digits. *)
Fixpoint hex_digits (fuel : nat) (n : Z) (acc : list ascii) : list ascii :=
  match fuel with
  | O => acc
  | S fuel' =>
      let acc' := hexdigit (n mod 16) :: acc in
      if n / 16 =? 0 then acc' else hex_digits fuel' (n / 16) acc'
  end.

(** [%x] of a number: sign, then the hexadecimal digits of the magnitude. *)
Definition format_x (n : Z) : list ascii * list ascii :=
  let m := Z.abs n in
  (if n <? 0 then ["-"%char] else [],
   hex_digits (S (Z.to_nat (Z.log2 m))) m []).

(** [%016x]: zero padding between sign and digits up to a width of 16. *)
Definition format_016x (n : Z) : string :=
  let '(sign, digits) := format_x n in
  let pad := (16 - length sign - length digits)%nat in
  string_of_list_ascii (sign ++ repeat "0"%char pad ++ digits).

(** ** calculate_hash_for_file *)

(** One pass of [for x in range(65536//bytesize)]. *)
Fixpoint hash_loop (order : byteorder) (f : nat) (bytesize : Z)
    (count : nat) (hash : Z) : py Z :=
  match count with
  | O => mret hash
  | S count' =>
      buffer ← f_read f bytesize;
      l_value ← struct_unpack_q order buffer;
      let hash := hash + l_value in
      let hash := Z.land hash 0xFFFFFFFFFFFFFFFF in
      hash_loop order f bytesize count' hash
  end.

Definition calculate_hash_for_file (env : environment) (name : string)
    : py string :=
  let order := sys_byteorder env in
  let bytesize := calcsize_q in
  f ← open_rb name;
  filesize ← os_path_getsize name;
  let hash := filesize in
  if filesize <? 65536 * 2 then mret "SizeError"%string
  else
    hash ← hash_loop order f bytesize (Z.to_nat (65536 / bytesize)) hash;
    _ ← f_seek f (Z.max 0 (filesize - 65536));
    hash ← hash_loop order f bytesize (Z.to_nat (65536 / bytesize)) hash;
    _ ← f_close f;
    let returnedhash := format_016x hash in
    mret returnedhash.

(** A well-formed fingerprint: sixteen characters among [0-9a-f]. *)
Definition is_hex_char (a : ascii) : bool :=
  let n := N_of_ascii a in
  (((48 <=? n) && (n <=? 57)) || ((97 <=? n) && (n <=? 102)))%N.
Definition is_fingerprint (s : string) : bool :=
  (String.length s =? 16)%nat && forallb is_hex_char (pystr.chars s).

(** ** os.path (posixpath) *)

Definition os_path_dirname (p : string) : string :=
  let i := pystr.rfind "/" p + 1 in
  let head := pystr.slice_to p i in
  if negb (String.eqb head "") &&
     negb (String.eqb head (pystr.times "/" (pystr.len head)))
  then pystr.rstrip "/" head
  else head.

Definition os_path_basename (p : string) : string :=
  let i := pystr.rfind "/" p + 1 in
  pystr.slice_from p i.

(** [genericpath._splitext]: the extension starts at the last dot of the last
    path component, unless only dots precede it there. *)
Definition os_path_splitext (p : string) : string * string :=
  let sepIndex := pystr.rfind "/" p in
  let dotIndex := pystr.rfind "." p in
  if sepIndex <? dotIndex then
    let leading := pystr.chars (pystr.slice p (sepIndex + 1) dotIndex) in
    if existsb (fun a => negb (Ascii.eqb a ".")) leading
    then (pystr.slice_to p dotIndex, pystr.slice_from p dotIndex)
    else (p, ""%string)
  else (p, ""%string).

Definition os_path_join (a b : string) : string :=
  if pystr.startswith b "/" then b
  else if String.eqb a "" || pystr.endswith a "/" then a +:+ b
  else a +:+ "/" +:+ b.

(** ** obtain_subtitle_filename *)

(** [for filename in filenames: if not os.path.isfile(filename): return
    filename], with the statement after the loop as [otherwise]. *)
Fixpoint first_not_file (fs : gmap string node) (filenames : list string)
    (otherwise : string) : string :=
  match filenames with
  | [] => otherwise
  | filename :: rest =>
      if negb (os_path_isfile fs filename) then filename
      else first_not_file fs rest otherwise
  end.

Definition obtain_subtitle_filename (fs : gmap string node)
    (movie_filename language subtitle_ext : string) : string :=
  let dirname := os_path_dirname movie_filename in
  let basename := fst (os_path_splitext (os_path_basename movie_filename)) in
  let filenames := [
    os_path_join dirname (basename +:+ subtitle_ext);
    os_path_join dirname (basename +:+ "." +:+ language +:+ subtitle_ext)
  ] in
  first_not_file fs filenames
    (os_path_join dirname
       (basename +:+ "." +:+ language +:+ "." +:+ "ss" +:+ subtitle_ext)).

(** ** find_movie_files *)

(** How the consumption of a generator ends. *)
Inductive gen_end :=
| Exhausted
| Raised (e : exn)
| OutOfFuel.

Definition extensions : gset string := {[ ".avi"; ".mp4"; ".mpg"; ".mkv" ]}%string.

(** The state of one generator instance: what it has yielded so far and its
    local set [returned]. *)
Record gen_state := GenState { yielded : list string; returned : gset string }.

(** [for name in names: ...]; [rec] is the generator called on a
    subdirectory. *)
Fixpoint names_loop (rec : list string -> bool -> list string * gen_end)
    (fs : gmap string node) (input_name : string) (recursive : bool)
    (names : list string) (st : gen_state) : gen_state * gen_end :=
  match names with
  | [] => (st, Exhausted)
  | name :: rest =>
      let result := os_path_join input_name name in
      if bool_decide (pystr.suffix 4 name ∈ extensions) then
        if bool_decide (result ∉ returned st) then
          names_loop rec fs input_name recursive rest
            (GenState (yielded st ++ [result]) ({[result]} ∪ returned st))
        else names_loop rec fs input_name recursive rest st
      else if os_path_isdir fs result && recursive then
        let '(xs, e) := rec [result] recursive in
        let st := GenState (yielded st ++ xs) (returned st) in
        match e with
        | Exhausted => names_loop rec fs input_name recursive rest st
        | _ => (st, e)
        end
      else names_loop rec fs input_name recursive rest st
  end.

(** [for input_name in input_names: ...] *)
Fixpoint inputs_loop (rec : list string -> bool -> list string * gen_end)
    (fs : gmap string node) (recursive : bool)
    (input_names : list string) (st : gen_state) : gen_state * gen_end :=
  match input_names with
  | [] => (st, Exhausted)
  | input_name :: rest =>
      if os_path_isfile fs input_name &&
         bool_decide (input_name ∉ returned st) then
        inputs_loop rec fs recursive rest
          (GenState (yielded st ++ [input_name])
                    ({[input_name]} ∪ returned st))
      else
        match os_listdir fs input_name with
        | Raise e => (st, Raised e)
        | Return names =>
            let '(st, e) := names_loop rec fs input_name recursive names st in
            match e with
            | Exhausted => inputs_loop rec fs recursive rest st
            | _ => (st, e)
            end
        end
  end.

(** The paths the generator yields, in order, and how it ends.  Every call
    starts from an empty [returned]; [fuel] bounds the nesting of directories
    that is followed. *)
Fixpoint find_movie_files (fuel : nat) (fs : gmap string node)
    (input_names : list string) (recursive : bool) : list string * gen_end :=
  match fuel with
  | O => ([], OutOfFuel)
  | S fuel' =>
      let '(st, e) :=
        inputs_loop (find_movie_files fuel' fs) fs recursive input_names
          (GenState [] ∅) in
      (yielded st, e)
  end.

(** ** obtain_guessit_query, obtain_movie_hash_query *)

Definition quote_char : ascii := ascii_of_nat 34.

(** ['"%s"' % v] *)
Definition quoted (v : string) : string :=
  String quote_char (v +:+ String quote_char EmptyString).

(** [guess.get(k)] as a truth value, with the text [%s] prints for it. *)
Definition truthy_str (v : option string) : option string :=
  match v with
  | Some s => if String.eqb s "" then None else Some s
  | None => None
  end.
Definition truthy_int (v : option Z) : option string :=
  match v with
  | Some n => if n =? 0 then None else Some (pystr.of_int n)
  | None => None
  end.

Definition extract_query (parts : list (option string)) : string :=
  pystr.join " " (map quoted (omap id parts)).

Definition obtain_guessit_query (env : environment)
    (movie_filename language : string) : guessit_query :=
  let guess := guess_file_info env (os_path_basename movie_filename) in
  if bool_decide (g_type guess = Some "episode"%string) then
    GuessitQuery
      (extract_query [truthy_str (g_series guess); truthy_str (g_title guess);
                      truthy_str (g_releaseGroup guess)])
      (g_season guess) (g_episodeNumber guess) language
  else if bool_decide (g_type guess = Some "movie"%string) then
    GuessitQuery
      (extract_query [truthy_str (g_title guess); truthy_int (g_year guess)])
      None None language
  else
    GuessitQuery (os_path_basename movie_filename) None None language.

Definition obtain_movie_hash_query (env : environment)
    (movie_filename language : string) : py movie_hash_query :=
  moviehash ← calculate_hash_for_file env movie_filename;
  moviebytesize ← os_path_getsize movie_filename;
  mret (MovieHashQuery moviehash (pystr.of_int moviebytesize) language).

(** ** filter_bad_results *)

(** [(int(x['SeriesSeason']), int(x['SeriesEpisode']))] *)
Definition season_episode (env : environment) (x : search_result)
    : outcome (Z * Z) :=
  match x !! "SeriesSeason"%string with
  | None => Raise KeyError
  | Some s =>
      match builtin_int env s with
      | None => Raise ValueError
      | Some season =>
          match x !! "SeriesEpisode"%string with
          | None => Raise KeyError
          | Some e =>
              match builtin_int env e with
              | None => Raise ValueError
              | Some episode => Return (season, episode)
              end
          end
      end
  end.

(** The list comprehension of [filter_bad_results]. *)
Fixpoint keep_matching (env : environment) (guessit_season_episode : Z * Z)
    (search_results : list search_result) : outcome (list search_result) :=
  match search_results with
  | [] => Return []
  | x :: rest =>
      match season_episode env x with
      | Raise e => Raise e
      | Return season_episode_of_x =>
          match keep_matching env guessit_season_episode rest with
          | Raise e => Raise e
          | Return kept =>
              Return (if decide (season_episode_of_x = guessit_season_episode)
                      then x :: kept else kept)
          end
      end
  end.

Definition filter_bad_results (env : environment)
    (search_results : list search_result) (guessit_query : guessit_query)
    : outcome (list search_result) :=
  match q_season guessit_query, q_episode guessit_query with
  | Some season, Some episode =>
      keep_matching env (season, episode) search_results
  | _, _ => Return search_results
  end.

(** ** query_open_subtitles *)

(** A remote call: logged, then answered by the server. *)
Definition rpc (env : environment) (call : rpc_call) : py response := fun w =>
  (xmlrpc_server env (w_rpc w) call, with_rpc w (w_rpc w ++ [call])).

(** [if search_results: ...; result[movie_filename] = search_results] *)
Definition store_results (env : environment) (movie_filename : string)
    (search_results : list search_result) (guessit_query : guessit_query)
    (result : gmap string (list search_result))
    : outcome (gmap string (list search_result)) :=
  match search_results with
  | [] => Return result
  | _ :: _ =>
      match filter_bad_results env search_results guessit_query with
      | Raise e => Raise e
      | Return search_results => Return (<[movie_filename := search_results]> result)
      end
  end.

(** The body of [try:], one iteration per movie. *)
Fixpoint query_loop (env : environment) (token language : string)
    (movie_filenames : list string)
    (result : gmap string (list search_result))
    : py (gmap string (list search_result)) :=
  match movie_filenames with
  | [] => mret result
  | movie_filename :: rest =>
      let guessit_query := obtain_guessit_query env movie_filename language in
      hash_query ← obtain_movie_hash_query env movie_filename language;
      let search_queries := [ByName guessit_query; ByHash hash_query] in
      response ← rpc env (SearchSubtitles token search_queries);
      search_results ← subscript (r_data response);
      result ← lift (store_results env movie_filename search_results
                       guessit_query result);
      query_loop env token language rest result
  end.

(** [server.LogIn('', '', 'en', 'OS Test User Agent')] *)
Definition login_call : rpc_call :=
  LogIn EmptyString EmptyString "en" "OS Test User Agent".

Definition query_open_subtitles (env : environment)
    (movie_filenames : list string) (language : string)
    : py (gmap string (list search_result)) :=
  login_info ← rpc env login_call;
  token ← subscript (r_token login_info);
  try_finally
    (query_loop env token language movie_filenames ∅)
    (_ ← rpc env (LogOut token); mret tt).

(** ** find_subtitles *)

(** [search_results[0]] under [if search_results:], for
    [search_results = all_search_results.get(movie_filename, [])]. *)
Definition first_result (all_search_results : gmap string (list search_result))
    (movie_filename : string) : option search_result :=
  head (default [] (all_search_results !! movie_filename)).

(** What the generator yields for one movie. *)
Definition find_subtitles_item
    (all_search_results : gmap string (list search_result))
    (movie_filename : string) : py (string * option string * option string) :=
  match first_result all_search_results movie_filename with
  | Some search_result =>
      link ← subscript (search_result !! "SubDownloadLink"%string);
      format ← subscript (search_result !! "SubFormat"%string);
      mret (movie_filename, Some link, Some ("." +:+ format))
  | None => mret (movie_filename, None, None)
  end.

Fixpoint find_subtitles_loop
    (all_search_results : gmap string (list search_result))
    (movie_filenames : list string)
    : py (list (string * option string * option string)) :=
  match movie_filenames with
  | [] => mret []
  | movie_filename :: rest =>
      item ← find_subtitles_item all_search_results movie_filename;
      items ← find_subtitles_loop all_search_results rest;
      mret (item :: items)
  end.

(** The generator, consumed to the end as [main] does with [sorted]. *)
Definition find_subtitles (env : environment)
    (movie_filenames : list string) (language : string)
    : py (list (string * option string * option string)) :=
  all_search_results ← query_open_subtitles env movie_filenames language;
  find_subtitles_loop all_search_results movie_filenames.

(** ** Configuration *)

Record Configuration := Config {
  language : string;
  recursive : bool;
  skip : bool;
  mkv : bool
}.

(** [Configuration()] *)
Definition Configuration_default : Configuration :=
  Config "eng" false false false.

(** The names an instance answers to: the attributes [__init__] assigns and
    the methods of the class body. *)
Definition Configuration_names : list string :=
  ["language"; "recursive"; "skip"; "mkv";
   "__init__"; "__eq__"; "__ne__"; "__repr__"; "__str__"]%string.

(** [config.<name>(...)]: the attribute is looked up before anything is
    called, and a name the instance lacks raises [AttributeError]. *)
Definition call_method {A} (name : string) (call : py A) : py A :=
  if bool_decide (name ∈ Configuration_names) then call
  else raise AttributeError.

(** [RawConfigParser.getboolean] *)
Definition getboolean (value : string) : outcome bool :=
  let v := pystr.lower value in
  if bool_decide (v ∈ ["1"; "yes"; "true"; "on"]%string) then Return true
  else if bool_decide (v ∈ ["0"; "no"; "false"; "off"]%string) then Return false
  else Raise ValueError.

(** [p.read(filename)]: a file that cannot be opened is skipped. *)
Definition parser_read (env : environment) (filename : string)
    : py (gmap string string) := fun w =>
  match w_fs w !! filename with
  | Some (File data) => (configparser_read env data, w)
  | _ => (Return ∅, w)
  end.

Definition load_configuration (env : environment) (filename : string)
    : py Configuration :=
  p ← parser_read env filename;
  let config := Configuration_default in
  config ← match p !! "language"%string with
           | Some value =>
               mret (Config value (recursive config) (skip config) (mkv config))
           | None => mret config
           end;
  config ← match p !! "recursive"%string with
           | Some value =>
               b ← lift (getboolean value);
               mret (Config (language config) b (skip config) (mkv config))
           | None => mret config
           end;
  config ← match p !! "skip"%string with
           | Some value =>
               b ← lift (getboolean value);
               mret (Config (language config) (recursive config) b (mkv config))
           | None => mret config
           end;
  config ← match p !! "mkv"%string with
           | Some value =>
               b ← lift (getboolean value);
               mret (Config (language config) (recursive config) (skip config) b)
           | None => mret config
           end;
  mret config.

(** [with open(filename, 'w') as f: for line in lines: f.write(line + '\n')] *)
Definition write_lines (filename : string) (lines : list string) : py unit :=
  fun w =>
    let text := concat (map (fun line => list_byte_of_string line ++ [x0a]) lines) in
    (Return tt, with_fs w (<[filename := File text]> (w_fs w))).

Section ChangeConfiguration.

(** [_change_configuration] calls two methods on the loaded configuration.
    Class [Configuration] defines neither, so their bodies are not part of
    the program; they are parameters here. *)
Variable set_config_from_lines : Configuration -> list string -> py Configuration.
Variable get_lines : Configuration -> py (list string).

Definition _change_configuration (env : environment)
    (params : list string) (filename : string) : py Configuration :=
  config ← load_configuration env filename;
  config ← call_method "set_config_from_lines"
             (set_config_from_lines config params);
  lines ← call_method "get_lines" (get_lines config);
  _ ← write_lines filename lines;
  mret config.

End ChangeConfiguration.

(** ** embed_mkv and the merge loop of main *)

(** [subprocess.Popen(params, shell=True, ...)] on POSIX starts the shell:
    the argument vector of the process is ['/bin/sh', '-c'] followed by the
    items of [params], so the first item is the command text the shell runs
    and the others are the shell's own positional parameters. *)
Definition shell_argv (params : list string) : list string :=
  ["/bin/sh"; "-c"]%string ++ params.

(** [check_output]: the process is started, and a non-zero return code
    raises.  Starting the shell itself is taken to succeed; what the process
    answers is the environment's. *)
Definition check_output (env : environment) (params : list string)
    : py string := fun w =>
  let argv := shell_argv params in
  let '(returncode, output) := popen env (w_procs w) argv in
  let w' := with_procs w (w_procs w ++ [argv]) in
  if negb (returncode =? 0)
  then (Raise (CalledProcessError returncode output), w')
  else (Return output, w').

Definition embed_mkv_params (movie_filename subtitle_filename language : string)
    : list string :=
  let output_filename := fst (os_path_splitext movie_filename) +:+ ".mkv" in
  ["mkvmerge"; "--output"; output_filename; movie_filename;
   "--language"; "0:" +:+ language; subtitle_filename]%string.

Definition embed_mkv (env : environment)
    (movie_filename subtitle_filename language : string)
    : py (bool * string) := fun w =>
  let params := embed_mkv_params movie_filename subtitle_filename language in
  match check_output env params w with
  | (Raise (CalledProcessError _ output), w') => (Return (false, output), w')
  | (Raise e, w') => (Raise e, w')
  | (Return _, w') => (Return (true, ""%string), w')
  end.

(** The line [print_status] prints. *)
Definition status_line (text status : string) : string :=
  let spaces := 70 - pystr.len text in
  let spaces := if spaces <? 2 then 2 else spaces in
  text +:+ pystr.times " " spaces +:+ status.

Definition print_status (text status : string) : py unit :=
  print (status_line text status).

(** An element of [matches]. *)
Record matched := Matched {
  movie_filename : string;
  subtitle_url : string;
  subtitle_ext : string;
  subtitle_filename : string
}.

(** [os.path.splitext(movie_filename)[1].lower() != u'.mkv'] *)
Definition not_mkv (movie_filename : string) : bool :=
  negb (String.eqb (pystr.lower (snd (os_path_splitext movie_filename))) ".mkv").

(** [for (...) in matches:] of the block under [if config.mkv:]. *)
Fixpoint embed_loop (env : environment) (config : Configuration)
    (matches : list matched) (failures : list (string * string))
    : py (list (string * string)) :=
  match matches with
  | [] => mret failures
  | m :: rest =>
      failures ←
        (if not_mkv (movie_filename m) then
           '(status, output) ← embed_mkv env (movie_filename m)
                                  (subtitle_filename m) (language config);
           let output_filename :=
             fst (os_path_splitext (movie_filename m)) +:+ ".mkv" in
           let failures :=
             if negb status then failures ++ [(movie_filename m, output)]
             else failures in
           let status := if status then "DONE" else "ERROR" in
           _ ← print_status (" - " +:+ os_path_basename output_filename) status;
           mret failures
         else
           _ ← print_status (" - " +:+ os_path_basename (movie_filename m))
                  "skipped";
           mret failures);
      embed_loop env config rest failures
  end.

Fixpoint report_failures (failures : list (string * string)) : py unit :=
  match failures with
  | [] => mret tt
  | (movie_filename, output) :: rest =>
      _ ← print (":{" +:+ movie_filename +:+ "}:");
      _ ← print output;
      report_failures rest
  end.

(** The block [if config.mkv:] that ends [main], returning the failures it
    collected. *)
Definition main_embed (env : environment) (config : Configuration)
    (matches : list matched) : py (list (string * string)) :=
  if mkv config then
    _ ← print "";
    _ ← print "Embedding MKV...";
    failures ← embed_loop env config matches [];
    _ ← (match failures with
         | [] => mret tt
         | _ :: _ =>
             _ ← print (pystr.times "_" 80);
             _ ← print "None";
             report_failures failures
         end);
    mret failures
  else mret [].

(** ** The specification's own wording of two algorithms *)

Module Reference.

(** *** Fingerprint

    Accumulator = size; add the first 65536 bytes as 8192 signed 64-bit
    little-endian integers, wrapping at 2^64 after each addition; the same
    for the 65536 bytes that start at [size - 65536]; print 16 lowercase
    hexadecimal digits. *)

Fixpoint chunks8 (l : list byte) : list (list byte) :=
  match l with
  | b0 :: b1 :: b2 :: b3 :: b4 :: b5 :: b6 :: b7 :: rest =>
      [b0; b1; b2; b3; b4; b5; b6; b7] :: chunks8 rest
  | _ => []
  end.

(** Byte [i] of a little-endian integer weighs [2^(8 i)]. *)
Fixpoint le_sum (i : Z) (c : list byte) : Z :=
  match c with
  | [] => 0
  | b :: c' => Z.shiftl (byte_val b) (8 * i) + le_sum (i + 1) c'
  end.

(** Two's-complement reading of a 64-bit pattern. *)
Definition int64_le (c : list byte) : Z :=
  (le_sum 0 c + 2 ^ 63) mod 2 ^ 64 - 2 ^ 63.

Definition accumulate (h : Z) (c : list byte) : Z :=
  (h + int64_le c) mod 2 ^ 64.

Definition add_window (h : Z) (window : list byte) : Z :=
  fold_left accumulate (chunks8 window) h.

Definition alphabet : list ascii := list_ascii_of_string "0123456789abcdef".

Definition nibble (h i : Z) : ascii :=
  nth (Z.to_nat (h / 16 ^ i mod 16)) alphabet "0"%char.

Definition hex16 (h : Z) : string :=
  string_of_list_ascii
    (map (nibble h) [15; 14; 13; 12; 11; 10; 9; 8; 7; 6; 5; 4; 3; 2; 1; 0]).

Definition fingerprint (data : list byte) : string :=
  let size := Z.of_nat (length data) in
  let h := size in
  let h := add_window h (take (Z.to_nat 65536) data) in
  let h := add_window h
             (take (Z.to_nat 65536) (drop (Z.to_nat (size - 65536)) data)) in
  hex16 h.

(** *** Selection

    With a season and an episode in the query, results whose season and
    episode, read as integers, differ from the query's are discarded; the
    first of what remains is chosen, and nothing when nothing remains. *)

Definition same_episode (env : environment) (season episode : Z)
    (r : search_result) : bool :=
  match r !! "SeriesSeason"%string ≫= builtin_int env,
        r !! "SeriesEpisode"%string ≫= builtin_int env with
  | Some s, Some e => (s =? season) && (e =? episode)
  | _, _ => false
  end.

Definition select (env : environment) (results : list search_result)
    (query : guessit_query) : option search_result :=
  match q_season query, q_episode query with
  | Some season, Some episode =>
      head (List.filter (same_episode env season episode) results)
  | _, _ => head results
  end.

End Reference.

(** ** Concrete hosts, services and file systems *)

Module Examples.

(** A decimal reading of [int()]: an optional sign, then digits. *)
Fixpoint digits_value (l : list ascii) (acc : Z) : option Z :=
  match l with
  | [] => Some acc
  | a :: l' =>
      let n := Z.of_N (N_of_ascii a) in
      if (48 <=? n) && (n <=? 57) then digits_value l' (10 * acc + (n - 48))
      else None
  end.

Definition decimal_int (s : string) : option Z :=
  match pystr.chars s with
  | [] => None
  | "-"%char :: (_ :: _) as l => Z.opp <$> digits_value l 0
  | "+"%char :: (_ :: _) as l => digits_value l 0
  | l => digits_value l 0
  end.

Definition no_guess : guess := Guess None None None None None None None.

(** An episode guess for [show.s01e02.avi] and nothing for other names. *)
Definition episode_guess (name : string) : guess :=
  if String.eqb name "show.s01e02.avi"
  then Guess (Some "episode") (Some "show") None None None (Some 1) (Some 2)
  else no_guess.

Definition result_of (season episode link : string) : search_result :=
  {[ "SeriesSeason" := season; "SeriesEpisode" := episode;
     "SubDownloadLink" := link; "SubFormat" := "srt" ]}%string.

Definition two_results : list search_result :=
  [result_of "1" "3" "http://dl/13.gz"; result_of "1" "2" "http://dl/12.gz"].

(** A service that accepts every call and answers every search with
    [two_results]. *)
Definition good_server (log : list rpc_call) (call : rpc_call)
    : outcome response :=
  match call with
  | LogIn _ _ _ _ => Return (Response (Some "tok"%string) None)
  | SearchSubtitles _ _ => Return (Response None (Some two_results))
  | LogOut _ => Return (Response None None)
  end.

(** The same service, but its [LogOut] fails. *)
Definition logout_fails (log : list rpc_call) (call : rpc_call)
    : outcome response :=
  match call with
  | LogOut _ => Raise ProtocolError
  | _ => good_server log call
  end.

(** A merge tool that always succeeds. *)
Definition tool_ok (log : list (list string)) (params : list string)
    : Z * string := (0, ""%string).
(** A merge tool that always fails. *)
Definition tool_fails (log : list (list string)) (params : list string)
    : Z * string := (2, "mkvmerge: error"%string).

Definition no_ini (text : list byte) : outcome (gmap string string) :=
  Return ∅.

Definition host (order : byteorder)
    (server : list rpc_call -> rpc_call -> outcome response)
    (tool : list (list string) -> list string -> Z * string)
    : environment :=
  Environment order decimal_int episode_guess server tool no_ini.

Definition x86 : environment := host little good_server tool_ok.
Definition s390 : environment := host big good_server tool_ok.

Definition world_of (fs : gmap string node) : world := World fs [] [] [] [].

(** A movie of exactly 128 KiB: 64 KiB of [0x01], then 64 KiB of [0xff]. *)
Definition movie_128k : list byte :=
  repeat x01 (Z.to_nat 65536) ++ repeat xff (Z.to_nat 65536).

(** 128 KiB whose first eight bytes are 1, 0, 0, 0, 0, 0, 0, 0. *)
Definition movie_le : list byte :=
  x01 :: repeat x00 (Z.to_nat 131071).

Definition small_movie : list byte := [x00; x01; x02].

Definition big_fs : gmap string node :=
  {[ "big.avi" := File movie_128k ]}%string.

Definition movies_fs : gmap string node :=
  {[ "small.avi" := File small_movie;
     "show.s01e02.avi" := File small_movie ]}%string.

(** [d] holds [a.mkv], [b.txt] and the directory [sub] with [c.avi]. *)
Definition tree_fs : gmap string node :=
  {[ "d" := Dir 4096 ["a.mkv"; "b.txt"; "sub"];
     "d/a.mkv" := File [];
     "d/b.txt" := File [];
     "d/sub" := Dir 4096 ["c.avi"];
     "d/sub/c.avi" := File [] ]}%string.

(** A directory where [movie.srt] and [movie.eng.srt] already exist, with
    and without [movie.eng.ss.srt]. *)
Definition subs_fs : gmap string node :=
  {[ "v/movie.mkv" := File [];
     "v/movie.srt" := File [];
     "v/movie.eng.srt" := File [] ]}%string.
Definition subs_fs_full : gmap string node :=
  <[ "v/movie.eng.ss.srt"%string := File [] ]> subs_fs.

Definition some_matches : list matched :=
  [Matched "v/a.avi" "http://dl/a.gz" ".srt" "v/a.srt";
   Matched "v/b.MKV" "http://dl/b.gz" ".srt" "v/b.srt";
   Matched "v/c.mp4" "http://dl/c.gz" ".srt" "v/c.srt"]%string.

Definition mkv_config : Configuration := Config "eng" false false true.

End Examples.

(** ** Vocabulary of the statements *)

(** Hexadecimal digit [i] of [n], counted from the least significant. *)
Definition digit_at (n : Z) (i : nat) : ascii :=
  hexdigit ((n / 16 ^ Z.of_nat i) mod 16).

(** What the local set [returned] guarantees inside one generator instance. *)
Definition distinct_so_far (st : gen_state) : Prop :=
  NoDup (yielded st) /\ forall x, x ∈ yielded st -> x ∈ returned st.

Definition is_search (c : rpc_call) : bool :=
  match c with SearchSubtitles _ _ => true | _ => false end.

(** [c] is the search call of [movie_filename]: its name query and a hash
    query, with the session token. *)
Definition search_for (env : environment) (token language : string)
    (movie_filename : string) (c : rpc_call) : Prop :=
  exists hash_query,
    c = SearchSubtitles token
          [ByName (obtain_guessit_query env movie_filename language);
           ByHash hash_query].

(** A computation that leaves the log of remote calls as it found it. *)
Definition keeps_rpc {A} (m : py A) : Prop :=
  forall w, w_rpc (snd (m w)) = w_rpc w.

(** A regular file has this path. *)
Definition regular_file (fs : gmap string node) (path : string) : Prop :=
  exists data, fs !! path = Some (File data).

(** [name] is the last component of [path]: what follows its last [/]. *)
Definition file_name_of (path name : string) : Prop :=
("/"%char ∉ pystr.chars name) /\
  (path = name \/ exists before, path = (before +:+ "/" +:+ name)%string).

(** What precedes the last component of a path, and what [os.path] keeps
    of it when a name is joined to the directory again: a prefix that is
    empty or made of slashes is kept as it is; otherwise the prefix is a
    directory that does not end in a slash, followed by one or more slashes,
    and the directory with one slash is kept. *)
Definition directory_prefix (prefix kept : string) : Prop :=
  (Forall (fun a => a = "/"%char) (pystr.chars prefix) /\ kept = prefix) \/
  exists dir a k,
    prefix = (dir +:+ pystr.times "/" k)%string /\ 1 <= k /\
    last (pystr.chars dir) = Some a /\ a <> "/"%char /\
    kept = (dir +:+ "/")%string.

(** A file name - not empty, without a slash - written as stem and
    extension.  Either there is no extension, and the name is dots followed
    by characters other than dots; or the extension is a dot followed by
    characters other than dot and slash, and the stem is not made of dots
    alone. *)
Definition stem_and_extension (stem extension : string) : Prop :=
  stem <> ""%string /\ ("/"%char ∉ pystr.chars stem) /\
  ((extension = ""%string /\
    exists dots e,
      stem = (dots +:+ e)%string /\
      Forall (fun a => a = "."%char) (pystr.chars dots) /\
      ("."%char ∉ pystr.chars e)) \/
   (exists e a,
      extension = ("." +:+ e)%string /\
      ("."%char ∉ pystr.chars e) /\ ("/"%char ∉ pystr.chars e) /\
      a ∈ pystr.chars stem /\ a <> "."%char)).

(** A result whose season and episode fields both read as integers. *)
Definition reads_as_integers (env : environment) (x : search_result) : Prop :=
  exists season_and_episode, season_episode env x = Return season_and_episode.

(** The matches whose extension, lower-cased, is not [.mkv], and the
    argument vector of the process started for one. *)
Definition wants_merge (m : matched) : bool :=
  negb (String.eqb
          (pystr.lower (snd (os_path_splitext (movie_filename m)))) ".mkv").
Definition merge_command (config : Configuration) (m : matched) : list string :=
  shell_argv
    (embed_mkv_params (movie_filename m) (subtitle_filename m) (language config)).

(** A printed line that reports [name] with [status]: [" - "], the name, two
    or more blanks, the status. *)
Definition reports (name status line : string) : Prop :=
  exists n, 2 <= n /\
    line = (" - " +:+ name +:+ pystr.times " " n +:+ status)%string.

(** ** has_subtitle *)

(** [formats] of [has_subtitle]. *)
Definition formats : list string :=
  [".sub"; ".srt"; ".ssa"; ".smi"; ".mpl"]%string.

(** [for ext in formats: if os.path.isfile(basename + ext): return True],
    then [return False]. *)
Fixpoint any_subtitle (fs : gmap string node) (basename : string)
    (formats : list string) : bool :=
  match formats with
  | [] => false
  | ext :: rest =>
      if os_path_isfile fs (basename +:+ ext) then true
      else any_subtitle fs basename rest
  end.

Definition has_subtitle (fs : gmap string node) (filename : string) : bool :=
  let basename := fst (os_path_splitext filename) in
  any_subtitle fs basename formats.

(** ** check_mkv *)

Definition check_mkv (env : environment) : py bool := fun w =>
  match check_output env ["mkvmerge"; "--version"]%string w with
  | (Raise (CalledProcessError _ _), w') => (Return false, w')
  | (Raise e, w') => (Raise e, w')
  | (Return _, w') => (Return true, w')
  end.

(** ** Configuration.__str__ *)

(** ['%s' % flag] for a boolean. *)
Definition pybool (b : bool) : string := if b then "True" else "False".

Definition newline : string := String (ascii_of_nat 10) EmptyString.

Definition Configuration_str (self : Configuration) : string :=
  let values := [
    "language = " +:+ language self;
    "recursive = " +:+ pybool (recursive self);
    "skip = " +:+ pybool (skip self);
    "mkv = " +:+ pybool (mkv self)
  ] in
  pystr.join newline values.

(** ** main, up to the query *)

(** [for input_filename in input_filenames:] of the block under
    [if config.skip:], with the two lists it appends to. *)
Fixpoint skip_loop (fs : gmap string node) (input_filenames : list string)
    (skipped_filenames new_input_filenames : list string)
    : list string * list string :=
  match input_filenames with
  | [] => (skipped_filenames, new_input_filenames)
  | input_filename :: rest =>
      if has_subtitle fs input_filename
      then skip_loop fs rest (skipped_filenames ++ [input_filename])
             new_input_filenames
      else skip_loop fs rest skipped_filenames
             (new_input_filenames ++ [input_filename])
  end.

(** How the first part of [main] ends: with an exit code, or with the
    configuration and the files to query for; [Unfinished] when the fuel
    given to discovery did not reach the bottom of the tree. *)
Inductive prepared :=
| Exit (code : Z)
| Proceed (config : Configuration) (input_filenames : list string)
| Unfinished.

(** [main] from the test on the number of arguments to the line that
    announces the query (lines 312-355), for the configuration [config] and
    the positional arguments [args], program name first.  [usage] is the text
    [parser.print_help] writes. *)
Definition main_files (env : environment) (fuel : nat) (usage : string)
    (config : Configuration) (args : list string) : py prepared :=
  if (length args <? 2)%nat then
    _ ← print usage;
    mret (Exit 2)
  else fun w =>
    match find_movie_files fuel (w_fs w) (tail args) (recursive config) with
    | (_, Raised e) => (Raise e, w)
    | (_, OutOfFuel) => (Return Unfinished, w)
    | ([], Exhausted) =>
        (_ ← print "No files to search subtitles for. Aborting.";
         mret (Exit 1)) w
    | (input_filenames, Exhausted) =>
        (found ← (if mkv config then check_mkv env else mret true);
         if negb found then
           _ ← print "mkvmerge not found in PATH.";
           _ ← print ("Either install mkvtoolnix or disable mkv merging "
                      +:+ "in your config.");
           mret (Exit 4)
         else fun w =>
           let '(skipped_filenames, input_filenames) :=
             if skip config then skip_loop (w_fs w) input_filenames [] []
             else ([], input_filenames) in
           (_ ← (match skipped_filenames with
                 | [] => mret tt
                 | _ :: _ =>
                     print ("Skipping "
                            +:+ pystr.of_int (Z.of_nat (length skipped_filenames))
                            +:+ " files that already have subtitles.")
                 end);
            _ ← print ("Language: " +:+ language config);
            match input_filenames with
            | [] => mret (Exit 1)
            | _ :: _ =>
                _ ← print ("Querying OpenSubtitles.org for "
                           +:+ pystr.of_int (Z.of_nat (length input_filenames))
                           +:+ " file(s)...");
                _ ← print EmptyString;
                mret (Proceed config input_filenames)
            end) w) w
    end.

(** [main] from the loading of the configuration on (lines 305-355), for
    parsed options: [verbose] is [options.verbose].  [home] is what
    [os.path.expanduser('~')] answers, and [stream] is [sys.stdout]. *)
Definition main_prepare (env : environment) (fuel : nat) (home usage : string)
    (verbose : bool) (args : list string) : py prepared :=
  let config_filename := os_path_join home ".ss.ini" in
  config ← load_configuration env config_filename;
  _ ← (if verbose then
         _ ← print ("Configuration read from " +:+ config_filename);
         _ ← print (Configuration_str config);
         print EmptyString
       else mret tt);
  main_files env fuel usage config args.

(** ** Vocabulary of the further statements *)

(** The integer [struct.unpack('q', c)] reads from eight bytes on a host of
    the given byte order. *)
Definition unpacked (order : byteorder) (c : list byte) : Z :=
  let u := uint_of_bytes (match order with
                          | little => c
                          | big => rev c
                          end) in
  if 2 ^ 63 <=? u then u - 2 ^ 64 else u.

(** The accumulator after a window of bytes, masked after every addition as
    the loop does, and the plain sum of the integers of a window. *)
Definition wrapping_sum (order : byteorder) (h : Z) (window : list byte) : Z :=
  fold_left (fun h c => (h + unpacked order c) mod 2 ^ 64)
            (Reference.chunks8 window) h.
Definition plain_sum (order : byteorder) (window : list byte) : Z :=
  fold_right (fun c s => unpacked order c + s) 0 (Reference.chunks8 window).

(** The two windows the hash reads. *)
Definition head_window (data : list byte) : list byte :=
  take (Z.to_nat 65536) data.
Definition tail_window (data : list byte) : list byte :=
  take (Z.to_nat 65536) (drop (Z.to_nat (Z.of_nat (length data) - 65536)) data).

(** Where a path yielded without recursion comes from: an input that is a
    regular file, or an entry with a movie extension of an input that was
    listed. *)
Definition flat_origin (fs : gmap string node) (inputs : list string)
    (x : string) : Prop :=
  (x ∈ inputs /\ os_path_isfile fs x = true) \/
  exists d names name,
    d ∈ inputs /\ os_listdir fs d = Return names /\ name ∈ names /\
    pystr.suffix 4 name ∈ extensions /\ x = os_path_join d name.

(** A flag of the configuration file: the value under [key] read as a
    boolean, or [default] when the key is not set. *)
Definition flag_setting (p : gmap string string) (key : string)
    (default : bool) : outcome bool :=
  match p !! key with
  | Some value => getboolean value
  | None => Return default
  end.

(** The options [RawConfigParser] holds after reading the four values
    [__str__] prints. *)
Definition printed_options (c : Configuration) : gmap string string :=
  {[ "language" := language c;
     "recursive" := pybool (recursive c);
     "skip" := pybool (skip c);
     "mkv" := pybool (mkv c) ]}%string.

(** The lines [main] prints about the configuration when [options.verbose]
    is set. *)
Definition verbose_lines (config_filename : string) (config : Configuration)
    (verbose : bool) : list string :=
  if verbose
  then [("Configuration read from " +:+ config_filename)%string;
        Configuration_str config; EmptyString]
  else [].

(** The files [main] goes on with once the skip loop has run. *)
Definition remaining (fs : gmap string node) (config : Configuration)
    (found : list string) : list string :=
  if skip config
  then List.filter (fun f => negb (has_subtitle fs f)) found
  else found.

Module MoreExamples.

(** Two files of 131080 bytes that differ only in the eight bytes between
    the first and the last 65536. *)
Definition window_a : list byte := repeat x01 (Z.to_nat 65536).
Definition window_b : list byte := repeat xff (Z.to_nat 65536).
Definition padded_1 : list byte := window_a ++ repeat x00 8 ++ window_b.
Definition padded_2 : list byte := window_a ++ repeat x07 8 ++ window_b.
Definition padded_fs : gmap string node :=
  {[ "one.avi" := File padded_1; "two.avi" := File padded_2 ]}%string.

(** A result without season and episode fields. *)
Definition bare_result : search_result :=
  {[ "SubDownloadLink" := "http://dl/x.gz"; "SubFormat" := "srt" ]}%string.

(** A host whose configuration file asks for merging, with and without a
    working merge tool, and a file system that has the configuration file. *)
Definition mkv_host (tool : list (list string) -> list string -> Z * string)
    : environment :=
  Environment little Examples.decimal_int Examples.episode_guess
    Examples.good_server tool
    (fun _ => Return (printed_options Examples.mkv_config)).
Definition home_fs : gmap string node :=
  <[ "h/.ss.ini"%string := File [] ]> Examples.tree_fs.

End MoreExamples.

(** * Properties *)

(** ** Monad and world bookkeeping *)

Lemma bind_return {A B} (m : py A) (k : A -> py B) w a w' :
  m w = (Return a, w') -> (m ≫= k) w = k a w'.
Proof. intros H. unfold mbind, py_bind. now rewrite H. Qed.

Lemma bind_raise {A B} (m : py A) (k : A -> py B) w e w' :
  m w = (Raise e, w') -> (m ≫= k) w = (Raise e, w').
Proof. intros H. unfold mbind, py_bind. now rewrite H. Qed.

Tactic Notation "world_simpl" :=
  cbn [with_fs with_files with_rpc with_procs with_stdout
       w_fs w_files w_rpc w_procs w_stdout].
Tactic Notation "world_simpl" "in" hyp(H) :=
  cbn [with_fs with_files with_rpc with_procs with_stdout
       w_fs w_files w_rpc w_procs w_stdout] in H.

Lemma with_files_id w : with_files w (w_files w) = w.
Proof. now destruct w. Qed.

Lemma with_files_twice w l1 l2 :
  with_files (with_files w l1) l2 = with_files w l2.
Proof. reflexivity. Qed.

Lemma lookup_last {A} (l : list A) x : (l ++ [x]) !! length l = Some x.
Proof. now rewrite list_lookup_middle. Qed.

Lemma insert_last {A} (l : list A) x y : <[length l := y]> (l ++ [x]) = l ++ [y].
Proof.
  replace (length l) with (length l + 0)%nat at 1 by lia.
  now rewrite insert_app_r.
Qed.

(** ** Strings and paths *)

Lemma chars_app a b : pystr.chars (a +:+ b) = pystr.chars a ++ pystr.chars b.
Proof.
  unfold pystr.chars. induction a as [|x a IH]; [reflexivity|].
  change (String x a +:+ b)%string with (String x (a +:+ b)).
  cbn [list_ascii_of_string app]. now rewrite IH.
Qed.

Lemma str_app (l k : list ascii) :
  pystr.str (l ++ k) = (pystr.str l +:+ pystr.str k)%string.
Proof.
  unfold pystr.str. induction l as [|a l IH]; cbn; [reflexivity|now rewrite IH].
Qed.

Lemma str_chars s : pystr.str (pystr.chars s) = s.
Proof. apply string_of_list_ascii_of_string. Qed.

Lemma chars_str l : pystr.chars (pystr.str l) = l.
Proof. apply list_ascii_of_string_of_list_ascii. Qed.

Lemma chars_length s : length (pystr.chars s) = String.length s.
Proof.
  unfold pystr.chars. induction s as [|x s IH]; cbn; [reflexivity|now rewrite IH].
Qed.

Lemma append_empty_r s : (s +:+ EmptyString)%string = s.
Proof.
  induction s as [|a s IH]; [reflexivity|].
  change (String a (s +:+ EmptyString) = String a s). now rewrite IH.
Qed.

Lemma append_assoc a b c : ((a +:+ b) +:+ c)%string = (a +:+ b +:+ c)%string.
Proof.
  induction a as [|x a IH]; [reflexivity|].
  change (String x ((a +:+ b) +:+ c) = String x (a +:+ b +:+ c)).
  now rewrite IH.
Qed.

Lemma slice_to_slice_from s i :
  (pystr.slice_to s i +:+ pystr.slice_from s i)%string = s.
Proof.
  unfold pystr.slice_to, pystr.slice_from.
  rewrite <- str_app, take_drop. apply str_chars.
Qed.

Lemma slice_to_app a b :
  pystr.slice_to (a +:+ b) (Z.of_nat (String.length a)) = a.
Proof.
  unfold pystr.slice_to. rewrite Nat2Z.id, chars_app, <- chars_length.
  rewrite take_app_length. apply str_chars.
Qed.

Lemma slice_from_app a b :
  pystr.slice_from (a +:+ b) (Z.of_nat (String.length a)) = b.
Proof.
  unfold pystr.slice_from. rewrite Nat2Z.id, chars_app, <- chars_length.
  rewrite drop_app_length. apply str_chars.
Qed.

(** [rfind] answers -1 exactly when the character does not occur, and
    otherwise the position after which it occurs no more. *)
Lemma rfind_from_absent c s : forall i,
  c ∉ pystr.chars s -> pystr.rfind_from c s i = -1.
Proof.
  induction s as [|x s IH]; intros i Hc; [reflexivity|].
  cbn [pystr.rfind_from]. cbv zeta.
  change (pystr.chars (String x s)) with (x :: pystr.chars s) in Hc.
  apply not_elem_of_cons in Hc as [Hx Hs].
  rewrite (IH _ Hs), Z.eqb_refl.
  destruct (Ascii.eqb_spec x c); [congruence|reflexivity].
Qed.

Lemma rfind_from_last c a b : forall i,
  0 <= i -> c ∉ pystr.chars b ->
  pystr.rfind_from c (a +:+ String c b) i = i + Z.of_nat (String.length a).
Proof.
  induction a as [|x a IH]; intros i Hi Hc.
  - change (EmptyString +:+ String c b)%string with (String c b).
    cbn [pystr.rfind_from String.length]. cbv zeta.
    rewrite (rfind_from_absent _ _ _ Hc), Z.eqb_refl, Ascii.eqb_refl. lia.
  - change (String x a +:+ String c b)%string with (String x (a +:+ String c b)).
    cbn [pystr.rfind_from String.length]. cbv zeta.
    rewrite (IH (i + 1)) by (lia || assumption).
    destruct (Z.eqb_spec (i + 1 + Z.of_nat (String.length a)) (-1)); lia.
Qed.

Lemma rfind_from_split c s : forall i,
  0 <= i ->
  ((c ∉ pystr.chars s) /\ pystr.rfind_from c s i = -1) \/
  exists a b, s = (a +:+ String c b)%string /\ (c ∉ pystr.chars b) /\
              pystr.rfind_from c s i = i + Z.of_nat (String.length a).
Proof.
  induction s as [|x s IH]; intros i Hi.
  - left. split; [apply not_elem_of_nil|reflexivity].
  - destruct (IH (i + 1)) as [[Hs Hr]|(a & b & -> & Hb & Hr)]; [lia| |].
    + destruct (Ascii.eqb_spec x c) as [->|Hx].
      * right. exists EmptyString, s. split; [reflexivity|]. split; [exact Hs|].
        apply (rfind_from_last c EmptyString s i Hi Hs).
      * left. split.
        { change (pystr.chars (String x s)) with (x :: pystr.chars s).
          apply not_elem_of_cons. split; [congruence|exact Hs]. }
        cbn [pystr.rfind_from]. cbv zeta. rewrite Hr, Z.eqb_refl.
        destruct (Ascii.eqb_spec x c); [contradiction|reflexivity].
    + right. exists (String x a), b. split; [reflexivity|]. split; [exact Hb|].
      apply (rfind_from_last c (String x a) b i Hi Hb).
Qed.

(** The position [os.path] cuts at - one past the last slash - is the length
    of what precedes a last component without slashes. *)
Lemma rfind_sep_empty name :
  "/"%char ∉ pystr.chars name -> pystr.rfind "/" name + 1 = 0.
Proof.
  intros Hname. unfold pystr.rfind. rewrite rfind_from_absent by exact Hname. lia.
Qed.

Lemma rfind_sep_prefix before name :
  "/"%char ∉ pystr.chars name ->
  pystr.rfind "/" (before +:+ "/" +:+ name)
  + 1 = Z.of_nat (String.length (before +:+ "/")).
Proof.
  intros Hname. unfold pystr.rfind.
  change ("/" +:+ name)%string with (String "/" name).
  rewrite rfind_from_last by (lia || assumption).
  assert (Hlen : forall a b, String.length (a +:+ b) = (String.length a + String.length b)%nat).
  { intros a b. rewrite <- !chars_length, chars_app. apply length_app. }
  rewrite Hlen. cbn [String.length]. lia.
Qed.

Lemma os_path_basename_name name :
  "/"%char ∉ pystr.chars name -> os_path_basename name = name.
Proof.
  intros Hname. unfold os_path_basename. rewrite rfind_sep_empty by exact Hname.
  unfold pystr.slice_from. cbn [Z.to_nat drop]. apply str_chars.
Qed.

Lemma os_path_basename_prefix before name :
  "/"%char ∉ pystr.chars name ->
  os_path_basename (before +:+ "/" +:+ name) = name.
Proof.
  intros Hname. unfold os_path_basename.
  rewrite rfind_sep_prefix by exact Hname.
  rewrite <- append_assoc. apply slice_from_app.
Qed.

(** [os.path.basename] answers the last component, and every path has
    one. *)
Lemma os_path_basename_spec path name :
  file_name_of path name -> os_path_basename path = name.
Proof.
  intros [Hname [->|[before ->]]].
  - now apply os_path_basename_name.
  - now apply os_path_basename_prefix.
Qed.

Lemma file_name_of_basename path : file_name_of path (os_path_basename path).
Proof.
  destruct (rfind_from_split "/" path 0) as [[Hs Hr]|(a & b & -> & Hb & Hr)];
    [lia| |].
  - rewrite (os_path_basename_name _ Hs). split; [exact Hs|now left].
  - change (String "/" b) with ("/" +:+ b)%string.
    rewrite (os_path_basename_prefix _ _ Hb). split; [exact Hb|].
    right. now exists a.
Qed.

Lemma string_length_app a b :
  String.length (a +:+ b) = (String.length a + String.length b)%nat.
Proof. rewrite <- !chars_length, chars_app. apply length_app. Qed.

Lemma times_chars c n : pystr.chars (pystr.times c n) = repeat c (Z.to_nat n).
Proof. unfold pystr.times. apply chars_str. Qed.

(** A string of slashes is the string [os.path.dirname] compares it with. *)
Lemma all_slashes_times s :
  Forall (fun a => a = "/"%char) (pystr.chars s) ->
  s = pystr.times "/" (pystr.len s).
Proof.
  intros Hall. rewrite <- (str_chars s) at 1. unfold pystr.times. f_equal.
  unfold pystr.len. rewrite Nat2Z.id.
  induction Hall as [|a l -> _ IH]; [reflexivity|].
  cbn [List.filter].
  change (negb (pystr.is_continuation "/")) with true.
  cbn [length repeat]. f_equal. exact IH.
Qed.

Lemma not_all_slashes_times s a n :
  a ∈ pystr.chars s -> a <> "/"%char -> s <> pystr.times "/" n.
Proof.
  intros Hin Ha ->. rewrite times_chars in Hin.
  apply list_elem_of_In, repeat_spec in Hin. contradiction.
Qed.

Lemma last_elem_of {A} (l : list A) a : last l = Some a -> a ∈ l.
Proof.
  intros H. apply last_Some in H as [l' ->]. apply elem_of_app. right.
  apply list_elem_of_singleton. reflexivity.
Qed.

Lemma lstrip_chars_repeat c n a l :
  a <> c ->
  pystr.lstrip_chars c (repeat c n ++ a :: l) = a :: l.
Proof.
  intros Ha. induction n as [|n IH]; cbn [repeat app pystr.lstrip_chars].
  - destruct (Ascii.eqb_spec a c); [contradiction|reflexivity].
  - now rewrite Ascii.eqb_refl.
Qed.

Lemma rev_repeat {A} (c : A) n : rev (repeat c n) = repeat c n.
Proof.
  induction n as [|n IH]; [reflexivity|].
  cbn [repeat rev]. rewrite IH. symmetry. apply repeat_cons.
Qed.

Lemma rstrip_slashes dir a k :
  last (pystr.chars dir) = Some a -> a <> "/"%char ->
  pystr.rstrip "/" (dir +:+ pystr.times "/" k) = dir.
Proof.
  intros Hlast Ha. unfold pystr.rstrip.
  apply last_Some in Hlast as [l' Hdir].
  rewrite chars_app, Hdir, times_chars.
  rewrite !rev_app_distr, rev_repeat. cbn [rev app].
  rewrite lstrip_chars_repeat by exact Ha.
  change (a :: rev l') with (rev [a] ++ rev l').
  rewrite <- rev_app_distr, rev_involutive, <- Hdir. apply str_chars.
Qed.

Lemma times_snoc c k :
  1 <= k -> pystr.times c k = (pystr.times c (k - 1) +:+ String c EmptyString)%string.
Proof.
  intros Hk. unfold pystr.times.
  replace (Z.to_nat k) with (S (Z.to_nat (k - 1))) by lia.
  cbn [repeat]. rewrite repeat_cons, str_app. reflexivity.
Qed.

Lemma endswith_last s a :
  last (pystr.chars s) = Some a -> pystr.endswith s "/" = Ascii.eqb a "/".
Proof.
  intros Hlast. unfold pystr.endswith.
  apply last_Some in Hlast as [l' ->].
  now rewrite rev_app_distr.
Qed.

Lemma startswith_stem stem rest :
  stem <> ""%string -> ("/"%char ∉ pystr.chars stem) ->
  pystr.startswith (stem +:+ rest) "/" = false.
Proof.
  intros Hne Hslash. destruct stem as [|x stem]; [contradiction|].
  change (String x stem +:+ rest)%string with (String x (stem +:+ rest)).
  cbn [pystr.startswith].
  change (pystr.chars (String x stem)) with (x :: pystr.chars stem) in Hslash.
  apply not_elem_of_cons in Hslash as [Hx _].
  destruct (Ascii.eqb_spec x "/"); [congruence|reflexivity].
Qed.

Lemma last_chars_cut s a :
  last (pystr.chars s) = Some a ->
  exists before, s = (before +:+ String a EmptyString)%string.
Proof.
  intros Hlast. apply last_Some in Hlast as [l Hs].
  exists (pystr.str l). rewrite <- (str_chars s), Hs, str_app. reflexivity.
Qed.

Lemma last_chars_none s : last (pystr.chars s) = None -> s = ""%string.
Proof.
  intros Hlast. apply last_None in Hlast.
  rewrite <- (str_chars s), Hlast. reflexivity.
Qed.

Lemma all_slashes_last s a :
  Forall (fun a => a = "/"%char) (pystr.chars s) ->
  last (pystr.chars s) = Some a -> a = "/"%char.
Proof.
  intros Hall Hlast. rewrite Forall_forall in Hall.
  apply Hall. now apply last_elem_of.
Qed.

(** A prefix is empty or ends in a slash. *)
Lemma directory_prefix_cut prefix kept :
  directory_prefix prefix kept ->
  prefix = ""%string \/ exists before, prefix = (before +:+ "/")%string.
Proof.
  intros [[Hall _]|(dir & a & k & -> & Hk & _)].
  - destruct (last (pystr.chars prefix)) as [a|] eqn:Hlast.
    + right. rewrite (all_slashes_last _ _ Hall Hlast) in Hlast.
      now apply last_chars_cut.
    + left. now apply last_chars_none.
  - right. exists (dir +:+ pystr.times "/" (k - 1))%string.
    now rewrite (times_snoc "/" k Hk), append_assoc.
Qed.

Lemma dirname_head prefix kept name :
  directory_prefix prefix kept ->
  ("/"%char ∉ pystr.chars name) ->
  pystr.slice_to (prefix +:+ name) (pystr.rfind "/" (prefix +:+ name) + 1)
  = prefix.
Proof.
  intros Hprefix Hname.
  destruct (directory_prefix_cut _ _ Hprefix) as [->|[before ->]].
  - change (EmptyString +:+ name)%string with name.
    rewrite rfind_sep_empty by exact Hname. reflexivity.
  - rewrite append_assoc, rfind_sep_prefix by exact Hname.
    rewrite <- append_assoc. apply slice_to_app.
Qed.

Lemma basename_tail prefix kept name :
  directory_prefix prefix kept ->
  ("/"%char ∉ pystr.chars name) ->
  os_path_basename (prefix +:+ name) = name.
Proof.
  intros Hprefix Hname.
  destruct (directory_prefix_cut _ _ Hprefix) as [->|[before ->]].
  - now apply os_path_basename_name.
  - rewrite append_assoc. now apply os_path_basename_prefix.
Qed.

(** The directory [os.path.dirname] cuts off, joined again with a relative
    name, is what is kept of the prefix followed by that name. *)
Lemma dirname_join prefix kept name x :
  directory_prefix prefix kept ->
  ("/"%char ∉ pystr.chars name) ->
  pystr.startswith x "/" = false ->
  os_path_join (os_path_dirname (prefix +:+ name)) x = (kept +:+ x)%string.
Proof.
  intros Hprefix Hname Hx.
  unfold os_path_dirname. cbv zeta.
  rewrite (dirname_head prefix kept name Hprefix Hname).
  destruct Hprefix as [[Hall ->]|(dir & a & k & -> & Hk & Hlast & Ha & ->)].
  - rewrite <- (all_slashes_times prefix Hall), String.eqb_refl, andb_false_r.
    unfold os_path_join. rewrite Hx.
    destruct (last (pystr.chars prefix)) as [a|] eqn:Hlast.
    + rewrite (endswith_last _ _ Hlast), (all_slashes_last _ _ Hall Hlast).
      now rewrite orb_true_r.
    + now rewrite (last_chars_none _ Hlast).
  - destruct (String.eqb_spec (dir +:+ pystr.times "/" k) "") as [Hempty|_].
    { apply (f_equal String.length) in Hempty.
      rewrite (times_snoc "/" k Hk), !string_length_app in Hempty.
      cbn in Hempty. lia. }
    destruct (String.eqb_spec (dir +:+ pystr.times "/" k)
                (pystr.times "/" (pystr.len (dir +:+ pystr.times "/" k))))
      as [Heq|_].
    { exfalso. revert Heq. apply (not_all_slashes_times _ a); [|exact Ha].
      rewrite chars_app. apply elem_of_app. left. now apply last_elem_of. }
    cbn [negb andb]. rewrite (rstrip_slashes dir a k Hlast Ha).
    unfold os_path_join. rewrite Hx, (endswith_last dir a Hlast).
    destruct (Ascii.eqb_spec a "/"); [contradiction|].
    destruct (String.eqb_spec dir "") as [->|_]; [discriminate|].
    cbn [orb]. now rewrite append_assoc.
Qed.

Lemma slice_from_0 s : pystr.slice_from s 0 = s.
Proof. unfold pystr.slice_from. cbn [Z.to_nat drop]. apply str_chars. Qed.

Lemma existsb_all_dots l :
  Forall (fun a => a = "."%char) l ->
  existsb (fun a => negb (Ascii.eqb a ".")) l = false.
Proof.
  induction 1 as [|a l -> _ IH]; [reflexivity|].
  cbn [existsb]. now rewrite Ascii.eqb_refl.
Qed.

(** [os.path.splitext] cuts a file name into the stem and the extension it
    is written with. *)
Lemma os_path_splitext_stem stem extension :
  stem_and_extension stem extension ->
  os_path_splitext (stem +:+ extension) = (stem, extension).
Proof.
  intros (Hne & Hslash &
          [(-> & dots & e & -> & Hdots & He)
          |(e & a & -> & Hdot & He & Ha & Hnotdot)]).
  - rewrite append_empty_r. unfold os_path_splitext. cbv zeta.
    assert (Hsep : pystr.rfind "/" (dots +:+ e) = -1)
      by (unfold pystr.rfind; now apply rfind_from_absent).
    rewrite Hsep.
    destruct (last (pystr.chars dots)) as [c|] eqn:Hlast.
    + pose proof (last_chars_cut _ _ Hlast) as [before Hcut].
      assert (Hc : c = "."%char).
      { rewrite Forall_forall in Hdots. apply Hdots. now apply last_elem_of. }
      subst c.
      assert (Hbefore : Forall (fun a => a = "."%char) (pystr.chars before)).
      { rewrite Hcut, chars_app in Hdots. now apply Forall_app in Hdots as [? _]. }
      rewrite Hcut, append_assoc.
      change (String "." EmptyString +:+ e)%string with (String "." e).
      assert (Hdotpos : pystr.rfind "." (before +:+ String "." e)
                        = Z.of_nat (String.length before)).
      { unfold pystr.rfind. rewrite rfind_from_last by (lia || assumption). lia. }
      rewrite Hdotpos.
      destruct (Z.ltb_spec (-1) (Z.of_nat (String.length before))) as [_|]; [|lia].
      unfold pystr.slice. change (-1 + 1) with 0.
      rewrite slice_to_app, slice_from_0.
      now rewrite (existsb_all_dots _ Hbefore).
    + rewrite (last_chars_none _ Hlast).
      change (EmptyString +:+ e)%string with e.
      unfold pystr.rfind. rewrite (rfind_from_absent "." e) by exact He.
      reflexivity.
  - unfold os_path_splitext. cbv zeta.
    assert (Hsep : pystr.rfind "/" (stem +:+ "." +:+ e) = -1).
    { unfold pystr.rfind. apply rfind_from_absent.
      rewrite chars_app. change ("." +:+ e)%string with (String "." e).
      change (pystr.chars (String "." e)) with ("."%char :: pystr.chars e).
      intros Hin. apply elem_of_app in Hin as [Hin|Hin]; [contradiction|].
      apply elem_of_cons in Hin as [Hin|Hin]; [discriminate|contradiction]. }
    assert (Hdotpos : pystr.rfind "." (stem +:+ "." +:+ e)
                      = Z.of_nat (String.length stem)).
    { unfold pystr.rfind. change ("." +:+ e)%string with (String "." e).
      rewrite rfind_from_last by (lia || assumption). lia. }
    rewrite Hsep, Hdotpos.
    destruct (Z.ltb_spec (-1) (Z.of_nat (String.length stem))) as [_|]; [|lia].
    unfold pystr.slice. change (-1 + 1) with 0.
    rewrite slice_to_app, slice_from_app, slice_from_0.
    assert (Hex : existsb (fun b => negb (Ascii.eqb b ".")) (pystr.chars stem) = true).
    { apply existsb_exists. exists a. split; [now apply list_elem_of_In|].
      destruct (Ascii.eqb_spec a "."); [contradiction|reflexivity]. }
    now rewrite Hex.
Qed.

(** Every path is slashes, or something that does not end in a slash
    followed by slashes. *)
Lemma trailing_slashes (l : list ascii) :
  Forall (fun a => a = "/"%char) l \/
  exists l' a k, l = l' ++ [a] ++ repeat "/"%char k /\ a <> "/"%char.
Proof.
  induction l as [|c l IH] using rev_ind; [left; constructor|].
  destruct (Ascii.eqb_spec c "/") as [->|Hc].
  - destruct IH as [Hall|(l' & a & k & -> & Ha)].
    + left. apply Forall_app. split; [exact Hall|]. now constructor.
    + right. exists l', a, (S k). split; [|exact Ha].
      cbn [repeat]. rewrite repeat_cons, <- !app_assoc. reflexivity.
  - right. exists l, c, 0%nat. split; [|exact Hc]. reflexivity.
Qed.

Lemma directory_prefix_exists before :
  exists kept, directory_prefix (before +:+ "/") kept.
Proof.
  destruct (trailing_slashes (pystr.chars before)) as [Hall|(l' & a & k & Hl & Ha)].
  - eexists. left. split; [|reflexivity].
    rewrite chars_app. apply Forall_app. split; [exact Hall|]. now constructor.
  - exists (pystr.str (l' ++ [a]) +:+ "/")%string. right.
    exists (pystr.str (l' ++ [a])), a, (Z.of_nat (S k)).
    split; [|split; [lia|split; [|split; [exact Ha|reflexivity]]]].
    + rewrite <- (str_chars before), Hl. unfold pystr.times.
      rewrite Nat2Z.id. cbn [repeat]. rewrite repeat_cons.
      change "/"%string with (pystr.str ["/"%char]).
      rewrite <- !str_app. f_equal. now rewrite <- !app_assoc.
    + rewrite chars_str. apply last_snoc.
Qed.

Lemma forall_not_exists_dots l :
  existsb (fun a => negb (Ascii.eqb a ".")) l = false ->
  Forall (fun a => a = "."%char) l.
Proof.
  induction l as [|a l IH]; [constructor|].
  cbn [existsb]. intros H. apply orb_false_elim in H as [Ha Hl].
  constructor; [|now apply IH].
  destruct (Ascii.eqb_spec a "."); [assumption|discriminate].
Qed.

Lemma stem_and_extension_exists name :
  name <> ""%string -> ("/"%char ∉ pystr.chars name) ->
  exists stem extension,
    name = (stem +:+ extension)%string /\ stem_and_extension stem extension.
Proof.
  intros Hne Hslash.
  destruct (rfind_from_split "." name 0) as [[Hdot _]|(s & e & Hname & He & _)];
    [lia| |].
  - exists name, ""%string. split; [now rewrite append_empty_r|].
    split; [exact Hne|]. split; [exact Hslash|]. left. split; [reflexivity|].
    exists ""%string, name. split; [reflexivity|]. split; [constructor|exact Hdot].
  - destruct (existsb (fun a => negb (Ascii.eqb a ".")) (pystr.chars s)) eqn:Hs.
    + apply existsb_exists in Hs as (a & Hin & Ha).
      exists s, ("." +:+ e)%string. split; [exact Hname|].
      rewrite Hname, chars_app in Hslash.
      change (pystr.chars (String "." e)) with ("."%char :: pystr.chars e) in Hslash.
      split; [|split].
      * intros ->. inversion Hin.
      * intros Hin'. apply Hslash, elem_of_app. now left.
      * right. exists e, a. split; [reflexivity|]. split; [exact He|].
        split; [|split; [now apply list_elem_of_In|]].
        { intros Hin'. apply Hslash, elem_of_app. right. now right. }
        intros ->. now rewrite Ascii.eqb_refl in Ha.
    + exists name, ""%string. split; [now rewrite append_empty_r|].
      split; [exact Hne|]. split; [exact Hslash|]. left. split; [reflexivity|].
      exists (s +:+ ".")%string, e. split; [|split; [|exact He]].
      * rewrite Hname, append_assoc. reflexivity.
      * rewrite chars_app. apply Forall_app.
        split; [now apply forall_not_exists_dots|]. now constructor.
Qed.

(** Every path that has a file name - one that does not end in a slash -
    is a directory prefix, a stem and an extension. *)
Lemma movie_path_shape path a :
  last (pystr.chars path) = Some a -> a <> "/"%char ->
  exists prefix kept stem extension,
    path = (prefix +:+ stem +:+ extension)%string /\
    directory_prefix prefix kept /\
    stem_and_extension stem extension.
Proof.
  intros Hlast Ha.
  destruct (rfind_from_split "/" path 0) as [[Hslash _]|(p & name & -> & Hname & _)];
    [lia| |].
  - assert (Hne : path <> ""%string) by (intros ->; discriminate).
    destruct (stem_and_extension_exists path Hne Hslash)
      as (stem & extension & -> & Hshape).
    exists ""%string, ""%string, stem, extension.
    split; [reflexivity|]. split; [|exact Hshape].
    left. split; [constructor|reflexivity].
  - assert (Hne : name <> ""%string).
    { intros ->. rewrite chars_app in Hlast.
      change (pystr.chars (String "/" "")) with ["/"%char] in Hlast.
      rewrite last_snoc in Hlast. congruence. }
    destruct (stem_and_extension_exists name Hne Hname)
      as (stem & extension & -> & Hshape).
    destruct (directory_prefix_exists p) as [kept Hprefix].
    exists (p +:+ "/")%string, kept, stem, extension.
    split; [|split; assumption].
    change (String "/" (stem +:+ extension)) with ("/" +:+ stem +:+ extension)%string.
    now rewrite append_assoc.
Qed.

(** ** Bytes and integers *)

Lemma byte_val_range b : 0 <= byte_val b < 256.
Proof.
  unfold byte_val. pose proof (Byte.to_N_bounded b). lia.
Qed.

Lemma uint_of_bytes_range bs :
  0 <= uint_of_bytes bs < 256 ^ Z.of_nat (length bs).
Proof.
  induction bs as [|b bs IH]; cbn [uint_of_bytes fold_right length].
  - cbn. lia.
  - fold (uint_of_bytes bs). pose proof (byte_val_range b).
    rewrite Nat2Z.inj_succ, Z.pow_succ_r by lia. lia.
Qed.

Lemma le_sum_uint i c :
  0 <= i -> Reference.le_sum i c = 2 ^ (8 * i) * uint_of_bytes c.
Proof.
  revert i. induction c as [|b c IH]; intros i Hi; cbn [Reference.le_sum uint_of_bytes fold_right].
  - lia.
  - fold (uint_of_bytes c). rewrite IH by lia.
    rewrite Z.shiftl_mul_pow2 by lia.
    replace (8 * (i + 1)) with (8 * i + 8) by lia.
    rewrite Z.pow_add_r by lia. change (2 ^ 8) with 256. ring.
Qed.

Lemma unpack_little_is_int64_le c :
  length c = 8%nat ->
  (if 2 ^ 63 <=? uint_of_bytes c
   then uint_of_bytes c - 2 ^ 64 else uint_of_bytes c)
  = Reference.int64_le c.
Proof.
  intros Hlen. unfold Reference.int64_le.
  rewrite le_sum_uint by lia. change (2 ^ (8 * 0)) with 1. rewrite Z.mul_1_l.
  pose proof (uint_of_bytes_range c) as Hr. rewrite Hlen in Hr.
  change (256 ^ Z.of_nat 8) with (2 ^ 64) in Hr.
  destruct (Z.leb_spec (2 ^ 63) (uint_of_bytes c)) as [Hge|Hlt].
  - replace (uint_of_bytes c + 2 ^ 63)
      with ((uint_of_bytes c - 2 ^ 63) + 1 * 2 ^ 64) by lia.
    rewrite Z.mod_add by lia. rewrite Z.mod_small; lia.
  - rewrite Z.mod_small; lia.
Qed.

Lemma land_mask64 x : Z.land x 0xFFFFFFFFFFFFFFFF = x mod 2 ^ 64.
Proof. change 0xFFFFFFFFFFFFFFFF with (Z.ones 64). apply Z.land_ones. lia. Qed.

Lemma chunks8_step (l : list byte) :
  (8 <= length l)%nat ->
  Reference.chunks8 l = take 8 l :: Reference.chunks8 (drop 8 l).
Proof.
  intros H.
  do 8 (destruct l as [|? l]; [cbn in H; lia|]). reflexivity.
Qed.

(** ** The read loop *)

Lemma struct_unpack_q_little buffer w :
  length buffer = 8%nat ->
  struct_unpack_q little buffer w = (Return (Reference.int64_le buffer), w).
Proof.
  intros Hlen. unfold struct_unpack_q.
  change (Z.to_nat calcsize_q) with 8%nat.
  destruct (decide (length buffer = 8%nat)) as [_|]; [|contradiction].
  cbv zeta. rewrite (unpack_little_is_int64_le buffer Hlen). reflexivity.
Qed.

Lemma hash_loop_little f data count : forall pos hash w,
  w_files w !! f = Some (Some (FileObject data pos)) ->
  (pos + 8 * count <= length data)%nat ->
  hash_loop little f 8 count hash w =
    (Return (Reference.add_window hash (take (8 * count) (drop pos data))),
     with_files w (<[f := Some (FileObject data (pos + 8 * count))]> (w_files w))).
Proof.
  unfold Reference.add_window.
  induction count as [|count IH]; intros pos hash w Hf Hlen.
  - cbn [hash_loop]. rewrite Nat.mul_0_r, Nat.add_0_r, take_0.
    rewrite list_insert_id by exact Hf. now rewrite with_files_id.
  - cbn [hash_loop].
    assert (Hbuf : length (take (Z.to_nat 8) (drop pos data)) = 8%nat).
    { rewrite length_take, length_drop. lia. }
    erewrite bind_return; cycle 1.
    { unfold f_read. rewrite Hf. cbn [f_data f_pos]. rewrite Hbuf. reflexivity. }
    erewrite bind_return; cycle 1.
    { apply struct_unpack_q_little. exact Hbuf. }
    cbv zeta. rewrite land_mask64.
    rewrite (IH (pos + 8)%nat); cycle 1.
    { cbn [with_files w_files]. apply list_lookup_insert_eq.
      apply lookup_lt_Some in Hf. exact Hf. }
    { lia. }
    world_simpl.
    rewrite list_insert_insert_eq.
    replace (pos + 8 + 8 * count)%nat with (pos + 8 * S count)%nat by lia.
    f_equal. f_equal.
    rewrite (chunks8_step (take (8 * S count) (drop pos data))); cycle 1.
    { rewrite length_take, length_drop. lia. }
    cbn [fold_left]. f_equal.
    + f_equal. rewrite skipn_firstn_comm, drop_drop. f_equal. lia.
    + unfold Reference.accumulate. rewrite take_take.
      change (Z.to_nat 8) with 8%nat.
      replace (8 `min` (8 * S count))%nat with 8%nat by lia. reflexivity.
Qed.

(** ** ["%016x"] against sixteen nibbles *)

Lemma digit_at_succ n i : 0 <= n -> digit_at n (S i) = digit_at (n / 16) i.
Proof.
  intros Hn. unfold digit_at. rewrite Nat2Z.inj_succ, Z.pow_succ_r by lia.
  rewrite Z.div_div by lia. reflexivity.
Qed.

Lemma digits_succ n k :
  0 <= n ->
  map (digit_at n) (rev (seq 0 (S k))) =
  map (digit_at (n / 16)) (rev (seq 0 k)) ++ [hexdigit (n mod 16)].
Proof.
  intros Hn. cbn [seq]. rewrite <- seq_shift. cbn [rev].
  rewrite map_app. cbn [map]. f_equal.
  - rewrite <- map_rev, map_map. apply map_ext. intros i. now apply digit_at_succ.
  - unfold digit_at. change (16 ^ Z.of_nat 0) with 1. now rewrite Z.div_1_r.
Qed.

Lemma hex_digits_spec fuel : forall n acc,
  (1 <= fuel)%nat ->
  0 <= n < 16 ^ Z.of_nat fuel ->
  exists k, (1 <= k <= fuel)%nat /\ n < 16 ^ Z.of_nat k /\
            (k = 1%nat \/ 16 ^ (Z.of_nat k - 1) <= n) /\
            hex_digits fuel n acc = map (digit_at n) (rev (seq 0 k)) ++ acc.
Proof.
  induction fuel as [|fuel IH]; intros n acc Hfuel Hn.
  - lia.
  - cbn [hex_digits]. cbv zeta.
    destruct (Z.eqb_spec (n / 16) 0) as [Hz|Hnz].
    + exists 1%nat. assert (n < 16) by (apply Z.div_small_iff in Hz; lia).
      split; [lia|]. split; [cbn; lia|]. split; [now left|].
      cbn [seq rev map app]. unfold digit_at.
      change (16 ^ Z.of_nat 0) with 1. now rewrite Z.div_1_r.
    + assert (16 <= n).
      { destruct (Z.lt_ge_cases n 16); [|lia].
        exfalso. apply Hnz. apply Z.div_small. lia. }
      rewrite Nat2Z.inj_succ, Z.pow_succ_r in Hn by lia.
      destruct (IH (n / 16) (hexdigit (n mod 16) :: acc))
        as (k & Hk & Hlt & Hmin & Heq).
      { destruct fuel; [cbn in Hn; lia|lia]. }
      { split; [apply Z.div_pos; lia|]. apply Z.div_lt_upper_bound; lia. }
      exists (S k). rewrite Heq. rewrite digits_succ by lia.
      rewrite <- app_assoc. cbn [app].
      rewrite Nat2Z.inj_succ, Z.pow_succ_r by lia.
      split; [lia|]. split; [|split; [|reflexivity]].
      * pose proof (Z.mod_pos_bound n 16).
        pose proof (Z_div_mod_eq_full n 16). lia.
      * right. replace (Z.succ (Z.of_nat k) - 1) with (Z.succ (Z.of_nat k - 1)) by lia.
        destruct Hmin as [->|Hmin].
        -- cbn. lia.
        -- rewrite Z.pow_succ_r by lia.
           pose proof (Z.mul_div_le n 16). lia.
Qed.

Lemma high_digits_zero n k j :
  0 <= n < 16 ^ Z.of_nat k ->
  map (digit_at n) (rev (seq k j)) = repeat "0"%char j.
Proof.
  intros Hn. induction j as [|j IH].
  - reflexivity.
  - rewrite seq_S, rev_app_distr. cbn [rev app map]. rewrite IH.
    f_equal. unfold digit_at.
    rewrite Z.div_small; [reflexivity|].
    split; [lia|]. eapply Z.lt_le_trans; [apply Hn|].
    apply Z.pow_le_mono_r; lia.
Qed.

Lemma hexdigit_nibble d :
  0 <= d < 16 ->
  hexdigit d = nth (Z.to_nat d) Reference.alphabet "0"%char.
Proof.
  intros Hd.
  assert (H : d = 0 \/ d = 1 \/ d = 2 \/ d = 3 \/ d = 4 \/ d = 5 \/ d = 6 \/
              d = 7 \/ d = 8 \/ d = 9 \/ d = 10 \/ d = 11 \/ d = 12 \/
              d = 13 \/ d = 14 \/ d = 15) by lia.
  repeat (destruct H as [->|H]; [reflexivity|]). now subst.
Qed.

Lemma format_016x_hex16 h :
  0 <= h < 2 ^ 64 -> format_016x h = Reference.hex16 h.
Proof.
  intros Hh. unfold format_016x, format_x.
  destruct (Z.ltb_spec h 0) as [|_]; [lia|].
  rewrite Z.abs_eq by lia.
  destruct (hex_digits_spec (S (Z.to_nat (Z.log2 h))) h [])
    as (k & Hk & Hlt & Hmin & Heq).
  { lia. }
  { split; [lia|]. rewrite Nat2Z.inj_succ, Z2Nat.id by apply Z.log2_nonneg.
    destruct (Z.eq_dec h 0) as [->|]; [cbn; lia|].
    eapply Z.lt_le_trans; [apply Z.log2_spec; lia|].
    apply Z.pow_le_mono_l. lia. }
  rewrite Heq, app_nil_r. cbn [length app]. rewrite length_map, length_rev, length_seq.
  assert (Hk16 : (k <= 16)%nat).
  { destruct Hmin as [->|Hmin]; [lia|].
    assert (16 ^ (Z.of_nat k - 1) < 16 ^ 16) by (change (16 ^ 16) with (2 ^ 64); lia).
    apply Z.pow_lt_mono_r_iff in H; lia. }
  rewrite <- (high_digits_zero h k (16 - 0 - k)) by lia.
  rewrite <- map_app, <- rev_app_distr.
  replace (seq 0 k ++ seq k (16 - 0 - k)) with (seq 0 16)
    by (rewrite <- seq_app; f_equal; lia).
  unfold Reference.hex16. f_equal.
  change (rev (seq 0 16)) with
    (map Z.to_nat [15; 14; 13; 12; 11; 10; 9; 8; 7; 6; 5; 4; 3; 2; 1; 0]).
  rewrite map_map. apply map_ext_in. intros i Hi.
  assert (0 <= i <= 15).
  { cbn in Hi. lia. }
  unfold digit_at, Reference.nibble. rewrite Z2Nat.id by lia.
  apply hexdigit_nibble. apply Z.mod_pos_bound. lia.
Qed.


Lemma accumulate_range h c : 0 <= Reference.accumulate h c < 2 ^ 64.
Proof. unfold Reference.accumulate. apply Z.mod_pos_bound. lia. Qed.

Lemma fold_accumulate_range cs : forall h,
  cs <> [] -> 0 <= fold_left Reference.accumulate cs h < 2 ^ 64.
Proof.
  induction cs as [|c cs IH]; intros h Hne; [congruence|].
  cbn [fold_left]. destruct cs as [|c' cs].
  - apply accumulate_range.
  - apply IH. discriminate.
Qed.

Lemma add_window_range h window :
  (8 <= length window)%nat -> 0 <= Reference.add_window h window < 2 ^ 64.
Proof.
  intros H. unfold Reference.add_window. apply fold_accumulate_range.
  rewrite chunks8_step by exact H. discriminate.
Qed.

(** ** calculate_hash_for_file *)

(** X29.  On a little-endian host, for every file of at least 131072 bytes
    [calculate_hash_for_file] returns the reference fingerprint: the size,
    plus the first 8192 and the 8192 signed 64-bit little-endian integers
    that start at [size - 65536], wrapping at 2^64 after each addition,
    printed as sixteen lowercase hexadecimal digits.  The handle it opened is
    closed on return. *)
Theorem calculate_hash_for_file_reference env name data w :
  sys_byteorder env = little ->
  w_fs w !! name = Some (File data) ->
  131072 <= Z.of_nat (length data) ->
  calculate_hash_for_file env name w =
    (Return (Reference.fingerprint data), with_files w (w_files w ++ [None])).
Proof.
  intros Horder Hfile Hsize. unfold calculate_hash_for_file.
  rewrite Horder. cbv zeta.
  erewrite bind_return; cycle 1.
  { unfold open_rb. rewrite Hfile. reflexivity. }
  erewrite bind_return; cycle 1.
  { unfold os_path_getsize. cbn [with_files w_fs]. rewrite Hfile. reflexivity. }
  destruct (Z.ltb_spec (Z.of_nat (length data)) (65536 * 2)) as [|_]; [lia|].
  change calcsize_q with 8.
  change (65536 / 8) with 8192.
  set (count := Z.to_nat 8192).
  assert (Hcount : (8 * count = Z.to_nat 65536)%nat) by (subst count; lia).
  erewrite bind_return; cycle 1.
  { apply (hash_loop_little _ data count 0%nat).
    - world_simpl. apply lookup_last.
    - lia. }
  world_simpl.
  rewrite insert_last, Nat.add_0_l, drop_0.
  erewrite bind_return; cycle 1.
  { unfold f_seek. world_simpl. rewrite lookup_last.
    destruct (Z.ltb_spec (0 `max` (Z.of_nat (length data) - 65536)) 0) as [|_]; [lia|].
    world_simpl; cbn [f_data].
    rewrite insert_last. reflexivity. }
  rewrite Z.max_r by lia.
  erewrite bind_return; cycle 1.
  { apply (hash_loop_little _ data count).
    - world_simpl. apply lookup_last.
    - lia. }
  world_simpl.
  rewrite insert_last.
  erewrite bind_return; cycle 1.
  { unfold f_close. world_simpl.
    rewrite insert_last. reflexivity. }
  unfold mret, py_ret, with_files. f_equal. f_equal.
  unfold Reference.fingerprint. cbv zeta. rewrite Hcount.
  apply format_016x_hex16. apply add_window_range.
  rewrite length_take, length_drop. lia.
Qed.

(** The theorem at a 128 KiB movie on an x86 host. *)
Lemma calculate_hash_for_file_reference_witness :
  calculate_hash_for_file Examples.x86 "big.avi" (Examples.world_of Examples.big_fs)
  = (Return (Reference.fingerprint Examples.movie_128k),
     with_files (Examples.world_of Examples.big_fs) [None]).
Proof.
  apply (calculate_hash_for_file_reference Examples.x86 "big.avi"
           Examples.movie_128k (Examples.world_of Examples.big_fs)).
  - reflexivity.
  - apply lookup_singleton_eq.
  - unfold Examples.movie_128k. rewrite length_app, !repeat_length. lia.
Defined.

(** The same run on a host of either byte order. *)

Lemma struct_unpack_q_unpacked order buffer w :
  length buffer = 8%nat ->
  struct_unpack_q order buffer w = (Return (unpacked order buffer), w).
Proof.
  intros Hlen. unfold struct_unpack_q.
  change (Z.to_nat calcsize_q) with 8%nat.
  destruct (decide (length buffer = 8%nat)) as [_|]; [|contradiction].
  reflexivity.
Qed.

Lemma hash_loop_wrapping_sum order f data count : forall pos hash w,
  w_files w !! f = Some (Some (FileObject data pos)) ->
  (pos + 8 * count <= length data)%nat ->
  hash_loop order f 8 count hash w =
    (Return (wrapping_sum order hash (take (8 * count) (drop pos data))),
     with_files w (<[f := Some (FileObject data (pos + 8 * count))]> (w_files w))).
Proof.
  unfold wrapping_sum.
  induction count as [|count IH]; intros pos hash w Hf Hlen.
  - cbn [hash_loop]. rewrite Nat.mul_0_r, Nat.add_0_r, take_0.
    rewrite list_insert_id by exact Hf. now rewrite with_files_id.
  - cbn [hash_loop].
    assert (Hbuf : length (take (Z.to_nat 8) (drop pos data)) = 8%nat).
    { rewrite length_take, length_drop. lia. }
    erewrite bind_return; cycle 1.
    { unfold f_read. rewrite Hf. cbn [f_data f_pos]. rewrite Hbuf. reflexivity. }
    erewrite bind_return; cycle 1.
    { apply struct_unpack_q_unpacked. exact Hbuf. }
    cbv zeta. rewrite land_mask64.
    rewrite (IH (pos + 8)%nat); cycle 1.
    { world_simpl. apply list_lookup_insert_eq.
      apply lookup_lt_Some in Hf. exact Hf. }
    { lia. }
    world_simpl. rewrite list_insert_insert_eq.
    replace (pos + 8 + 8 * count)%nat with (pos + 8 * S count)%nat by lia.
    f_equal. f_equal.
    rewrite (chunks8_step (take (8 * S count) (drop pos data))); cycle 1.
    { rewrite length_take, length_drop. lia. }
    cbn [fold_left]. f_equal.
    + f_equal. rewrite skipn_firstn_comm, drop_drop. f_equal. lia.
    + rewrite take_take. change (Z.to_nat 8) with 8%nat.
      replace (8 `min` (8 * S count))%nat with 8%nat by lia. reflexivity.
Qed.

(** The value and the final world for a file of at least 131072 bytes, on
    any host. *)
Lemma calculate_hash_for_file_value env name data w :
  w_fs w !! name = Some (File data) ->
  131072 <= Z.of_nat (length data) ->
  calculate_hash_for_file env name w =
    (Return (format_016x
               (wrapping_sum (sys_byteorder env)
                  (wrapping_sum (sys_byteorder env) (Z.of_nat (length data))
                     (head_window data))
                  (tail_window data))),
     with_files w (w_files w ++ [None])).
Proof.
  intros Hfile Hsize. unfold calculate_hash_for_file. cbv zeta.
  erewrite bind_return; cycle 1.
  { unfold open_rb. rewrite Hfile. reflexivity. }
  erewrite bind_return; cycle 1.
  { unfold os_path_getsize. world_simpl. rewrite Hfile. reflexivity. }
  destruct (Z.ltb_spec (Z.of_nat (length data)) (65536 * 2)) as [|_]; [lia|].
  change calcsize_q with 8. change (65536 / 8) with 8192.
  set (count := Z.to_nat 8192).
  assert (Hcount : (8 * count = Z.to_nat 65536)%nat) by (subst count; lia).
  erewrite bind_return; cycle 1.
  { apply (hash_loop_wrapping_sum _ _ data count 0%nat).
    - world_simpl. apply lookup_last.
    - lia. }
  world_simpl. rewrite insert_last, Nat.add_0_l, drop_0.
  erewrite bind_return; cycle 1.
  { unfold f_seek. world_simpl. rewrite lookup_last.
    destruct (Z.ltb_spec (0 `max` (Z.of_nat (length data) - 65536)) 0) as [|_]; [lia|].
    world_simpl; cbn [f_data]. rewrite insert_last. reflexivity. }
  rewrite Z.max_r by lia.
  erewrite bind_return; cycle 1.
  { apply (hash_loop_wrapping_sum _ _ data count).
    - world_simpl. apply lookup_last.
    - lia. }
  world_simpl. rewrite insert_last.
  erewrite bind_return; cycle 1.
  { unfold f_close. world_simpl. rewrite insert_last. reflexivity. }
  unfold mret, py_ret, with_files, head_window, tail_window.
  rewrite Hcount. reflexivity.
Qed.

(** C1 fails on a big-endian host.  Format ['q'] has no byte-order prefix,
    so [struct.unpack] reads the chunks in the order of the host.  For the
    file of 131072 bytes whose first byte is 1 and whose other bytes are 0
    the reference value is [0000000000020001], and that is what the code
    returns on a little-endian host; on a big-endian host it returns
    [0100000000020000]. *)
Theorem calculate_hash_for_file_native_order :
  let w := Examples.world_of {[ "le.avi"%string := File Examples.movie_le ]} in
  Reference.fingerprint Examples.movie_le = "0000000000020001"%string /\
  fst (calculate_hash_for_file Examples.x86 "le.avi" w)
    = Return "0000000000020001"%string /\
  fst (calculate_hash_for_file Examples.s390 "le.avi" w)
    = Return "0100000000020000"%string /\
  fst (calculate_hash_for_file Examples.s390 "le.avi" w)
    <> Return (Reference.fingerprint Examples.movie_le).
Proof.
  cbv zeta.
  assert (Hsize : 131072 <= Z.of_nat (length Examples.movie_le)).
  { unfold Examples.movie_le. rewrite length_cons, repeat_length. lia. }
  assert (Href : Reference.fingerprint Examples.movie_le = "0000000000020001"%string)
    by (vm_compute; reflexivity).
  assert (Hbig : fst (calculate_hash_for_file Examples.s390 "le.avi"
                        (Examples.world_of {[ "le.avi"%string := File Examples.movie_le ]}))
                 = Return "0100000000020000"%string).
  { rewrite (calculate_hash_for_file_value _ _ Examples.movie_le)
      by (apply lookup_singleton_eq || exact Hsize).
    cbn [fst]. vm_compute. reflexivity. }
  split; [exact Href|]. split; [|split; [exact Hbig|]].
  - rewrite (calculate_hash_for_file_value _ _ Examples.movie_le)
      by (apply lookup_singleton_eq || exact Hsize).
    cbn [fst]. vm_compute. reflexivity.
  - rewrite Hbig, Href. discriminate.
Qed.

(** The value every small file produces, and the world it leaves behind. *)
Lemma calculate_hash_for_file_small env name data w :
  w_fs w !! name = Some (File data) ->
  Z.of_nat (length data) < 131072 ->
  calculate_hash_for_file env name w =
    (Return "SizeError"%string,
     with_files w (w_files w ++ [Some (FileObject data 0)])).
Proof.
  intros Hfile Hsize. unfold calculate_hash_for_file. cbv zeta.
  erewrite bind_return; cycle 1.
  { unfold open_rb. rewrite Hfile. reflexivity. }
  erewrite bind_return; cycle 1.
  { unfold os_path_getsize. world_simpl. rewrite Hfile. reflexivity. }
  destruct (Z.ltb_spec (Z.of_nat (length data)) (65536 * 2)) as [_|]; [|lia].
  reflexivity.
Qed.

(** C2, as the specification words it, fails: a three-byte file makes
    [calculate_hash_for_file] return normally, with the string
    ["SizeError"] as its value; nothing is raised. *)
Lemma small_file_returns_normally :
  let r := fst (calculate_hash_for_file Examples.x86 "small.avi"
                  (Examples.world_of Examples.movies_fs)) in
  r = Return "SizeError"%string /\ ~ is_raise r.
Proof.
  cbv zeta.
  rewrite (calculate_hash_for_file_small _ _ Examples.small_movie)
    by (reflexivity || (cbn; lia)).
  split; [reflexivity|]. intros [].
Qed.

(** C2, amended.  For every file of fewer than 131072 bytes
    [calculate_hash_for_file] returns the in-band value ["SizeError"]; that
    value is not a fingerprint (it is not sixteen hexadecimal digits). *)
Theorem calculate_hash_for_file_size_error env name data w :
  w_fs w !! name = Some (File data) ->
  Z.of_nat (length data) < 131072 ->
  fst (calculate_hash_for_file env name w) = Return "SizeError"%string /\
  is_fingerprint "SizeError" = false.
Proof.
  intros Hfile Hsize.
  rewrite (calculate_hash_for_file_small env name data w Hfile Hsize).
  split; reflexivity.
Qed.

Lemma calculate_hash_for_file_size_error_witness :
  fst (calculate_hash_for_file Examples.x86 "small.avi"
         (Examples.world_of Examples.movies_fs)) = Return "SizeError"%string /\
  is_fingerprint "SizeError" = false.
Proof.
  apply (calculate_hash_for_file_size_error Examples.x86 "small.avi"
           Examples.small_movie).
  - reflexivity.
  - cbn. lia.
Defined.

(** C3 fails on the early return: after [calculate_hash_for_file] on a
    three-byte file, the handle it opened (handle 0 of an empty table) is
    still open. *)
Theorem calculate_hash_for_file_leaks_handle :
  let w' := snd (calculate_hash_for_file Examples.x86 "small.avi"
                   (Examples.world_of Examples.movies_fs)) in
  still_open 0 w' /\ ~ released 0 w'.
Proof.
  cbv zeta.
  rewrite (calculate_hash_for_file_small _ _ Examples.small_movie)
    by (reflexivity || (cbn; lia)).
  split.
  - eexists. reflexivity.
  - unfold released. cbn. discriminate.
Qed.

(** ** obtain_subtitle_filename *)

Lemma stem_and_extension_name stem extension :
  stem_and_extension stem extension ->
  "/"%char ∉ pystr.chars (stem +:+ extension).
Proof.
  intros (_ & Hslash & [(-> & _)|(e & a & -> & _ & He & _)]).
  - now rewrite append_empty_r.
  - rewrite chars_app. change ("." +:+ e)%string with (String "." e).
    change (pystr.chars (String "." e)) with ("."%char :: pystr.chars e).
    intros Hin. apply elem_of_app in Hin as [Hin|Hin]; [contradiction|].
    apply elem_of_cons in Hin as [Hin|Hin]; [discriminate|contradiction].
Qed.

Lemma os_path_isfile_regular fs path :
  os_path_isfile fs path = true <-> regular_file fs path.
Proof.
  unfold os_path_isfile, regular_file. split.
  - destruct (fs !! path) as [[data|? ?]|]; try discriminate. eauto.
  - intros [data ->]. reflexivity.
Qed.

(** The three names the resolver chooses from, for a movie written as
    prefix, stem and extension. *)
Lemma obtain_subtitle_filename_names fs prefix kept stem extension lang ext :
  directory_prefix prefix kept ->
  stem_and_extension stem extension ->
  obtain_subtitle_filename fs (prefix +:+ stem +:+ extension) lang ext =
    first_not_file fs
      [(kept +:+ stem +:+ ext)%string;
       (kept +:+ stem +:+ "." +:+ lang +:+ ext)%string]
      (kept +:+ stem +:+ "." +:+ lang +:+ ".ss" +:+ ext)%string.
Proof.
  intros Hprefix Hname.
  pose proof (stem_and_extension_name _ _ Hname) as Hslash.
  pose proof (os_path_splitext_stem _ _ Hname) as Hsplit.
  destruct Hname as (Hne & Hstem & _).
  unfold obtain_subtitle_filename. cbv zeta.
  rewrite (basename_tail _ _ _ Hprefix Hslash), Hsplit.
  cbn [fst].
  rewrite !(dirname_join prefix kept _ _ Hprefix Hslash)
    by (apply startswith_stem; assumption).
  reflexivity.
Qed.

(** C4, as the specification words it, fails: where the first candidate is
    a directory the path exists, and the resolver returns it all the same,
    not the second or the third name. *)
Lemma obtain_subtitle_filename_existing_directory :
  let fs : gmap string node := {[ "v/movie.srt"%string := Dir 4096 [] ]} in
  let chosen := obtain_subtitle_filename fs "v/movie.mkv" "eng" ".srt" in
  is_Some (fs !! "v/movie.srt"%string) /\
  chosen = "v/movie.srt"%string /\
  chosen <> "v/movie.eng.srt"%string /\
  chosen <> "v/movie.eng.ss.srt"%string.
Proof.
  cbv zeta.
  assert (H : obtain_subtitle_filename {[ "v/movie.srt"%string := Dir 4096 [] ]}
                "v/movie.mkv" "eng" ".srt" = "v/movie.srt"%string)
    by (vm_compute; reflexivity).
  rewrite H. split; [|split; [reflexivity|split; discriminate]].
  rewrite lookup_singleton_eq. eexists. reflexivity.
Qed.

(** C4, amended.  A movie path is a directory prefix followed by a file
    name, and the file name is a stem followed by the extension
    [os.path.splitext] cuts off.  With [<dir>/] for what is kept of the
    prefix - nothing for a bare file name, the slashes for a file in the
    root, the directory and one slash otherwise - the resolver returns
    [<dir>/<stem><subtitle_ext>] when no regular file has that path; else
    [<dir>/<stem>.<language><subtitle_ext>] when no regular file has that
    path; else [<dir>/<stem>.<language>.ss<subtitle_ext>], whether or not a
    file has that path.  A candidate is taken when [os.path.isfile] is false
    for it: a missing path, or a directory. *)
Theorem obtain_subtitle_filename_candidates fs prefix kept stem extension
    lang ext :
  directory_prefix prefix kept ->
  stem_and_extension stem extension ->
  let movie := (prefix +:+ stem +:+ extension)%string in
  let first := (kept +:+ stem +:+ ext)%string in
  let second := (kept +:+ stem +:+ "." +:+ lang +:+ ext)%string in
  let third := (kept +:+ stem +:+ "." +:+ lang +:+ ".ss" +:+ ext)%string in
  (~ regular_file fs first ->
   obtain_subtitle_filename fs movie lang ext = first) /\
  (regular_file fs first -> ~ regular_file fs second ->
   obtain_subtitle_filename fs movie lang ext = second) /\
  (regular_file fs first -> regular_file fs second ->
   obtain_subtitle_filename fs movie lang ext = third).
Proof.
  intros Hprefix Hname. cbv zeta.
  rewrite (obtain_subtitle_filename_names fs _ _ _ _ lang ext Hprefix Hname).
  cbn [first_not_file].
  destruct (os_path_isfile fs (kept +:+ stem +:+ ext)) eqn:Hfirst;
    destruct (os_path_isfile fs (kept +:+ stem +:+ "." +:+ lang +:+ ext))
      eqn:Hsecond; cbn [negb];
    rewrite <- ?os_path_isfile_regular, ?Hfirst, ?Hsecond;
    (split; [|split]); intros; congruence.
Qed.

(** The theorem for [v//movie.mkv] where [v/movie.srt] and
    [v/movie.eng.srt] are regular files. *)
Lemma obtain_subtitle_filename_candidates_witness :
  (~ regular_file Examples.subs_fs "v/movie.srt" ->
   obtain_subtitle_filename Examples.subs_fs "v//movie.mkv" "eng" ".srt"
   = "v/movie.srt"%string) /\
  (regular_file Examples.subs_fs "v/movie.srt" ->
   ~ regular_file Examples.subs_fs "v/movie.eng.srt" ->
   obtain_subtitle_filename Examples.subs_fs "v//movie.mkv" "eng" ".srt"
   = "v/movie.eng.srt"%string) /\
  (regular_file Examples.subs_fs "v/movie.srt" ->
   regular_file Examples.subs_fs "v/movie.eng.srt" ->
   obtain_subtitle_filename Examples.subs_fs "v//movie.mkv" "eng" ".srt"
   = "v/movie.eng.ss.srt"%string).
Proof.
  assert (Hno : forall (c : ascii) (s : string),
            forallb (fun a => negb (Ascii.eqb a c)) (pystr.chars s) = true ->
            c ∉ pystr.chars s).
  { intros c s Hall Hin. rewrite forallb_forall in Hall.
    apply list_elem_of_In, Hall in Hin. now rewrite Ascii.eqb_refl in Hin. }
  apply (obtain_subtitle_filename_candidates Examples.subs_fs
           "v//" "v/" "movie" ".mkv" "eng" ".srt").
  - right. exists "v"%string, "v"%char, 2.
    split; [reflexivity|]. split; [lia|]. split; [reflexivity|].
    split; [discriminate|reflexivity].
  - split; [discriminate|]. split; [now apply Hno|].
    right. exists "mkv"%string, "m"%char. split; [reflexivity|].
    split; [now apply Hno|]. split; [now apply Hno|].
    split; [|discriminate]. apply elem_of_cons. now left.
Defined.

(** ** filter_bad_results and the selection in find_subtitles *)

Lemma season_episode_same env x a b s e :
  season_episode env x = Return (a, b) ->
  Reference.same_episode env s e x = bool_decide ((a, b) = (s, e)).
Proof.
  unfold season_episode, Reference.same_episode. intros H.
  destruct (x !! "SeriesSeason"%string) as [ss|]; [|discriminate].
  cbn [mbind option_bind].
  destruct (builtin_int env ss) as [a'|]; [|discriminate].
  destruct (x !! "SeriesEpisode"%string) as [es|]; [|discriminate].
  cbn [mbind option_bind].
  destruct (builtin_int env es) as [b'|]; [|discriminate].
  injection H as -> ->.
  destruct (Z.eqb_spec a s), (Z.eqb_spec b e); cbn [andb];
    symmetry; (apply bool_decide_eq_true_2 || apply bool_decide_eq_false_2);
    congruence.
Qed.

Lemma keep_matching_filter env s e rs :
  Forall (fun x => exists se, season_episode env x = Return se) rs ->
  keep_matching env (s, e) rs =
    Return (List.filter (Reference.same_episode env s e) rs).
Proof.
  induction 1 as [|x rs [[a b] Hx] _ IH]; [reflexivity|].
  cbn [keep_matching List.filter]. rewrite Hx, IH.
  rewrite (season_episode_same env x a b s e Hx).
  destruct (decide ((a, b) = (s, e))) as [Heq|Hne].
  - now rewrite bool_decide_eq_true_2.
  - now rewrite bool_decide_eq_false_2.
Qed.




(** With season 1 and episode 2 in the query, the second of
    [Examples.two_results] is chosen; without them, the first. *)
Example select_episode :
  Reference.select Examples.x86 Examples.two_results
    (obtain_guessit_query Examples.x86 "show.s01e02.avi" "eng")
    ≫= lookup "SubDownloadLink"%string = Some "http://dl/12.gz"%string /\
  Reference.select Examples.x86 Examples.two_results
    (obtain_guessit_query Examples.x86 "small.avi" "eng")
    ≫= lookup "SubDownloadLink"%string = Some "http://dl/13.gz"%string.
Proof. split; vm_compute; reflexivity. Qed.

(** ** find_movie_files *)

Lemma distinct_yield st x :
  distinct_so_far st -> x ∉ returned st ->
  distinct_so_far (GenState (yielded st ++ [x]) ({[x]} ∪ returned st)).
Proof.
  intros [Hnd Hsub] Hx. split; cbn [yielded returned].
  - apply NoDup_app. split; [assumption|]. split.
    + intros y Hy Hy'. apply list_elem_of_singleton in Hy' as ->. auto.
    + apply NoDup_singleton.
  - intros y Hy. apply elem_of_app in Hy as [Hy|Hy].
    + apply Hsub in Hy. set_solver.
    + apply list_elem_of_singleton in Hy. set_solver.
Qed.

Lemma names_loop_flat_distinct rec fs input_name names : forall st st' e,
  names_loop rec fs input_name false names st = (st', e) ->
  distinct_so_far st -> distinct_so_far st'.
Proof.
  induction names as [|name names IH]; intros st st' e Hrun Hst;
    cbn [names_loop] in Hrun.
  - now injection Hrun as <- _.
  - cbv zeta in Hrun. rewrite andb_false_r in Hrun.
    destruct (bool_decide (pystr.suffix 4 name ∈ extensions)).
    + destruct (bool_decide_reflect (os_path_join input_name name ∉ returned st)).
      * eapply IH; [exact Hrun|]. now apply distinct_yield.
      * eapply IH; eassumption.
    + eapply IH; eassumption.
Qed.

Lemma inputs_loop_flat_distinct rec fs input_names : forall st st' e,
  inputs_loop rec fs false input_names st = (st', e) ->
  distinct_so_far st -> distinct_so_far st'.
Proof.
  induction input_names as [|input_name rest IH]; intros st st' e Hrun Hst;
    cbn [inputs_loop] in Hrun.
  - now injection Hrun as <- _.
  - destruct (os_path_isfile fs input_name); cbn [andb] in Hrun.
    + destruct (bool_decide_reflect (input_name ∉ returned st)).
      * eapply IH; [exact Hrun|]. now apply distinct_yield.
      * destruct (os_listdir fs input_name) as [names|err];
          [|now injection Hrun as <- _].
        destruct (names_loop rec fs input_name false names st) as [st1 e1] eqn:Hn.
        apply names_loop_flat_distinct in Hn; [|assumption].
        destruct e1; [eapply IH; eassumption| |]; now injection Hrun as <- _.
    + destruct (os_listdir fs input_name) as [names|err];
        [|now injection Hrun as <- _].
      destruct (names_loop rec fs input_name false names st) as [st1 e1] eqn:Hn.
      apply names_loop_flat_distinct in Hn; [|assumption].
      destruct e1; [eapply IH; eassumption| |]; now injection Hrun as <- _.
Qed.

(** Without recursion the local set does its work: no path is yielded twice,
    whatever the inputs and the file system. *)
Lemma find_movie_files_flat_distinct fuel fs input_names :
  NoDup (fst (find_movie_files fuel fs input_names false)).
Proof.
  destruct fuel as [|fuel]; cbn [find_movie_files]; [constructor|].
  destruct (inputs_loop _ fs false input_names (GenState [] ∅)) as [st e] eqn:Hrun.
  apply inputs_loop_flat_distinct in Hrun; [apply Hrun|].
  split; cbn; [constructor|]. intros x Hx. inversion Hx.
Qed.

(** C6 fails with recursion: [d/sub/c.avi] given as an input and reached again
    through the directory [d] is yielded twice, because the generator called
    on [d/sub] starts from its own empty [returned]. *)
Theorem find_movie_files_yields_twice :
  find_movie_files 3 Examples.tree_fs ["d/sub/c.avi"; "d"]%string true
  = (["d/sub/c.avi"; "d/a.mkv"; "d/sub/c.avi"]%string, Exhausted) /\
  ~ NoDup (fst (find_movie_files 3 Examples.tree_fs
                  ["d/sub/c.avi"; "d"]%string true)).
Proof.
  assert (H : find_movie_files 3 Examples.tree_fs ["d/sub/c.avi"; "d"]%string true
              = (["d/sub/c.avi"; "d/a.mkv"; "d/sub/c.avi"]%string, Exhausted))
    by (vm_compute; reflexivity).
  split; [exact H|]. rewrite H. cbn [fst]. intros Hnd.
  apply NoDup_cons in Hnd as [Hnotin _]. apply Hnotin.
  right. left.
Qed.

(** ** _change_configuration *)

Lemma load_configuration_world env filename w :
  snd (load_configuration env filename w) = w.
Proof.
  unfold load_configuration, parser_read, mbind, py_bind, lift, mret, py_ret.
  destruct (w_fs w !! filename) as [[data|? ?]|]; cbn [snd];
    try (destruct (configparser_read env data) as [p|?]; [|reflexivity]);
    repeat match goal with
           | |- context [match ?p !! ?k with _ => _ end] =>
               destruct (p !! k)
           | |- context [getboolean ?v] => destruct (getboolean v)
           end; reflexivity.
Qed.

(** Whatever the two methods would do, [_change_configuration] raises and
    leaves the world as it found it. *)
Lemma change_configuration_raises
    (set_config_from_lines : Configuration -> list string -> py Configuration)
    (get_lines : Configuration -> py (list string)) env params filename w :
  exists e,
    _change_configuration set_config_from_lines get_lines env params filename w
    = (Raise e, w).
Proof.
  unfold _change_configuration.
  pose proof (load_configuration_world env filename w) as Hw.
  unfold mbind at 1. unfold py_bind.
  destruct (load_configuration env filename w) as [[config|e] w']; cbn in Hw; subst w'.
  - exists AttributeError. reflexivity.
  - exists e. reflexivity.
Qed.

(** C7 fails: asked to persist [language=fra] where no configuration file
    exists yet, [_change_configuration] raises [AttributeError] at
    [config.set_config_from_lines], a method class [Configuration] does not
    define; no file is written, and reloading yields the default language
    ["eng"]. *)
Theorem change_configuration_writes_nothing
    (set_config_from_lines : Configuration -> list string -> py Configuration)
    (get_lines : Configuration -> py (list string)) :
  let w := Examples.world_of ∅ in
  _change_configuration set_config_from_lines get_lines Examples.x86
    ["language=fra"%string] "home/.ss.ini" w = (Raise AttributeError, w) /\
  w_fs w !! "home/.ss.ini"%string = None /\
  load_configuration Examples.x86 "home/.ss.ini" w
    = (Return Configuration_default, w) /\
  language Configuration_default = "eng"%string.
Proof.
  cbv zeta. repeat split.
Qed.


(** ** query_open_subtitles *)

(** Reading files leaves the log of remote calls alone. *)
Lemma keeps_rpc_ret {A} (a : A) : keeps_rpc (mret a).
Proof. intros w. reflexivity. Qed.

Lemma keeps_rpc_raise {A} e : keeps_rpc (@raise A e).
Proof. intros w. reflexivity. Qed.

Lemma keeps_rpc_bind {A B} (m : py A) (k : A -> py B) :
  keeps_rpc m -> (forall a, keeps_rpc (k a)) -> keeps_rpc (m ≫= k).
Proof.
  intros Hm Hk w. unfold mbind, py_bind. specialize (Hm w).
  destruct (m w) as [[a|e] w1]; cbn [snd] in *.
  - now rewrite Hk.
  - assumption.
Qed.

Lemma keeps_rpc_open_rb name : keeps_rpc (open_rb name).
Proof.
  intros w. unfold open_rb. now destruct (w_fs w !! name) as [[?|? ?]|].
Qed.

Lemma keeps_rpc_getsize name : keeps_rpc (os_path_getsize name).
Proof.
  intros w. unfold os_path_getsize. now destruct (w_fs w !! name) as [[?|? ?]|].
Qed.

Lemma keeps_rpc_read f n : keeps_rpc (f_read f n).
Proof. intros w. unfold f_read. now destruct (w_files w !! f) as [[?|]|]. Qed.

Lemma keeps_rpc_seek f n : keeps_rpc (f_seek f n).
Proof.
  intros w. unfold f_seek.
  destruct (w_files w !! f) as [[?|]|]; try reflexivity. now destruct (n <? 0).
Qed.

Lemma keeps_rpc_close f : keeps_rpc (f_close f).
Proof. intros w. reflexivity. Qed.

Lemma keeps_rpc_unpack order buffer : keeps_rpc (struct_unpack_q order buffer).
Proof.
  unfold struct_unpack_q. destruct (decide _).
  - apply keeps_rpc_ret.
  - apply keeps_rpc_raise.
Qed.

Create HintDb rpc_frame.
#[local] Hint Resolve keeps_rpc_ret keeps_rpc_raise keeps_rpc_open_rb
  keeps_rpc_getsize keeps_rpc_read keeps_rpc_seek keeps_rpc_close
  keeps_rpc_unpack : rpc_frame.

Lemma keeps_rpc_hash_loop order f bytesize count :
  forall hash, keeps_rpc (hash_loop order f bytesize count hash).
Proof.
  induction count as [|count IH]; intros hash; cbn [hash_loop].
  - auto with rpc_frame.
  - apply keeps_rpc_bind; [auto with rpc_frame|]. intros buffer.
    apply keeps_rpc_bind; [auto with rpc_frame|]. intros l_value. apply IH.
Qed.

Lemma keeps_rpc_calculate_hash_for_file env name :
  keeps_rpc (calculate_hash_for_file env name).
Proof.
  unfold calculate_hash_for_file. cbv zeta.
  apply keeps_rpc_bind; [auto with rpc_frame|]. intros f.
  apply keeps_rpc_bind; [auto with rpc_frame|]. intros filesize.
  destruct (filesize <? 65536 * 2); [auto with rpc_frame|].
  apply keeps_rpc_bind; [apply keeps_rpc_hash_loop|]. intros h1.
  apply keeps_rpc_bind; [auto with rpc_frame|]. intros _.
  apply keeps_rpc_bind; [apply keeps_rpc_hash_loop|]. intros h2.
  apply keeps_rpc_bind; auto with rpc_frame.
Qed.

Lemma keeps_rpc_obtain_movie_hash_query env movie_filename language :
  keeps_rpc (obtain_movie_hash_query env movie_filename language).
Proof.
  unfold obtain_movie_hash_query.
  apply keeps_rpc_bind; [apply keeps_rpc_calculate_hash_for_file|]. intros h.
  apply keeps_rpc_bind; auto with rpc_frame.
Qed.

(** The calls the loop adds to the log: one search per movie it reached, in
    order, each with that movie's two queries; all movies when it returns. *)
Lemma query_loop_trace env token language movies : forall result w o w',
  query_loop env token language movies result w = (o, w') ->
  exists searches,
    w_rpc w' = w_rpc w ++ searches /\
    Forall2 (search_for env token language)
            (take (length searches) movies) searches /\
    (forall d, o = Return d -> length searches = length movies).
Proof.
  induction movies as [|m rest IH]; intros result w o w' Hrun;
    cbn [query_loop] in Hrun.
  - injection Hrun as <- <-. exists []. rewrite app_nil_r.
    split; [reflexivity|]. split; [constructor|reflexivity].
  - cbv zeta in Hrun.
    pose proof (keeps_rpc_obtain_movie_hash_query env m language w) as Hframe.
    unfold mbind, py_bind, rpc, lift in Hrun.
    destruct (obtain_movie_hash_query env m language w) as [[hq|e] w1];
      cbn [snd] in Hframe.
    2:{ injection Hrun as <- <-. exists []. rewrite app_nil_r.
        split; [exact Hframe|]. split; [constructor|discriminate]. }
    set (call := SearchSubtitles token
                   [ByName (obtain_guessit_query env m language); ByHash hq]) in *.
    assert (Hcall : search_for env token language m call) by (eexists; reflexivity).
    assert (Hstop : forall e, (o, w') = (Raise e, with_rpc w1 (w_rpc w1 ++ [call])) ->
              exists searches,
                w_rpc w' = w_rpc w ++ searches /\
                Forall2 (search_for env token language)
                  (take (length searches) (m :: rest)) searches /\
                (forall d, o = Return d -> length searches = length (m :: rest))).
    { intros e [= -> ->]. exists [call]. cbn [with_rpc w_rpc length take].
      rewrite Hframe. split; [reflexivity|]. split; [|discriminate].
      constructor; [assumption|constructor]. }
    destruct (xmlrpc_server env (w_rpc w1) call) as [resp|e]; [|eauto].
    destruct (r_data resp) as [rs|]; cbn [subscript] in Hrun;
      unfold raise, mret, py_ret in Hrun; [|eauto].
    destruct (store_results env m rs (obtain_guessit_query env m language) result)
      as [result'|e]; [|eauto].
    destruct (IH result' _ o w' Hrun) as (searches & Hlog & Hsearches & Hall).
    exists (call :: searches). rewrite Hlog. cbn [with_rpc w_rpc]. rewrite Hframe.
    split; [now rewrite <- app_assoc|]. split.
    + cbn [length take]. constructor; assumption.
    + intros d Hd. cbn [length]. f_equal. eapply Hall. exact Hd.
Qed.

Lemma search_for_is_search env token language movies searches :
  Forall2 (search_for env token language) movies searches ->
  Forall (fun c => is_search c = true) searches.
Proof.
  induction 1 as [|m c ms cs [hq ->] _ IH]; constructor; [reflexivity|assumption].
Qed.

(** The whole log of a session whose login returned a token. *)
Lemma query_open_subtitles_trace env movies language w r token o w' :
  xmlrpc_server env (w_rpc w) login_call = Return r ->
  r_token r = Some token ->
  query_open_subtitles env movies language w = (o, w') ->
  exists searches,
    w_rpc w' = w_rpc w ++ [login_call] ++ searches ++ [LogOut token] /\
    Forall2 (search_for env token language)
            (take (length searches) movies) searches /\
    (forall d, o = Return d -> length searches = length movies) /\
    (forall e,
       xmlrpc_server env (w_rpc w ++ [login_call] ++ searches) (LogOut token)
         = Raise e ->
       o = Raise e).
Proof.
  intros Hlogin Htoken Hrun. unfold query_open_subtitles in Hrun.
  unfold mbind at 1 2 in Hrun. unfold py_bind at 1 2 in Hrun.
  unfold rpc at 1 in Hrun. fold login_call in Hrun.
  rewrite Hlogin, Htoken in Hrun. cbn [subscript] in Hrun.
  unfold mret at 1 in Hrun. unfold py_ret at 1 in Hrun.
  unfold try_finally in Hrun.
  set (w1 := with_rpc w (w_rpc w ++ [login_call])) in *.
  destruct (query_loop env token language movies ∅ w1) as [o1 w2] eqn:Hloop.
  destruct (query_loop_trace env token language movies ∅ w1 o1 w2 Hloop)
    as (searches & Hlog & Hsearches & Hall).
  subst w1. cbn [with_rpc w_rpc] in Hlog.
  exists searches.
  unfold mbind, py_bind, rpc in Hrun. rewrite Hlog, <- app_assoc in Hrun.
  destruct (xmlrpc_server env (w_rpc w ++ [login_call] ++ searches) (LogOut token))
    as [resp|e'] eqn:Hlogout; cbn [mret py_ret] in Hrun;
    injection Hrun as <- <-; cbn [with_rpc w_rpc]; rewrite <- ?app_assoc.
  - split; [reflexivity|]. split; [assumption|]. split; [assumption|discriminate].
  - split; [reflexivity|]. split; [assumption|].
    split; [discriminate|]. intros e He. congruence.
Qed.




(** C9, as the specification words it, fails in its last part: with a service
    whose [LogOut] fails, a run whose login and search succeeded ends with
    the exception of the logout, while the same run against a service whose
    [LogOut] succeeds returns its results. *)
Lemma logout_failure_fails_the_run :
  fst (find_subtitles
         (Examples.host little Examples.logout_fails Examples.tool_ok)
         ["small.avi"]%string "eng" (Examples.world_of Examples.movies_fs))
  = Raise ProtocolError /\
  fst (find_subtitles Examples.x86
         ["small.avi"]%string "eng" (Examples.world_of Examples.movies_fs))
  = Return [("small.avi"%string, Some "http://dl/13.gz"%string, Some ".srt"%string)].
Proof. split; vm_compute; reflexivity. Qed.

(** C9, amended.  In every run whose login returned a token, whatever happens
    in the loop (a search call or a per-movie step may fail), the remote
    calls are the login, some searches, and the logout with that token, once
    and last; and when the logout call fails, [query_open_subtitles] fails
    with the exception of the logout. *)
Theorem logout_always_issued env movies language w r token :
  xmlrpc_server env (w_rpc w) login_call = Return r ->
  r_token r = Some token ->
  exists searches,
    w_rpc (snd (query_open_subtitles env movies language w))
      = w_rpc w ++ [login_call] ++ searches ++ [LogOut token] /\
    Forall (fun c => is_search c = true) searches /\
    (forall e,
       xmlrpc_server env (w_rpc w ++ [login_call] ++ searches) (LogOut token)
         = Raise e ->
       fst (query_open_subtitles env movies language w) = Raise e).
Proof.
  intros Hlogin Htoken.
  destruct (query_open_subtitles env movies language w) as [o w'] eqn:Hrun.
  destruct (query_open_subtitles_trace _ _ _ _ _ _ _ _ Hlogin Htoken Hrun)
    as (searches & Hlog & Hsearches & _ & Hlogout).
  exists searches. split; [assumption|]. split; [|assumption].
  eapply search_for_is_search. eassumption.
Qed.

(** The theorem at a run whose only movie is missing from the disk: the loop
    fails before any search, and the logout is still sent. *)
Lemma logout_always_issued_witness :
  exists searches,
    w_rpc (snd (query_open_subtitles Examples.x86 ["missing.avi"]%string "eng"
                  (Examples.world_of Examples.movies_fs)))
      = [] ++ [login_call] ++ searches ++ [LogOut "tok"] /\
    Forall (fun c => is_search c = true) searches /\
    (forall e,
       xmlrpc_server Examples.x86 ([] ++ [login_call] ++ searches) (LogOut "tok")
         = Raise e ->
       fst (query_open_subtitles Examples.x86 ["missing.avi"]%string "eng"
              (Examples.world_of Examples.movies_fs)) = Raise e).
Proof.
  apply (logout_always_issued Examples.x86 ["missing.avi"]%string "eng"
           (Examples.world_of Examples.movies_fs)
           (Response (Some "tok"%string) None) "tok");
    reflexivity.
Defined.

Example logout_after_failed_loop :
  let run := query_open_subtitles Examples.x86 ["missing.avi"]%string "eng"
               (Examples.world_of Examples.movies_fs) in
  fst run = Raise IOError /\ w_rpc (snd run) = [login_call; LogOut "tok"].
Proof. split; vm_compute; reflexivity. Qed.


(** ** The merge loop of main *)

(** The line [print_status] prints is the text, two or more blanks, and the
    status. *)
Lemma status_line_reports name status :
  reports name status (status_line (" - " +:+ name) status).
Proof.
  unfold reports, status_line. cbv zeta.
  destruct (Z.ltb_spec (70 - pystr.len (" - " +:+ name)) 2).
  - exists 2. split; [lia|]. now rewrite append_assoc.
  - eexists. split; [eassumption|]. now rewrite append_assoc.
Qed.

Lemma not_mkv_wants_merge m : not_mkv (movie_filename m) = wants_merge m.
Proof. reflexivity. Qed.

(** What one pass over [matches] does: it always returns; it starts one
    process for each movie that is not already [.mkv], in order, and for no
    other; the failures it adds belong to such movies; and for every movie
    that is already [.mkv] it prints a line that reports its file name as
    skipped. *)
Lemma embed_loop_spec env config matches : forall failures w o w',
  embed_loop env config matches failures w = (o, w') ->
  exists new,
    o = Return (failures ++ new) /\
    w_procs w' = w_procs w ++
                 map (merge_command config) (List.filter wants_merge matches) /\
    Forall (fun f => exists m, m ∈ matches /\ wants_merge m = true /\
                               fst f = movie_filename m) new /\
    exists lines,
      w_stdout w' = w_stdout w ++ lines /\
      forall m, m ∈ matches -> wants_merge m = false ->
        exists line,
          line ∈ lines /\
          reports (os_path_basename (movie_filename m)) "skipped" line.
Proof.
  induction matches as [|m rest IH]; intros failures w o w' Hrun;
    cbn [embed_loop] in Hrun.
  - injection Hrun as <- <-. exists []. rewrite !app_nil_r.
    split; [reflexivity|]. split; [reflexivity|]. split; [constructor|].
    exists []. rewrite app_nil_r. split; [reflexivity|].
    intros m Hm. inversion Hm.
  - unfold mbind, py_bind in Hrun. cbn [List.filter].
    rewrite not_mkv_wants_merge in Hrun.
    destruct (wants_merge m) eqn:Hext.
    + unfold embed_mkv, check_output in Hrun. cbv zeta in Hrun.
      fold (merge_command config m) in Hrun.
      destruct (popen env (w_procs w) (merge_command config m)) as [rc out].
      destruct (rc =? 0); cbn [negb] in Hrun;
        unfold print_status, print, mret, py_ret in Hrun;
        apply IH in Hrun as (new & -> & Hprocs & Hnew & lines & Hout & Hskipped);
        world_simpl in Hprocs; world_simpl in Hout;
        rewrite <- app_assoc in Hprocs; rewrite <- app_assoc in Hout.
      * exists new. split; [reflexivity|]. split; [exact Hprocs|]. split.
        { eapply Forall_impl; [exact Hnew|]. intros f (m' & Hin & Hw & Hf).
          exists m'. split; [now right|]. now split. }
        eexists. split; [exact Hout|]. intros m' Hin Hw.
        apply elem_of_cons in Hin as [->|Hin]; [congruence|].
        destruct (Hskipped m' Hin Hw) as (line & Hline & Hreports).
        exists line. split; [now right|exact Hreports].
      * exists ((movie_filename m, out) :: new).
        split; [now rewrite <- app_assoc|]. split; [exact Hprocs|]. split.
        { constructor.
          - exists m. split; [now left|]. now split.
          - eapply Forall_impl; [exact Hnew|]. intros f (m' & Hin & Hw & Hf).
            exists m'. split; [now right|]. now split. }
        eexists. split; [exact Hout|]. intros m' Hin Hw.
        apply elem_of_cons in Hin as [->|Hin]; [congruence|].
        destruct (Hskipped m' Hin Hw) as (line & Hline & Hreports).
        exists line. split; [now right|exact Hreports].
    + unfold print_status, print, mret, py_ret in Hrun.
      apply IH in Hrun as (new & -> & Hprocs & Hnew & lines & Hout & Hskipped).
      world_simpl in Hprocs. world_simpl in Hout. rewrite <- app_assoc in Hout.
      exists new. split; [reflexivity|]. split; [exact Hprocs|]. split.
      { eapply Forall_impl; [exact Hnew|]. intros f (m' & Hin & Hw & Hf).
        exists m'. split; [now right|]. now split. }
      eexists. split; [exact Hout|]. intros m' Hin Hw.
      apply elem_of_cons in Hin as [->|Hin].
      { eexists. split; [now left|]. apply status_line_reports. }
      destruct (Hskipped m' Hin Hw) as (line & Hline & Hreports).
      exists line. split; [now right|exact Hreports].
Qed.

Lemma report_failures_prints failures : forall w,
  exists lines,
    report_failures failures w = (Return tt, with_stdout w (w_stdout w ++ lines)).
Proof.
  induction failures as [|[mv out] rest IH]; intros w; cbn [report_failures].
  - exists []. rewrite app_nil_r. now destruct w.
  - unfold mbind, py_bind, print.
    destruct (IH (with_stdout (with_stdout w (w_stdout w ++ [(":{" +:+ mv +:+ "}:")%string]))
                    (w_stdout (with_stdout w (w_stdout w ++ [(":{" +:+ mv +:+ "}:")%string])) ++ [out])))
      as (lines & ->).
    world_simpl. eexists. rewrite <- !app_assoc. reflexivity.
Qed.

(** The block as a whole, with merging enabled. *)
Lemma main_embed_run env config matches w :
  mkv config = true ->
  exists failures lines w',
    main_embed env config matches w = (Return failures, w') /\
    w_procs w' = w_procs w ++
                 map (merge_command config) (List.filter wants_merge matches) /\
    w_stdout w' = w_stdout w ++ lines /\
    Forall (fun f => exists m, m ∈ matches /\ wants_merge m = true /\
                               fst f = movie_filename m) failures /\
    forall m, m ∈ matches -> wants_merge m = false ->
      exists line,
        line ∈ lines /\
        reports (os_path_basename (movie_filename m)) "skipped" line.
Proof.
  intros Hmkv. unfold main_embed. rewrite Hmkv.
  unfold mbind at 1 2 3. unfold py_bind at 1 2 3. unfold print at 1 2.
  destruct (embed_loop env config matches [] _) as [o w1] eqn:Hloop.
  apply embed_loop_spec in Hloop
    as (failures & -> & Hprocs & Hfailures & lines & Hout & Hskipped).
  world_simpl in Hprocs. world_simpl in Hout. cbn [app] in *.
  assert (Hrest : exists more,
            (match failures with
             | [] => mret ()
             | _ :: _ => _ ← print (pystr.times "_" 80); _ ← print "None";
                         report_failures failures
             end) w1 = (Return tt, with_stdout w1 (w_stdout w1 ++ more))).
  { destruct failures as [|f fs].
    - exists []. rewrite app_nil_r. now destruct w1.
    - unfold mbind, py_bind, print.
      match goal with |- context [report_failures _ ?w0] =>
        destruct (report_failures_prints (f :: fs) w0) as (more & ->) end.
      world_simpl. eexists. rewrite <- !app_assoc. reflexivity. }
  destruct Hrest as (more & Hrest).
  unfold mbind, py_bind in Hrest |- *. rewrite Hrest. world_simpl.
  exists failures. eexists. eexists. split; [reflexivity|]. world_simpl.
  split; [exact Hprocs|].
  split. { rewrite Hout, <- !app_assoc. reflexivity. }
  split; [exact Hfailures|].
  intros m Hin Hw. destruct (Hskipped m Hin Hw) as (line & Hline & Hreports).
  exists line. split; [|exact Hreports].
  do 2 right. apply elem_of_app. now left.
Qed.

(** C10.  With merging enabled, the block that ends [main] returns normally
    and, for every matched movie whose extension lower-cased is [.mkv]: no
    process it starts has that movie where the merge tool's input file goes,
    a line is printed that reports the movie's file name with the status
    [skipped], and no failure is recorded for the movie.  The processes it
    starts are those of the other matches, one each, in order. *)
Theorem main_embed_skips_mkv env config matches w :
  mkv config = true ->
  exists failures lines,
    fst (main_embed env config matches w) = Return failures /\
    w_procs (snd (main_embed env config matches w))
      = w_procs w ++ map (merge_command config) (List.filter wants_merge matches) /\
    w_stdout (snd (main_embed env config matches w)) = w_stdout w ++ lines /\
    forall m, m ∈ matches ->
      pystr.lower (snd (os_path_splitext (movie_filename m))) = ".mkv"%string ->
      (forall argv,
         argv ∈ map (merge_command config) (List.filter wants_merge matches) ->
         argv !! 5%nat <> Some (movie_filename m)) /\
      (exists name line,
         file_name_of (movie_filename m) name /\
         line ∈ lines /\ reports name "skipped" line) /\
      (forall output, (movie_filename m, output) ∉ failures).
Proof.
  intros Hmkv.
  destruct (main_embed_run env config matches w Hmkv)
    as (failures & lines & w' & -> & Hprocs & Hout & Hfailures & Hskipped).
  cbn [fst snd]. exists failures, lines.
  split; [reflexivity|]. split; [exact Hprocs|]. split; [exact Hout|].
  intros m Hin Hext.
  assert (Hw : wants_merge m = false).
  { unfold wants_merge. rewrite Hext. reflexivity. }
  split; [|split].
  - intros argv Hargv Hinput.
    apply list_elem_of_fmap in Hargv as (m' & -> & Hm').
    apply list_elem_of_In, filter_In in Hm' as [_ Hw'].
    cbn in Hinput. injection Hinput as Hsame.
    unfold wants_merge in Hw, Hw'. congruence.
  - destruct (Hskipped m Hin Hw) as (line & Hline & Hreports).
    exists (os_path_basename (movie_filename m)), line.
    split; [apply file_name_of_basename|]. now split.
  - intros output Hfail.
    rewrite Forall_forall in Hfailures.
    destruct (Hfailures _ Hfail) as (m' & _ & Hw' & Hsame).
    cbn [fst] in Hsame. unfold wants_merge in Hw, Hw'. congruence.
Qed.

Lemma main_embed_skips_mkv_witness :
  exists failures lines,
    fst (main_embed Examples.x86 Examples.mkv_config Examples.some_matches
           (Examples.world_of ∅)) = Return failures /\
    w_procs (snd (main_embed Examples.x86 Examples.mkv_config Examples.some_matches
                    (Examples.world_of ∅)))
      = [] ++ map (merge_command Examples.mkv_config)
                (List.filter wants_merge Examples.some_matches) /\
    w_stdout (snd (main_embed Examples.x86 Examples.mkv_config Examples.some_matches
                     (Examples.world_of ∅))) = [] ++ lines /\
    forall m, m ∈ Examples.some_matches ->
      pystr.lower (snd (os_path_splitext (movie_filename m))) = ".mkv"%string ->
      (forall argv,
         argv ∈ map (merge_command Examples.mkv_config)
                   (List.filter wants_merge Examples.some_matches) ->
         argv !! 5%nat <> Some (movie_filename m)) /\
      (exists name line,
         file_name_of (movie_filename m) name /\
         line ∈ lines /\ reports name "skipped" line) /\
      (forall output, (movie_filename m, output) ∉ failures).
Proof.
  apply (main_embed_skips_mkv Examples.x86 Examples.mkv_config
           Examples.some_matches (Examples.world_of ∅)).
  reflexivity.
Defined.

(** Of the three example matches only [v/b.MKV] is skipped, also when the
    tool fails on the others; a movie whose extension is written with the
    KELVIN SIGN is skipped as well. *)
Example main_embed_example :
  let run := main_embed (Examples.host little Examples.good_server Examples.tool_fails)
               Examples.mkv_config Examples.some_matches (Examples.world_of ∅) in
  fst run = Return [("v/a.avi", "mkvmerge: error"); ("v/c.mp4", "mkvmerge: error")]%string /\
  map (fun argv => argv !! 5%nat) (w_procs (snd run))
    = [Some "v/a.avi"; Some "v/c.mp4"]%string /\
  w_stdout (snd run) !! 3%nat
    = Some (" - b.MKV" +:+ pystr.times " " 62 +:+ "skipped")%string /\
  not_mkv (pystr.str ["v"; "/"; "d"; "."; "m";
                      ascii_of_N 226; ascii_of_N 132; ascii_of_N 170; "v"]%char)
    = false.
Proof.
  cbv zeta. repeat split; vm_compute; reflexivity.
Qed.

(** ** Worked examples *)

(** The fingerprint of the 128 KiB example movie. *)
Example fingerprint_movie_128k :
  Reference.fingerprint Examples.movie_128k = "2020202020220000"%string.
Proof. vm_compute. reflexivity. Qed.

(** Format ['q'] follows the host: the same eight bytes read as 1 on a
    little-endian host and as 2^56 on a big-endian one. *)
Remark struct_unpack_q_follows_host w :
  struct_unpack_q little [x01; x00; x00; x00; x00; x00; x00; x00] w
    = (Return 1, w) /\
  struct_unpack_q big [x01; x00; x00; x00; x00; x00; x00; x00] w
    = (Return (2 ^ 56), w).
Proof. split; reflexivity. Qed.

(** [os.path.join] puts one separator between a directory that does not end
    in one and a relative name. *)
Lemma os_path_join_sep a b :
  a <> EmptyString -> pystr.endswith a "/" = false ->
  pystr.startswith b "/" = false ->
  os_path_join a b = (a +:+ "/" +:+ b)%string.
Proof.
  intros Ha Hend Hstart. unfold os_path_join. rewrite Hstart, Hend.
  destruct (String.eqb_spec a EmptyString); [contradiction|reflexivity].
Qed.

(** The resolver in a clean directory, next to [movie.srt], next to both
    [movie.srt] and [movie.eng.srt], and when all three names are taken. *)
Example obtain_subtitle_filename_examples :
  obtain_subtitle_filename ∅ "v/movie.mkv" "eng" ".srt" = "v/movie.srt"%string /\
  obtain_subtitle_filename {[ "v/movie.srt"%string := File [] ]}
    "v/movie.mkv" "eng" ".srt" = "v/movie.eng.srt"%string /\
  obtain_subtitle_filename Examples.subs_fs "v/movie.mkv" "eng" ".srt"
    = "v/movie.eng.ss.srt"%string /\
  obtain_subtitle_filename Examples.subs_fs_full "v/movie.mkv" "eng" ".srt"
    = "v/movie.eng.ss.srt"%string /\
  obtain_subtitle_filename ∅ "movie.mkv" "eng" ".srt" = "movie.srt"%string.
Proof. repeat split; vm_compute; reflexivity. Qed.

(** Discovery in the example tree, without and with recursion. *)
Example find_movie_files_examples :
  find_movie_files 3 Examples.tree_fs ["d"%string] false
    = (["d/a.mkv"%string], Exhausted) /\
  find_movie_files 3 Examples.tree_fs ["d"%string] true
    = (["d/a.mkv"; "d/sub/c.avi"]%string, Exhausted) /\
  find_movie_files 3 Examples.tree_fs ["d/a.mkv"; "d"]%string false
    = (["d/a.mkv"%string], Exhausted).
Proof. repeat split; vm_compute; reflexivity. Qed.

(** * Further properties *)

(** ** calculate_hash_for_file on either byte order *)

Lemma chunks8_nonempty (l : list byte) :
  (8 <= length l)%nat -> Reference.chunks8 l <> [].
Proof. intros H. rewrite chunks8_step by exact H. discriminate. Qed.

Lemma wrapping_sum_range order h window :
  (8 <= length window)%nat -> 0 <= wrapping_sum order h window < 2 ^ 64.
Proof.
  intros H. unfold wrapping_sum.
  pose proof (chunks8_nonempty window H) as Hne.
  revert h. induction (Reference.chunks8 window) as [|c cs IH]; intros h;
    [congruence|].
  cbn [fold_left]. destruct cs as [|c' cs].
  - cbn [fold_left]. apply Z.mod_pos_bound. lia.
  - apply IH. discriminate.
Qed.

Lemma head_window_length data :
  131072 <= Z.of_nat (length data) -> (8 <= length (head_window data))%nat.
Proof. intros H. unfold head_window. rewrite length_take. lia. Qed.

Lemma tail_window_length data :
  131072 <= Z.of_nat (length data) -> (8 <= length (tail_window data))%nat.
Proof.
  intros H. unfold tail_window. rewrite length_take, length_drop. lia.
Qed.

Lemma is_hex_char_nibble h i : is_hex_char (Reference.nibble h i) = true.
Proof.
  unfold Reference.nibble.
  generalize (Z.to_nat (h / 16 ^ i mod 16)). intros k.
  do 17 (destruct k as [|k]; [reflexivity|]). reflexivity.
Qed.

Lemma is_fingerprint_hex16 h : is_fingerprint (Reference.hex16 h) = true.
Proof.
  unfold is_fingerprint, Reference.hex16, pystr.chars.
  rewrite list_ascii_of_string_of_list_ascii.
  apply andb_true_intro. split.
  - reflexivity.
  - cbn [map forallb]. rewrite !is_hex_char_nibble. reflexivity.
Qed.

(** X1.  On a host of either byte order, for every file of at least 131072
    bytes [calculate_hash_for_file] returns (it does not raise) a string of
    sixteen characters among [0-9a-f], and the handle it opened is closed. *)
Theorem calculate_hash_for_file_well_formed env name data w :
  w_fs w !! name = Some (File data) ->
  131072 <= Z.of_nat (length data) ->
  exists s,
    calculate_hash_for_file env name w
      = (Return s, with_files w (w_files w ++ [None])) /\
    is_fingerprint s = true /\
    released (length (w_files w))
             (snd (calculate_hash_for_file env name w)).
Proof.
  intros Hfile Hsize.
  rewrite (calculate_hash_for_file_value env name data w Hfile Hsize).
  eexists. split; [reflexivity|]. split.
  - rewrite format_016x_hex16.
    + apply is_fingerprint_hex16.
    + apply wrapping_sum_range. now apply tail_window_length.
  - unfold released. cbn [snd]. world_simpl. apply lookup_last.
Qed.

Lemma calculate_hash_for_file_well_formed_witness :
  exists s,
    calculate_hash_for_file Examples.s390 "big.avi" (Examples.world_of Examples.big_fs)
      = (Return s, with_files (Examples.world_of Examples.big_fs) ([] ++ [None])) /\
    is_fingerprint s = true /\
    released (length (@nil (option file_object)))
             (snd (calculate_hash_for_file Examples.s390 "big.avi"
                     (Examples.world_of Examples.big_fs))).
Proof.
  apply (calculate_hash_for_file_well_formed Examples.s390 "big.avi"
           Examples.movie_128k (Examples.world_of Examples.big_fs)).
  - apply lookup_singleton_eq.
  - unfold Examples.movie_128k. rewrite length_app, !repeat_length. lia.
Defined.

Lemma wrapping_sum_fold order cs : forall h,
  fold_left (fun h c => (h + unpacked order c) mod 2 ^ 64) cs h mod 2 ^ 64
  = (h + fold_right (fun c s => unpacked order c + s) 0 cs) mod 2 ^ 64.
Proof.
  induction cs as [|c cs IH]; intros h; cbn [fold_left fold_right].
  - now rewrite Z.add_0_r.
  - rewrite IH. rewrite Zplus_mod_idemp_l. f_equal. lia.
Qed.

Lemma wrapping_sum_plain order h window :
  (8 <= length window)%nat ->
  wrapping_sum order h window = (h + plain_sum order window) mod 2 ^ 64.
Proof.
  intros H. rewrite <- (Z.mod_small (wrapping_sum order h window) (2 ^ 64))
    by now apply wrapping_sum_range.
  apply wrapping_sum_fold.
Qed.

(** X2.  Masking after every addition is masking once: for every file of at
    least 131072 bytes the value printed is the file size plus all the
    integers of the two windows, reduced modulo 2^64. *)
Theorem calculate_hash_for_file_is_a_sum env name data w :
  w_fs w !! name = Some (File data) ->
  131072 <= Z.of_nat (length data) ->
  fst (calculate_hash_for_file env name w) =
    Return (format_016x
              ((Z.of_nat (length data)
                + plain_sum (sys_byteorder env) (head_window data)
                + plain_sum (sys_byteorder env) (tail_window data)) mod 2 ^ 64)).
Proof.
  intros Hfile Hsize.
  rewrite (calculate_hash_for_file_value env name data w Hfile Hsize).
  cbn [fst]. do 2 f_equal.
  rewrite (wrapping_sum_plain _ _ (tail_window data))
    by now apply tail_window_length.
  rewrite (wrapping_sum_plain _ _ (head_window data))
    by now apply head_window_length.
  rewrite Zplus_mod_idemp_l. reflexivity.
Qed.

Lemma calculate_hash_for_file_is_a_sum_witness :
  fst (calculate_hash_for_file Examples.x86 "big.avi"
         (Examples.world_of Examples.big_fs)) =
    Return (format_016x
              ((Z.of_nat (length Examples.movie_128k)
                + plain_sum little (head_window Examples.movie_128k)
                + plain_sum little (tail_window Examples.movie_128k)) mod 2 ^ 64)).
Proof.
  apply (calculate_hash_for_file_is_a_sum Examples.x86 "big.avi"
           Examples.movie_128k (Examples.world_of Examples.big_fs)).
  - apply lookup_singleton_eq.
  - unfold Examples.movie_128k. rewrite length_app, !repeat_length. lia.
Defined.

(** X3.  The hash reads nothing but the size, the first 65536 bytes and the
    last 65536 bytes: two files of the same length that agree on both windows
    get the same value, whatever lies between. *)
Theorem calculate_hash_for_file_ignores_the_middle env name1 name2 data1 data2 w1 w2 :
  w_fs w1 !! name1 = Some (File data1) ->
  w_fs w2 !! name2 = Some (File data2) ->
  131072 <= Z.of_nat (length data1) ->
  length data1 = length data2 ->
  head_window data1 = head_window data2 ->
  tail_window data1 = tail_window data2 ->
  fst (calculate_hash_for_file env name1 w1)
  = fst (calculate_hash_for_file env name2 w2).
Proof.
  intros H1 H2 Hsize Hlen Hhead Htail.
  rewrite (calculate_hash_for_file_value env name1 data1 w1 H1 Hsize).
  rewrite (calculate_hash_for_file_value env name2 data2 w2 H2)
    by (rewrite <- Hlen; exact Hsize).
  cbn [fst]. now rewrite Hhead, Htail, Hlen.
Qed.

Lemma head_window_app (a rest : list byte) :
  length a = Z.to_nat 65536 -> head_window (a ++ rest) = a.
Proof.
  intros Ha. unfold head_window. rewrite <- Ha. apply take_app_length.
Qed.

Lemma tail_window_app (rest b : list byte) :
  length b = Z.to_nat 65536 -> tail_window (rest ++ b) = b.
Proof.
  intros Hb. unfold tail_window. rewrite length_app.
  replace (Z.to_nat (Z.of_nat (length rest + length b) - 65536))
    with (length rest) by lia.
  rewrite drop_app_length. rewrite <- Hb. apply firstn_all.
Qed.

Lemma calculate_hash_for_file_ignores_the_middle_witness :
  fst (calculate_hash_for_file Examples.x86 "one.avi"
         (Examples.world_of MoreExamples.padded_fs))
  = fst (calculate_hash_for_file Examples.x86 "two.avi"
           (Examples.world_of MoreExamples.padded_fs)).
Proof.
  apply (calculate_hash_for_file_ignores_the_middle Examples.x86
           "one.avi" "two.avi" MoreExamples.padded_1 MoreExamples.padded_2).
  - apply lookup_insert_eq.
  - cbn [Examples.world_of w_fs]. unfold MoreExamples.padded_fs.
    rewrite lookup_insert_ne by discriminate. apply lookup_singleton_eq.
  - unfold MoreExamples.padded_1, MoreExamples.window_a, MoreExamples.window_b.
    rewrite !length_app, !repeat_length. lia.
  - unfold MoreExamples.padded_1, MoreExamples.padded_2.
    rewrite !length_app, !repeat_length. reflexivity.
  - unfold MoreExamples.padded_1, MoreExamples.padded_2.
    rewrite !head_window_app by apply repeat_length. reflexivity.
  - unfold MoreExamples.padded_1, MoreExamples.padded_2.
    rewrite !app_assoc.
    rewrite !tail_window_app by apply repeat_length. reflexivity.
Defined.

(** X4.  A path that is not a regular file - missing, or a directory - makes
    [calculate_hash_for_file] raise [IOError] at [open], before anything is
    opened: the world is left as it was. *)
Theorem calculate_hash_for_file_no_file env name w :
  (forall data, w_fs w !! name <> Some (File data)) ->
  calculate_hash_for_file env name w = (Raise IOError, w).
Proof.
  intros Hnone. unfold calculate_hash_for_file. cbv zeta.
  apply bind_raise. unfold open_rb.
  destruct (w_fs w !! name) as [[data|size entries]|] eqn:Hlook;
    [|reflexivity|reflexivity].
  now destruct (Hnone data).
Qed.

Lemma calculate_hash_for_file_no_file_witness :
  calculate_hash_for_file Examples.x86 "d" (Examples.world_of Examples.tree_fs)
  = (Raise IOError, Examples.world_of Examples.tree_fs).
Proof.
  apply (calculate_hash_for_file_no_file Examples.x86 "d"
           (Examples.world_of Examples.tree_fs)).
  intros data. vm_compute. discriminate.
Defined.

(** ** obtain_movie_hash_query *)

(** X5.  For every regular file [obtain_movie_hash_query] returns a query
    whose [moviebytesize] is the size in decimal and whose [sublanguageid] is
    the language; its [moviehash] is the literal ["SizeError"] for a file
    under 131072 bytes and a sixteen-digit fingerprint otherwise. *)
Theorem obtain_movie_hash_query_fields env movie lang data w :
  w_fs w !! movie = Some (File data) ->
  exists hash,
    fst (obtain_movie_hash_query env movie lang w)
      = Return (MovieHashQuery hash (pystr.of_int (Z.of_nat (length data))) lang) /\
    (Z.of_nat (length data) < 131072 -> hash = "SizeError"%string) /\
    (131072 <= Z.of_nat (length data) -> is_fingerprint hash = true).
Proof.
  intros Hfile. unfold obtain_movie_hash_query.
  assert (Hsize : forall files,
            os_path_getsize movie (with_files w files)
            = (Return (Z.of_nat (length data)), with_files w files)).
  { intros files. unfold os_path_getsize. world_simpl. now rewrite Hfile. }
  destruct (Z.lt_ge_cases (Z.of_nat (length data)) 131072) as [Hsmall|Hbig].
  - exists "SizeError"%string.
    erewrite bind_return
      by (apply (calculate_hash_for_file_small env movie data w Hfile Hsmall)).
    erewrite bind_return by apply Hsize.
    split; [reflexivity|]. split; [reflexivity|lia].
  - eexists.
    erewrite bind_return
      by (apply (calculate_hash_for_file_value env movie data w Hfile Hbig)).
    erewrite bind_return by apply Hsize.
    split; [reflexivity|]. split; [lia|]. intros _.
    rewrite format_016x_hex16.
    + apply is_fingerprint_hex16.
    + apply wrapping_sum_range. now apply tail_window_length.
Qed.

Lemma obtain_movie_hash_query_fields_witness :
  exists hash,
    fst (obtain_movie_hash_query Examples.x86 "small.avi" "eng"
           (Examples.world_of Examples.movies_fs))
      = Return (MovieHashQuery hash
                  (pystr.of_int (Z.of_nat (length Examples.small_movie))) "eng") /\
    (Z.of_nat (length Examples.small_movie) < 131072 -> hash = "SizeError"%string) /\
    (131072 <= Z.of_nat (length Examples.small_movie) -> is_fingerprint hash = true).
Proof.
  apply (obtain_movie_hash_query_fields Examples.x86 "small.avi" "eng"
           Examples.small_movie (Examples.world_of Examples.movies_fs)).
  reflexivity.
Defined.

(** ** obtain_guessit_query and filter_bad_results *)

(** X6.  When guessit does not classify the file name as an episode, the query
    carries neither season nor episode (even if the guess has them), and
    [filter_bad_results] returns every result list unchanged - also results
    without season or episode fields, for which it would otherwise raise. *)
Theorem no_episode_no_filter env movie lang :
  g_type (guess_file_info env (os_path_basename movie)) <> Some "episode"%string ->
  q_season (obtain_guessit_query env movie lang) = None /\
  q_episode (obtain_guessit_query env movie lang) = None /\
  q_sublanguageid (obtain_guessit_query env movie lang) = lang /\
  forall results,
    filter_bad_results env results (obtain_guessit_query env movie lang)
    = Return results.
Proof.
  intros Htype.
  assert (Hq : q_season (obtain_guessit_query env movie lang) = None /\
               q_episode (obtain_guessit_query env movie lang) = None /\
               q_sublanguageid (obtain_guessit_query env movie lang) = lang).
  { unfold obtain_guessit_query.
    rewrite (bool_decide_eq_false_2 _ Htype).
    destruct (bool_decide _); repeat split. }
  destruct Hq as (Hs & He & Hl). repeat split; try assumption.
  intros results. unfold filter_bad_results. now rewrite Hs.
Qed.

Lemma no_episode_no_filter_witness :
  q_season (obtain_guessit_query Examples.x86 "small.avi" "eng") = None /\
  q_episode (obtain_guessit_query Examples.x86 "small.avi" "eng") = None /\
  q_sublanguageid (obtain_guessit_query Examples.x86 "small.avi" "eng") = "eng"%string /\
  forall results,
    filter_bad_results Examples.x86 results
      (obtain_guessit_query Examples.x86 "small.avi" "eng")
    = Return results.
Proof.
  apply (no_episode_no_filter Examples.x86 "small.avi" "eng").
  vm_compute. discriminate.
Defined.

Lemma keep_matching_raise env pair pre x post e :
  Forall (reads_as_integers env) pre ->
  season_episode env x = Raise e ->
  keep_matching env pair (pre ++ x :: post) = Raise e.
Proof.
  intros Hpre Hx. induction Hpre as [|y pre [se Hy] _ IH]; cbn [app keep_matching].
  - now rewrite Hx.
  - now rewrite Hy, IH.
Qed.

(** X7.  With a season and an episode in the query, the first result whose
    season or episode field is missing or is not an integer makes
    [filter_bad_results] raise that result's exception ([KeyError] or
    [ValueError]); no list is returned, whatever the other results are. *)
Theorem filter_bad_results_raises env query season episode pre x post e :
  q_season query = Some season ->
  q_episode query = Some episode ->
  Forall (reads_as_integers env) pre ->
  season_episode env x = Raise e ->
  filter_bad_results env (pre ++ x :: post) query = Raise e /\
  (e = KeyError \/ e = ValueError).
Proof.
  intros Hs He Hpre Hx. split.
  - unfold filter_bad_results. rewrite Hs, He.
    now apply keep_matching_raise.
  - unfold season_episode in Hx.
    repeat match type of Hx with
           | match ?t with _ => _ end = _ => destruct t
           end; inversion Hx; auto.
Qed.

Lemma filter_bad_results_raises_witness :
  filter_bad_results Examples.x86
    ([Examples.result_of "1" "2" "http://dl/12.gz"]
       ++ MoreExamples.bare_result :: Examples.two_results)
    (obtain_guessit_query Examples.x86 "show.s01e02.avi" "eng") = Raise KeyError /\
  (KeyError = KeyError \/ KeyError = ValueError).
Proof.
  apply (filter_bad_results_raises Examples.x86
           (obtain_guessit_query Examples.x86 "show.s01e02.avi" "eng") 1 2
           [Examples.result_of "1" "2" "http://dl/12.gz"]
           MoreExamples.bare_result Examples.two_results KeyError).
  - reflexivity.
  - reflexivity.
  - repeat constructor. eexists. vm_compute. reflexivity.
  - vm_compute. reflexivity.
Defined.

Lemma keep_matching_reads env pair rs kept :
  keep_matching env pair rs = Return kept ->
  Forall (reads_as_integers env) rs.
Proof.
  revert kept. induction rs as [|x rs IH]; intros kept H; [constructor|].
  cbn [keep_matching] in H.
  destruct (season_episode env x) as [se|e] eqn:Hx; [|discriminate].
  destruct (keep_matching env pair rs) as [kept'|e] eqn:Hrs; [|discriminate].
  constructor; [now exists se|]. eapply IH. reflexivity.
Qed.

Lemma filter_sublist {A} (f : A -> bool) (l : list A) :
  sublist (List.filter f l) l.
Proof.
  induction l as [|a l IH]; cbn [List.filter]; [constructor|].
  destruct (f a); now constructor.
Qed.

Lemma filter_filter_same {A} (f : A -> bool) (l : list A) :
  List.filter f (List.filter f l) = List.filter f l.
Proof.
  induction l as [|a l IH]; cbn [List.filter]; [reflexivity|].
  destruct (f a) eqn:Hf; [|assumption].
  cbn [List.filter]. rewrite Hf. now f_equal.
Qed.

(** X8.  Whenever [filter_bad_results] returns, what it returns is a sublist
    of its input in the original order, and filtering it again with the same
    query changes nothing. *)
Theorem filter_bad_results_sublist_idempotent env results query kept :
  filter_bad_results env results query = Return kept ->
  sublist kept results /\
  filter_bad_results env kept query = Return kept.
Proof.
  unfold filter_bad_results.
  destruct (q_season query) as [s|]; [|intros [= <-]; split; reflexivity].
  destruct (q_episode query) as [e|]; [|intros [= <-]; split; reflexivity].
  intros H. pose proof (keep_matching_reads _ _ _ _ H) as Hreads.
  rewrite keep_matching_filter in H by exact Hreads. injection H as <-.
  split; [apply filter_sublist|].
  rewrite keep_matching_filter.
  - now rewrite filter_filter_same.
  - rewrite Forall_forall in Hreads |- *. intros x Hx. apply Hreads.
    apply list_elem_of_In in Hx. apply list_elem_of_In.
    apply filter_In in Hx. tauto.
Qed.

Lemma filter_bad_results_sublist_idempotent_witness :
  sublist [Examples.result_of "1" "2" "http://dl/12.gz"] Examples.two_results /\
  filter_bad_results Examples.x86 [Examples.result_of "1" "2" "http://dl/12.gz"]
    (obtain_guessit_query Examples.x86 "show.s01e02.avi" "eng")
  = Return [Examples.result_of "1" "2" "http://dl/12.gz"].
Proof.
  apply (filter_bad_results_sublist_idempotent Examples.x86 Examples.two_results
           (obtain_guessit_query Examples.x86 "show.s01e02.avi" "eng")).
  reflexivity.
Defined.

(** ** query_open_subtitles and find_subtitles *)

(** X9.  When the login call fails, or answers without a token, the run
    raises (the login's exception, or [KeyError]) with the login as the only
    remote call: no search is sent and, the token being read before the
    [try], no logout either.  Nothing else changes. *)
Theorem query_open_subtitles_login_fails env movies lang w :
  (forall r, xmlrpc_server env (w_rpc w) login_call = Return r ->
             r_token r = None) ->
  exists e,
    query_open_subtitles env movies lang w
      = (Raise e, with_rpc w (w_rpc w ++ [login_call])) /\
    (xmlrpc_server env (w_rpc w) login_call = Raise e \/ e = KeyError).
Proof.
  intros Hlogin. unfold query_open_subtitles.
  unfold mbind at 1 2. unfold py_bind at 1 2. unfold rpc at 1.
  destruct (xmlrpc_server env (w_rpc w) login_call) as [r|e].
  - rewrite (Hlogin r eq_refl). exists KeyError. split; [reflexivity|now right].
  - exists e. split; [reflexivity|now left].
Qed.

Lemma query_open_subtitles_login_fails_witness :
  exists e,
    query_open_subtitles
      (Examples.host little (fun _ _ => Raise ProtocolError) Examples.tool_ok)
      ["small.avi"%string] "eng" (Examples.world_of Examples.movies_fs)
      = (Raise e, with_rpc (Examples.world_of Examples.movies_fs)
                    ([] ++ [login_call])) /\
    (@Raise response ProtocolError = Raise e \/ e = KeyError).
Proof.
  apply (query_open_subtitles_login_fails
           (Examples.host little (fun _ _ => Raise ProtocolError) Examples.tool_ok)
           ["small.avi"%string] "eng" (Examples.world_of Examples.movies_fs)).
  intros r H. discriminate H.
Defined.

Lemma store_results_keys env m rs q
    (result result' : gmap string (list search_result)) k :
  store_results env m rs q result = Return result' ->
  is_Some (result' !! k) -> is_Some (result !! k) \/ k = m.
Proof.
  unfold store_results. destruct rs as [|r rs]; [intros [= <-]; auto|].
  destruct (filter_bad_results env (r :: rs) q); [|discriminate].
  intros [= <-] Hk. destruct (decide (k = m)) as [->|Hne]; [now right|].
  left. now rewrite lookup_insert_ne in Hk.
Qed.

Lemma query_loop_keys env token lang movies : forall result w d w' k,
  query_loop env token lang movies result w = (Return d, w') ->
  is_Some (d !! k) -> is_Some (result !! k) \/ k ∈ movies.
Proof.
  induction movies as [|m rest IH]; intros result w d w' k Hrun Hk;
    cbn [query_loop] in Hrun.
  - injection Hrun as <- _. now left.
  - cbv zeta in Hrun. unfold mbind, py_bind, rpc, lift in Hrun.
    destruct (obtain_movie_hash_query env m lang w) as [[hq|e] w1];
      [|discriminate].
    destruct (xmlrpc_server env (w_rpc w1) _) as [resp|e]; [|discriminate].
    destruct (r_data resp) as [rs|]; cbn [subscript] in Hrun;
      unfold raise, mret, py_ret in Hrun; [|discriminate].
    destruct (store_results env m rs (obtain_guessit_query env m lang) result)
      as [result'|e] eqn:Hstore; [|discriminate].
    destruct (IH _ _ _ _ k Hrun Hk) as [Hin|Hin].
    + destruct (store_results_keys _ _ _ _ _ _ _ Hstore Hin) as [?| ->].
      * now left.
      * right. left.
    + right. now right.
Qed.

Lemma try_finally_return {A} (body : py A) final w (a : A) w' :
  try_finally body final w = (Return a, w') ->
  exists w1, body w = (Return a, w1).
Proof.
  unfold try_finally. destruct (body w) as [o w1].
  destruct (final w1) as [[[]|e] w2]; [|discriminate].
  intros [= -> _]. now exists w1.
Qed.

(** X10.  The dictionary [query_open_subtitles] returns has entries for
    movies of its input only. *)
Theorem query_open_subtitles_keys env movies lang w d w' k :
  query_open_subtitles env movies lang w = (Return d, w') ->
  is_Some (d !! k) -> k ∈ movies.
Proof.
  intros Hrun Hk. unfold query_open_subtitles in Hrun.
  unfold mbind at 1 2 in Hrun. unfold py_bind at 1 2 in Hrun.
  unfold rpc at 1 in Hrun.
  destruct (xmlrpc_server env (w_rpc w) login_call) as [r|e]; [|discriminate].
  destruct (r_token r) as [token|]; [|discriminate].
  cbn [subscript] in Hrun. unfold mret at 1 in Hrun. unfold py_ret at 1 in Hrun.
  apply try_finally_return in Hrun as [w1 Hloop].
  destruct (query_loop_keys _ _ _ _ _ _ _ _ k Hloop Hk) as [Hempty|Hin];
    [|exact Hin].
  rewrite lookup_empty in Hempty. now destruct Hempty.
Qed.

Lemma query_open_subtitles_keys_witness :
  "small.avi"%string ∈ ["small.avi"%string].
Proof.
  set (run := query_open_subtitles Examples.x86 ["small.avi"%string] "eng"
                (Examples.world_of Examples.movies_fs)).
  assert (Hreturns : ~ is_raise (fst run))
    by (vm_compute; exact (fun absurd => absurd)).
  apply (query_open_subtitles_keys Examples.x86 ["small.avi"%string] "eng"
           (Examples.world_of Examples.movies_fs)
           (match fst run with Return d => d | Raise _ => ∅ end) (snd run)).
  - fold run. destruct run as [[d|e] w']; [reflexivity|].
    destruct (Hreturns I).
  - fold run.
    assert (Hkey : match (match fst run with Return d => d | Raise _ => ∅ end)
                           !! "small.avi"%string with
                   | Some _ => true
                   | None => false
                   end = true)
      by (vm_compute; reflexivity).
    destruct (_ !! "small.avi"%string); [eauto|discriminate].
Defined.

Lemma find_subtitles_loop_items all movies : forall w items w',
  find_subtitles_loop all movies w = (Return items, w') ->
  map (fun item => fst (fst item)) items = movies /\
  Forall (fun item => snd (fst item) = None <-> snd item = None) items.
Proof.
  induction movies as [|m rest IH]; intros w items w' Hrun;
    cbn [find_subtitles_loop] in Hrun.
  - injection Hrun as <- _. split; constructor.
  - unfold mbind, py_bind in Hrun.
    assert (Hitem : exists item,
              find_subtitles_item all m w = (item, w) /\
              forall i, item = Return i ->
                fst (fst i) = m /\ (snd (fst i) = None <-> snd i = None)).
    { unfold find_subtitles_item.
      destruct (first_result all m) as [r|].
      - unfold mbind, py_bind, subscript.
        destruct (r !! "SubDownloadLink"%string);
          [|eexists; split; [reflexivity|discriminate]].
        destruct (r !! "SubFormat"%string);
          [|eexists; split; [reflexivity|discriminate]].
        eexists. split; [reflexivity|]. intros i [= <-]. cbn. split; [reflexivity|].
        split; discriminate.
      - eexists. split; [reflexivity|]. intros i [= <-]. cbn. tauto. }
    destruct Hitem as (item & Heq & Hitem). rewrite Heq in Hrun.
    destruct item as [i|e]; [|discriminate].
    destruct (find_subtitles_loop all rest w) as [[items'|e] w1] eqn:Hrest;
      [|discriminate].
    injection Hrun as <- _.
    destruct (IH _ _ _ Hrest) as [Hnames Hshape].
    destruct (Hitem i eq_refl) as [Hm Hi].
    split; [cbn [map]; now rewrite Hm, Hnames|now constructor].
Qed.

(** X11.  When [find_subtitles] runs to its end it has yielded exactly one
    triple per input movie, in the input order, each starting with that
    movie's file name; in every triple the link and the extension are both
    present or both [None]. *)
Theorem find_subtitles_one_per_movie env movies lang w items w' :
  find_subtitles env movies lang w = (Return items, w') ->
  map (fun item => fst (fst item)) items = movies /\
  Forall (fun item => snd (fst item) = None <-> snd item = None) items.
Proof.
  unfold find_subtitles, mbind, py_bind.
  destruct (query_open_subtitles env movies lang w) as [[d|e] w1];
    [|discriminate].
  apply find_subtitles_loop_items.
Qed.

Lemma find_subtitles_one_per_movie_witness :
  let run := find_subtitles Examples.x86 ["show.s01e02.avi"; "small.avi"]%string
               "eng" (Examples.world_of Examples.movies_fs) in
  map (fun item => fst (fst item))
      (match fst run with Return items => items | Raise _ => [] end)
    = ["show.s01e02.avi"; "small.avi"]%string /\
  Forall (fun item => snd (fst item) = None <-> snd item = None)
         (match fst run with Return items => items | Raise _ => [] end).
Proof.
  intros run.
  assert (Hreturns : ~ is_raise (fst run))
    by (vm_compute; exact (fun absurd => absurd)).
  apply (find_subtitles_one_per_movie Examples.x86
           ["show.s01e02.avi"; "small.avi"]%string "eng"
           (Examples.world_of Examples.movies_fs) _ (snd run)).
  fold run. destruct run as [[items|e] w']; [reflexivity|].
  destruct (Hreturns I).
Defined.

(** ** find_movie_files: errors and provenance *)

Lemma os_listdir_file fs path :
  os_path_isdir fs path = false -> os_listdir fs path = Raise OSError.
Proof.
  unfold os_path_isdir, os_listdir.
  now destruct (fs !! path) as [[?|? ?]|].
Qed.

Lemma isfile_not_isdir fs path :
  os_path_isfile fs path = true -> os_path_isdir fs path = false.
Proof.
  unfold os_path_isfile, os_path_isdir.
  now destruct (fs !! path) as [[?|? ?]|].
Qed.

(** X12.  A file named twice among the inputs is not skipped the second
    time: the test [isfile and not in returned] fails, the [else] branch lists
    it as a directory, and the generator raises [OSError] after the one
    yield; later inputs are never visited. *)
Theorem find_movie_files_repeated_file fuel fs f rest recursive :
  os_path_isfile fs f = true ->
  find_movie_files (S fuel) fs (f :: f :: rest) recursive = ([f], Raised OSError).
Proof.
  intros Hfile. cbn [find_movie_files inputs_loop]. rewrite Hfile.
  cbn [returned yielded andb app].
  rewrite (bool_decide_eq_true_2 (f ∉ ∅)) by set_solver.
  rewrite (bool_decide_eq_false_2 (f ∉ {[f]} ∪ ∅)) by set_solver.
  cbn [andb]. rewrite os_listdir_file by now apply isfile_not_isdir.
  reflexivity.
Qed.

Lemma find_movie_files_repeated_file_witness :
  find_movie_files 1 Examples.tree_fs ["d/a.mkv"; "d/a.mkv"; "d"]%string false
  = (["d/a.mkv"%string], Raised OSError).
Proof.
  apply (find_movie_files_repeated_file 0 Examples.tree_fs "d/a.mkv" ["d"%string]).
  reflexivity.
Defined.

(** X13.  An input that is neither a regular file nor a directory (a missing
    path, say) ends the generator with [OSError] at once: the inputs after it
    are not visited. *)
Theorem find_movie_files_bad_input fuel fs x rest recursive :
  os_path_isfile fs x = false ->
  os_path_isdir fs x = false ->
  find_movie_files (S fuel) fs (x :: rest) recursive = ([], Raised OSError).
Proof.
  intros Hfile Hdir. cbn [find_movie_files inputs_loop]. rewrite Hfile.
  cbn [andb]. now rewrite os_listdir_file.
Qed.

Lemma find_movie_files_bad_input_witness :
  find_movie_files 1 Examples.tree_fs ["nowhere"; "d"]%string true
  = ([], Raised OSError).
Proof.
  apply (find_movie_files_bad_input 0 Examples.tree_fs "nowhere" ["d"%string]);
    reflexivity.
Defined.

Lemma names_loop_flat_provenance rec fs input_name names : forall st st' e x,
  names_loop rec fs input_name false names st = (st', e) ->
  x ∈ yielded st' ->
  x ∈ yielded st \/
  exists name, name ∈ names /\ pystr.suffix 4 name ∈ extensions /\
               x = os_path_join input_name name.
Proof.
  induction names as [|name names IH]; intros st st' e x Hrun Hx;
    cbn [names_loop] in Hrun.
  - injection Hrun as <- _. now left.
  - cbv zeta in Hrun. rewrite andb_false_r in Hrun.
    destruct (bool_decide_reflect (pystr.suffix 4 name ∈ extensions))
      as [Hext|Hnoext].
    + destruct (bool_decide (os_path_join input_name name ∉ returned st)).
      * destruct (IH _ _ _ _ Hrun Hx) as [Hold|(n & Hn & He & ->)].
        -- cbn [yielded] in Hold. apply elem_of_app in Hold as [Hold|Hnew];
             [now left|].
           apply list_elem_of_singleton in Hnew as ->.
           right. exists name. split; [left|now split].
        -- right. exists n. split; [now right|now split].
      * destruct (IH _ _ _ _ Hrun Hx) as [Hold|(n & Hn & He & ->)];
          [now left|]. right. exists n. split; [now right|now split].
    + destruct (IH _ _ _ _ Hrun Hx) as [Hold|(n & Hn & He & ->)];
        [now left|]. right. exists n. split; [now right|now split].
Qed.

Lemma flat_origin_later fs input rest x :
  flat_origin fs rest x -> flat_origin fs (input :: rest) x.
Proof.
  intros [[Hin Hfile]|(d & names & name & Hd & H)].
  - left. split; [now right|assumption].
  - right. exists d, names, name. split; [now right|assumption].
Qed.

Lemma flat_origin_listed rec fs input rest names st st1 e1 x :
  os_listdir fs input = Return names ->
  names_loop rec fs input false names st = (st1, e1) ->
  x ∈ yielded st1 ->
  x ∈ yielded st \/ flat_origin fs (input :: rest) x.
Proof.
  intros Hls Hn Hx.
  destruct (names_loop_flat_provenance _ _ _ _ _ _ _ _ Hn Hx)
    as [Hold|(name & Hname & Hext & ->)]; [now left|].
  right. right. exists input, names, name. split; [left|]. now repeat split.
Qed.

Lemma inputs_loop_flat_provenance rec fs inputs : forall st st' e x,
  inputs_loop rec fs false inputs st = (st', e) ->
  x ∈ yielded st' ->
  x ∈ yielded st \/ flat_origin fs inputs x.
Proof.
  induction inputs as [|input rest IH]; intros st st' e x Hrun Hx;
    cbn [inputs_loop] in Hrun.
  - injection Hrun as <- _. now left.
  - assert (Hlisted : forall st0,
              match os_listdir fs input with
              | Raise e => (st0, Raised e)
              | Return names =>
                  let '(st1, e1) := names_loop rec fs input false names st0 in
                  match e1 with
                  | Exhausted => inputs_loop rec fs false rest st1
                  | _ => (st1, e1)
                  end
              end = (st', e) ->
              x ∈ yielded st0 \/ flat_origin fs (input :: rest) x).
    { intros st0 Hrun0.
      destruct (os_listdir fs input) as [names|err] eqn:Hls;
        [|injection Hrun0 as <- _; now left].
      destruct (names_loop rec fs input false names st0) as [st1 e1] eqn:Hn.
      assert (Hstop : (st1, e1) = (st', e) ->
                x ∈ yielded st0 \/ flat_origin fs (input :: rest) x).
      { intros [= <- _]. eapply flat_origin_listed; eassumption. }
      destruct e1; [|now apply Hstop|now apply Hstop].
      destruct (IH _ _ _ _ Hrun0 Hx) as [Hold|Hnew].
      - eapply flat_origin_listed; eassumption.
      - right. now apply flat_origin_later. }
    destruct (os_path_isfile fs input) eqn:Hfile; cbn [andb] in Hrun.
    + destruct (bool_decide (input ∉ returned st)); [|now apply Hlisted].
      destruct (IH _ _ _ _ Hrun Hx) as [Hold|Hnew].
      * cbn [yielded] in Hold.
        apply elem_of_app in Hold as [Hold|Hold]; [now left|].
        apply list_elem_of_singleton in Hold as ->.
        right. left. split; [left|assumption].
      * right. now apply flat_origin_later.
    + now apply Hlisted.
Qed.

(** X14.  Without recursion every path the generator yields is either an
    input that is a regular file, or [os.path.join(d, name)] for an input [d]
    that was listed and an entry [name] of it whose last four characters are
    one of [.avi], [.mp4], [.mpg], [.mkv]; nothing else is ever yielded. *)
Theorem find_movie_files_flat_provenance fuel fs inputs x :
  x ∈ fst (find_movie_files (S fuel) fs inputs false) ->
  flat_origin fs inputs x.
Proof.
  cbn [find_movie_files].
  destruct (inputs_loop _ fs false inputs (GenState [] ∅)) as [st e] eqn:Hrun.
  cbn [fst]. intros Hx.
  destruct (inputs_loop_flat_provenance _ _ _ _ _ _ _ Hrun Hx) as [Hnil|H];
    [|exact H].
  cbn in Hnil. inversion Hnil.
Qed.

Lemma find_movie_files_flat_provenance_witness :
  flat_origin Examples.tree_fs ["d"%string] "d/a.mkv".
Proof.
  apply (find_movie_files_flat_provenance 0 Examples.tree_fs ["d"%string] "d/a.mkv").
  vm_compute. left.
Defined.

(** ** obtain_subtitle_filename never picks an existing file but the last *)

(** X15.  The name [obtain_subtitle_filename] returns is that of an existing
    file only when it is the third candidate, [<base>.<language>.ss<ext>]:
    the first two candidates are never returned over an existing file. *)
Theorem obtain_subtitle_filename_overwrites_only_ss fs movie lang ext :
  os_path_isfile fs (obtain_subtitle_filename fs movie lang ext) = true ->
  obtain_subtitle_filename fs movie lang ext
  = os_path_join (os_path_dirname movie)
      (fst (os_path_splitext (os_path_basename movie))
       +:+ "." +:+ lang +:+ ".ss" +:+ ext).
Proof.
  unfold obtain_subtitle_filename. cbn [first_not_file].
  destruct (os_path_isfile fs (os_path_join _ (_ +:+ ext))) eqn:H1;
    cbn [negb]; [|congruence].
  destruct (os_path_isfile fs (os_path_join _ (_ +:+ "." +:+ lang +:+ ext))) eqn:H2;
    cbn [negb]; [|congruence].
  reflexivity.
Qed.

Lemma obtain_subtitle_filename_overwrites_only_ss_witness :
  obtain_subtitle_filename Examples.subs_fs_full "v/movie.mkv" "eng" ".srt"
  = os_path_join (os_path_dirname "v/movie.mkv")
      (fst (os_path_splitext (os_path_basename "v/movie.mkv"))
       +:+ "." +:+ "eng" +:+ ".ss" +:+ ".srt").
Proof.
  apply (obtain_subtitle_filename_overwrites_only_ss Examples.subs_fs_full
           "v/movie.mkv" "eng" ".srt").
  vm_compute. reflexivity.
Defined.

(** ** load_configuration *)

Lemma getboolean_raises value e : getboolean value = Raise e -> e = ValueError.
Proof.
  unfold getboolean. repeat destruct (bool_decide _); congruence.
Qed.

Lemma flag_setting_raises p key default e :
  flag_setting p key default = Raise e -> e = ValueError.
Proof.
  unfold flag_setting. destruct (p !! key); [apply getboolean_raises|discriminate].
Qed.

(** What [load_configuration] makes of the options the parser holds. *)
Lemma load_configuration_options env filename w p :
  parser_read env filename w = (Return p, w) ->
  load_configuration env filename w =
    (match flag_setting p "recursive" false with
     | Raise e => Raise e
     | Return r =>
         match flag_setting p "skip" false with
         | Raise e => Raise e
         | Return s =>
             match flag_setting p "mkv" false with
             | Raise e => Raise e
             | Return m =>
                 Return (Config (default "eng"%string (p !! "language"%string)) r s m)
             end
         end
     end, w).
Proof.
  intros Hread. unfold load_configuration.
  erewrite bind_return by exact Hread.
  unfold flag_setting, mbind, py_bind, lift, mret, py_ret.
  destruct (p !! "language"%string); cbn [default language recursive skip mkv];
    (destruct (p !! "recursive"%string) as [vr|];
       [destruct (getboolean vr); [|reflexivity]|]);
    (destruct (p !! "skip"%string) as [vs|];
       [destruct (getboolean vs); [|reflexivity]|]);
    (destruct (p !! "mkv"%string) as [vm|];
       [destruct (getboolean vm); [|reflexivity]|]);
    reflexivity.
Qed.

Lemma parser_read_file env filename data w :
  w_fs w !! filename = Some (File data) ->
  parser_read env filename w = (configparser_read env data, w).
Proof. intros H. unfold parser_read. now rewrite H. Qed.

(** X16.  A configuration file that is missing, or is a directory, is not an
    error: [load_configuration] returns the defaults (language ["eng"], all
    flags off) and leaves the world untouched. *)
Theorem load_configuration_without_file env filename w :
  (forall data, w_fs w !! filename <> Some (File data)) ->
  load_configuration env filename w = (Return Configuration_default, w).
Proof.
  intros Hnone.
  rewrite (load_configuration_options env filename w ∅); [reflexivity|].
  unfold parser_read.
  destruct (w_fs w !! filename) as [[data|size entries]|] eqn:Hlook;
    [|reflexivity|reflexivity].
  now destruct (Hnone data).
Qed.

Lemma load_configuration_without_file_witness :
  load_configuration Examples.x86 "home/.ss.ini" (Examples.world_of Examples.tree_fs)
  = (Return Configuration_default, Examples.world_of Examples.tree_fs).
Proof.
  apply (load_configuration_without_file Examples.x86 "home/.ss.ini"
           (Examples.world_of Examples.tree_fs)).
  intros data. vm_compute. discriminate.
Defined.

(** X17.  The four settings are read independently and an unset key keeps
    its default: when every flag that is set reads as a boolean, the result
    has the language under [language] (or ["eng"]) and, for each of
    [recursive], [skip], [mkv], the value set (or [False]). *)
Theorem load_configuration_settings env filename data w p r s m :
  w_fs w !! filename = Some (File data) ->
  configparser_read env data = Return p ->
  flag_setting p "recursive" false = Return r ->
  flag_setting p "skip" false = Return s ->
  flag_setting p "mkv" false = Return m ->
  load_configuration env filename w =
    (Return (Config (default "eng"%string (p !! "language"%string)) r s m), w).
Proof.
  intros Hfile Hparse Hr Hs Hm.
  rewrite (load_configuration_options env filename w p)
    by (rewrite (parser_read_file env filename data w Hfile); now rewrite Hparse).
  now rewrite Hr, Hs, Hm.
Qed.

Lemma load_configuration_settings_witness :
  load_configuration
    (Environment little Examples.decimal_int Examples.episode_guess
       Examples.good_server Examples.tool_ok
       (fun _ => Return {[ "skip"%string := "YES"%string ]}))
    "home/.ss.ini" (Examples.world_of {[ "home/.ss.ini"%string := File [] ]})
  = (Return (Config (default "eng"%string
                       (({[ "skip"%string := "YES"%string ]} : gmap string string)
                          !! "language"%string))
                    false true false),
     Examples.world_of {[ "home/.ss.ini"%string := File [] ]}).
Proof.
  apply (load_configuration_settings _ "home/.ss.ini" []
           (Examples.world_of {[ "home/.ss.ini"%string := File [] ]})
           {[ "skip"%string := "YES"%string ]});
    reflexivity.
Defined.

(** X18.  A flag set to something that is not one of [1 yes true on 0 no
    false off] (in any case) makes [load_configuration] raise [ValueError];
    no configuration is returned, whatever the other keys hold. *)
Theorem load_configuration_bad_flag env filename data w p key value :
  w_fs w !! filename = Some (File data) ->
  configparser_read env data = Return p ->
  key ∈ ["recursive"; "skip"; "mkv"]%string ->
  p !! key = Some value ->
  getboolean value = Raise ValueError ->
  load_configuration env filename w = (Raise ValueError, w).
Proof.
  intros Hfile Hparse Hkey Hvalue Hbad.
  rewrite (load_configuration_options env filename w p)
    by (rewrite (parser_read_file env filename data w Hfile); now rewrite Hparse).
  assert (Hflag : flag_setting p key false = Raise ValueError)
    by (unfold flag_setting; now rewrite Hvalue).
  destruct (flag_setting p "recursive" false) as [r|e] eqn:Hr;
    [|now rewrite (flag_setting_raises _ _ _ _ Hr)].
  destruct (flag_setting p "skip" false) as [s|e] eqn:Hs;
    [|now rewrite (flag_setting_raises _ _ _ _ Hs)].
  destruct (flag_setting p "mkv" false) as [m|e] eqn:Hm;
    [|now rewrite (flag_setting_raises _ _ _ _ Hm)].
  exfalso. set_unfold in Hkey. destruct Hkey as [->|[->|[->|[]]]]; congruence.
Qed.

Lemma load_configuration_bad_flag_witness :
  load_configuration
    (Environment little Examples.decimal_int Examples.episode_guess
       Examples.good_server Examples.tool_ok
       (fun _ => Return {[ "mkv"%string := "maybe"%string ]}))
    "home/.ss.ini" (Examples.world_of {[ "home/.ss.ini"%string := File [] ]})
  = (Raise ValueError,
     Examples.world_of {[ "home/.ss.ini"%string := File [] ]}).
Proof.
  apply (load_configuration_bad_flag _ "home/.ss.ini" []
           (Examples.world_of {[ "home/.ss.ini"%string := File [] ]})
           {[ "mkv"%string := "maybe"%string ]} "mkv" "maybe").
  - reflexivity.
  - reflexivity.
  - set_solver.
  - reflexivity.
  - reflexivity.
Defined.

Lemma getboolean_pybool b : getboolean (pybool b) = Return b.
Proof. destruct b; reflexivity. Qed.

(** X19.  The values [Configuration.__str__] prints are read back: when the
    parser holds, under the four keys, the language and ['True'] / ['False']
    as [__str__] writes the flags, [load_configuration] returns the very
    configuration that was printed. *)
Theorem load_configuration_reads_printed_values env filename data w c :
  w_fs w !! filename = Some (File data) ->
  configparser_read env data = Return (printed_options c) ->
  load_configuration env filename w = (Return c, w).
Proof.
  intros Hfile Hparse. destruct c as [l r s m].
  rewrite (load_configuration_options env filename w
             (printed_options (Config l r s m)))
    by (rewrite (parser_read_file env filename data w Hfile); now rewrite Hparse).
  assert (Hl : printed_options (Config l r s m) !! "language"%string = Some l)
    by (unfold printed_options; cbn [language]; now rewrite lookup_insert_eq).
  assert (Hr : flag_setting (printed_options (Config l r s m)) "recursive" false
               = Return r).
  { unfold flag_setting, printed_options. cbn [language recursive skip mkv].
    rewrite lookup_insert_ne by discriminate. rewrite lookup_insert_eq.
    apply getboolean_pybool. }
  assert (Hs : flag_setting (printed_options (Config l r s m)) "skip" false
               = Return s).
  { unfold flag_setting, printed_options. cbn [language recursive skip mkv].
    do 2 (rewrite lookup_insert_ne by discriminate). rewrite lookup_insert_eq.
    apply getboolean_pybool. }
  assert (Hm : flag_setting (printed_options (Config l r s m)) "mkv" false
               = Return m).
  { unfold flag_setting, printed_options. cbn [language recursive skip mkv].
    do 3 (rewrite lookup_insert_ne by discriminate). rewrite lookup_singleton_eq.
    apply getboolean_pybool. }
  now rewrite Hl, Hr, Hs, Hm.
Qed.

Lemma load_configuration_reads_printed_values_witness :
  load_configuration
    (Environment little Examples.decimal_int Examples.episode_guess
       Examples.good_server Examples.tool_ok
       (fun _ => Return (printed_options Examples.mkv_config)))
    "home/.ss.ini" (Examples.world_of {[ "home/.ss.ini"%string := File [] ]})
  = (Return Examples.mkv_config,
     Examples.world_of {[ "home/.ss.ini"%string := File [] ]}).
Proof.
  apply (load_configuration_reads_printed_values _ "home/.ss.ini" []);
    reflexivity.
Defined.

(** ** embed_mkv *)

(** X20.  [embed_mkv] never raises: a process that exits with a non-zero
    code is reported as [(False, output)], one that exits with zero as
    [(True, '')]; either way exactly one process is started, and its
    argument vector is ['/bin/sh', '-c'] followed by the parameter list
    [embed_mkv] builds. *)
Theorem embed_mkv_reports env movie sub lang w :
  let argv := shell_argv (embed_mkv_params movie sub lang) in
  embed_mkv env movie sub lang w =
    (Return (if fst (popen env (w_procs w) argv) =? 0
             then (true, EmptyString)
             else (false, snd (popen env (w_procs w) argv))),
     with_procs w (w_procs w ++ [argv])).
Proof.
  cbv zeta. unfold embed_mkv, check_output. cbv zeta.
  destruct (popen env (w_procs w) (shell_argv (embed_mkv_params movie sub lang)))
    as [rc out].
  cbn [fst snd]. now destruct (rc =? 0).
Qed.

(** [os.path.splitext] cuts the path in two: root and extension put together
    again give the path. *)
Lemma os_path_splitext_parts p :
  (fst (os_path_splitext p) +:+ snd (os_path_splitext p))%string = p.
Proof.
  unfold os_path_splitext.
  destruct (_ <? _); [|cbn [fst snd]; apply append_empty_r].
  destruct (existsb _ _); cbn [fst snd];
    [apply slice_to_slice_from|apply append_empty_r].
Qed.

(** X21.  The output name in the parameter list [embed_mkv] builds is the
    movie's own path exactly when the movie's extension is [.mkv] letter for
    letter; with any other extension, [.MKV] included, the two names
    differ. *)
Theorem embed_mkv_output_is_input movie sub lang :
  embed_mkv_params movie sub lang !! 2%nat = Some movie <->
  snd (os_path_splitext movie) = ".mkv"%string.
Proof.
  unfold embed_mkv_params. cbn [lookup list_lookup].
  pose proof (os_path_splitext_parts movie) as Hparts. split.
  - intros Hsame. injection Hsame as Hsame.
    rewrite <- Hparts in Hsame at 2.
    now apply String.app_inj in Hsame.
  - intros Hext. f_equal. now rewrite <- Hext.
Qed.

(** ** The skip loop and the first part of main *)

Lemma skip_loop_filter fs inputs : forall skipped kept,
  skip_loop fs inputs skipped kept =
    (skipped ++ List.filter (has_subtitle fs) inputs,
     kept ++ List.filter (fun f => negb (has_subtitle fs f)) inputs).
Proof.
  induction inputs as [|f rest IH]; intros skipped kept;
    cbn [skip_loop List.filter].
  - now rewrite !app_nil_r.
  - destruct (has_subtitle fs f); cbn [negb]; rewrite IH, <- app_assoc;
      reflexivity.
Qed.

Lemma filter_partition_permutation {A} (f : A -> bool) (l : list A) :
  List.filter f l ++ List.filter (fun x => negb (f x)) l ≡ₚ l.
Proof.
  induction l as [|a l IH]; cbn [List.filter]; [reflexivity|].
  destruct (f a); cbn [negb app].
  - now constructor.
  - rewrite <- Permutation_middle. now constructor.
Qed.

(** X22.  The skip loop splits the input files in two, keeping their order:
    the skipped ones are those for which [has_subtitle] holds, the others
    are kept, and the two lists together are a rearrangement of the input -
    no file is lost and none is duplicated. *)
Theorem skip_loop_partitions fs inputs :
  fst (skip_loop fs inputs [] []) = List.filter (has_subtitle fs) inputs /\
  snd (skip_loop fs inputs [] [])
    = List.filter (fun f => negb (has_subtitle fs f)) inputs /\
  fst (skip_loop fs inputs [] []) ++ snd (skip_loop fs inputs [] []) ≡ₚ inputs.
Proof.
  rewrite skip_loop_filter. cbn [fst snd app].
  split; [reflexivity|]. split; [reflexivity|].
  apply filter_partition_permutation.
Qed.




Lemma check_mkv_run env w :
  check_mkv env w =
    (Return (fst (popen env (w_procs w) (shell_argv ["mkvmerge"; "--version"]%string)) =? 0),
     with_procs w (w_procs w ++ [(shell_argv ["mkvmerge"; "--version"]%string)])).
Proof.
  unfold check_mkv, check_output.
  destruct (popen env (w_procs w) _) as [rc out]. cbn [fst].
  now destruct (rc =? 0).
Qed.

Lemma with_stdout_id w : with_stdout w (w_stdout w) = w.
Proof. now destruct w. Qed.

(** The run of [main] up to the test on the number of arguments. *)
Lemma main_prepare_loaded env fuel home usage verbose args w config :
  fst (load_configuration env (os_path_join home ".ss.ini") w) = Return config ->
  main_prepare env fuel home usage verbose args w
  = main_files env fuel usage config args
      (with_stdout w (w_stdout w
         ++ verbose_lines (os_path_join home ".ss.ini") config verbose)).
Proof.
  intros Hload.
  pose proof (load_configuration_world env (os_path_join home ".ss.ini") w) as Hw.
  destruct (load_configuration env (os_path_join home ".ss.ini") w)
    as [o w0] eqn:Hrun.
  cbn [fst snd] in Hload, Hw. subst o w0.
  unfold main_prepare. erewrite bind_return by exact Hrun.
  unfold verbose_lines. destruct verbose.
  - unfold mbind, py_bind, print. world_simpl. rewrite <- !app_assoc. reflexivity.
  - unfold mbind, py_bind, mret, py_ret.
    rewrite app_nil_r, with_stdout_id. reflexivity.
Qed.

Lemma main_prepare_not_loaded env fuel home usage verbose args w e :
  fst (load_configuration env (os_path_join home ".ss.ini") w) = Raise e ->
  main_prepare env fuel home usage verbose args w = (Raise e, w).
Proof.
  intros Hload.
  pose proof (load_configuration_world env (os_path_join home ".ss.ini") w) as Hw.
  destruct (load_configuration env (os_path_join home ".ss.ini") w)
    as [o w0] eqn:Hrun.
  cbn [fst snd] in Hload, Hw. subst o w0.
  unfold main_prepare. now erewrite bind_raise by exact Hrun.
Qed.

(** The run of [main_files] once discovery has ended with a non-empty list. *)
Lemma main_files_found env fuel usage config args w first others :
  (2 <= length args)%nat ->
  find_movie_files fuel (w_fs w) (tail args) (recursive config)
    = (first :: others, Exhausted) ->
  let tool := fst (popen env (w_procs w) (shell_argv ["mkvmerge"; "--version"]%string)) in
  let w1 := if mkv config
            then with_procs w (w_procs w ++ [(shell_argv ["mkvmerge"; "--version"]%string)])
            else w in
  let found := first :: others in
  let skipped := if skip config then List.filter (has_subtitle (w_fs w)) found
                 else [] in
  let skip_lines :=
    match skipped with
    | [] => []
    | _ :: _ => [("Skipping " +:+ pystr.of_int (Z.of_nat (length skipped))
                  +:+ " files that already have subtitles.")%string]
    end in
  main_files env fuel usage config args w =
    if mkv config && negb (tool =? 0) then
      (Return (Exit 4),
       with_stdout w1 (w_stdout w ++
         ["mkvmerge not found in PATH.";
          "Either install mkvtoolnix or disable mkv merging in your config."]%string))
    else
      match remaining (w_fs w) config found with
      | [] =>
          (Return (Exit 1),
           with_stdout w1 (w_stdout w ++ skip_lines
                           ++ [("Language: " +:+ language config)%string]))
      | f :: fs' =>
          (Return (Proceed config (f :: fs')),
           with_stdout w1 (w_stdout w ++ skip_lines
             ++ [("Language: " +:+ language config)%string;
                 ("Querying OpenSubtitles.org for "
                  +:+ pystr.of_int (Z.of_nat (length (f :: fs')))
                  +:+ " file(s)...")%string;
                 EmptyString]))
      end.
Proof.
  intros Hargs Hfound. cbv zeta. unfold main_files.
  destruct (length args <? 2)%nat eqn:Hlen; [apply Nat.ltb_lt in Hlen; lia|].
  rewrite Hfound.
  assert (Hcheck :
    (if mkv config then check_mkv env else mret true) w
    = (Return (negb (mkv config && negb (fst (popen env (w_procs w)
                 (shell_argv ["mkvmerge"; "--version"]%string)) =? 0))),
       if mkv config
       then with_procs w (w_procs w ++ [(shell_argv ["mkvmerge"; "--version"]%string)])
       else w)).
  { destruct (mkv config); [|reflexivity].
    rewrite check_mkv_run. cbn [andb]. now rewrite negb_involutive. }
  erewrite bind_return by exact Hcheck. clear Hcheck.
  rewrite negb_involutive.
  destruct (mkv config && negb (_ =? 0)) eqn:Htool.
  - unfold mbind, py_bind, print, mret, py_ret. world_simpl.
    rewrite <- app_assoc. destruct (mkv config); reflexivity.
  - assert (Hfs : w_fs (if mkv config
                        then with_procs w (w_procs w ++ [(shell_argv ["mkvmerge"; "--version"]%string)])
                        else w) = w_fs w) by (destruct (mkv config); reflexivity).
    assert (Hout : w_stdout (if mkv config
                        then with_procs w (w_procs w ++ [(shell_argv ["mkvmerge"; "--version"]%string)])
                        else w) = w_stdout w) by (destruct (mkv config); reflexivity).
    set (w1 := if mkv config then _ else w) in *.
    rewrite Hfs. unfold remaining.
    destruct (skip config).
    + rewrite skip_loop_filter. cbn [app].
      destruct (List.filter (has_subtitle (w_fs w)) (first :: others)) as [|s ss];
        destruct (List.filter (fun f => negb (has_subtitle (w_fs w) f))
                    (first :: others)) as [|k ks];
        unfold mbind, py_bind, print, mret, py_ret; world_simpl;
        rewrite Hout, <- ?app_assoc; reflexivity.
    + unfold mbind, py_bind, print, mret, py_ret; world_simpl.
      rewrite Hout, <- ?app_assoc. reflexivity.
Qed.

(** X24.  With fewer than two arguments [main] prints the usage text and
    returns 2 without looking at the file system - but only after the
    configuration has been loaded: a configuration that fails to load ends
    the run with that exception before anything is printed. *)
Theorem main_prepare_usage env fuel home usage verbose args w :
  (length args < 2)%nat ->
  match fst (load_configuration env (os_path_join home ".ss.ini") w) with
  | Return config =>
      main_prepare env fuel home usage verbose args w
      = (Return (Exit 2),
         with_stdout w (w_stdout w
           ++ verbose_lines (os_path_join home ".ss.ini") config verbose
           ++ [usage]))
  | Raise e => main_prepare env fuel home usage verbose args w = (Raise e, w)
  end.
Proof.
  intros Hargs.
  destruct (fst (load_configuration env (os_path_join home ".ss.ini") w))
    as [config|e] eqn:Hload.
  - rewrite (main_prepare_loaded _ _ _ _ _ _ _ _ Hload).
    unfold main_files.
    destruct (length args <? 2)%nat eqn:Hlen; [|apply Nat.ltb_ge in Hlen; lia].
    unfold mbind, py_bind, print, mret, py_ret. world_simpl.
    now rewrite <- app_assoc.
  - exact (main_prepare_not_loaded _ _ _ _ _ _ _ _ Hload).
Qed.

Lemma main_prepare_usage_witness :
  main_prepare Examples.x86 3 "h" "Usage: ss" true ["ss"]%string
    (Examples.world_of Examples.tree_fs)
  = (Return (Exit 2),
     with_stdout (Examples.world_of Examples.tree_fs)
       ["Configuration read from h/.ss.ini";
        Configuration_str Configuration_default; ""; "Usage: ss"]%string).
Proof.
  apply (main_prepare_usage Examples.x86 3 "h" "Usage: ss" true ["ss"]%string
           (Examples.world_of Examples.tree_fs)).
  cbn [length]. lia.
Defined.

(** X25.  Discovery is not guarded: with two or more arguments, an exception
    that ends [find_movie_files] ends [main] too, after the verbose lines and
    before any other output. *)
Theorem main_prepare_discovery_error env fuel home usage verbose args w config e :
  (2 <= length args)%nat ->
  fst (load_configuration env (os_path_join home ".ss.ini") w) = Return config ->
  snd (find_movie_files fuel (w_fs w) (tail args) (recursive config)) = Raised e ->
  main_prepare env fuel home usage verbose args w
  = (Raise e,
     with_stdout w (w_stdout w
       ++ verbose_lines (os_path_join home ".ss.ini") config verbose)).
Proof.
  intros Hargs Hload Hend.
  rewrite (main_prepare_loaded _ _ _ _ _ _ _ _ Hload).
  unfold main_files.
  destruct (length args <? 2)%nat eqn:Hlen; [apply Nat.ltb_lt in Hlen; lia|].
  world_simpl.
  destruct (find_movie_files fuel (w_fs w) (tail args) (recursive config))
    as [found ending].
  cbn [snd] in Hend. subst ending. now destruct found.
Qed.

Lemma main_prepare_discovery_error_witness :
  main_prepare Examples.x86 3 "h" "Usage: ss" false
    ["ss"; "d/a.mkv"; "d/a.mkv"]%string (Examples.world_of Examples.tree_fs)
  = (Raise OSError,
     with_stdout (Examples.world_of Examples.tree_fs)
       ([] ++ verbose_lines (os_path_join "h" ".ss.ini") Configuration_default false)).
Proof.
  apply (main_prepare_discovery_error Examples.x86 3 "h" "Usage: ss" false
           ["ss"; "d/a.mkv"; "d/a.mkv"]%string
           (Examples.world_of Examples.tree_fs) Configuration_default OSError).
  - cbn [length]. lia.
  - reflexivity.
  - vm_compute. reflexivity.
Defined.

Lemma remaining_nil fs config : remaining fs config [] = [].
Proof. unfold remaining. now destruct (skip config). Qed.

(** What [main_files] returns, by cases. *)
Lemma main_files_cases env fuel usage config args w :
  let found := fst (find_movie_files fuel (w_fs w) (tail args) (recursive config)) in
  let tool := fst (popen env (w_procs w) (shell_argv ["mkvmerge"; "--version"]%string)) in
  fst (main_files env fuel usage config args w) =
    if (length args <? 2)%nat then Return (Exit 2)
    else match snd (find_movie_files fuel (w_fs w) (tail args) (recursive config)) with
         | Raised e => Raise e
         | OutOfFuel => Return Unfinished
         | Exhausted =>
             match found with
             | [] => Return (Exit 1)
             | _ :: _ =>
                 if mkv config && negb (tool =? 0) then Return (Exit 4)
                 else match remaining (w_fs w) config found with
                      | [] => Return (Exit 1)
                      | f :: fs' => Return (Proceed config (f :: fs'))
                      end
             end
         end.
Proof.
  cbv zeta.
  destruct (length args <? 2)%nat eqn:Hlen.
  - unfold main_files. now rewrite Hlen.
  - destruct (find_movie_files fuel (w_fs w) (tail args) (recursive config))
      as [found ending] eqn:Hfound.
    cbn [fst snd].
    destruct ending as [|e|];
      [|unfold main_files; rewrite Hlen, Hfound; now destruct found
       |unfold main_files; rewrite Hlen, Hfound; now destruct found].
    destruct found as [|first others];
      [unfold main_files; now rewrite Hlen, Hfound|].
    apply Nat.ltb_ge in Hlen.
    rewrite (main_files_found env fuel usage config args w first others Hlen Hfound).
    destruct (mkv config && negb (_ =? 0)); [reflexivity|].
    now destruct (remaining (w_fs w) config (first :: others)).
Qed.

(** [main_files] leaves the files and the remote log as they are, and starts
    at most the version check. *)
Lemma main_files_frame env fuel usage config args w :
  let w' := snd (main_files env fuel usage config args w) in
  w_fs w' = w_fs w /\ w_files w' = w_files w /\ w_rpc w' = w_rpc w /\
  (w_procs w' = w_procs w \/
   mkv config = true /\
   w_procs w' = w_procs w ++ [(shell_argv ["mkvmerge"; "--version"]%string)]).
Proof.
  cbv zeta.
  destruct (length args <? 2)%nat eqn:Hlen.
  { unfold main_files. rewrite Hlen. cbn. auto. }
  destruct (find_movie_files fuel (w_fs w) (tail args) (recursive config))
    as [found ending] eqn:Hfound.
  destruct ending as [|e|];
    [|unfold main_files; rewrite Hlen, Hfound; destruct found; cbn; auto
     |unfold main_files; rewrite Hlen, Hfound; destruct found; cbn; auto].
  destruct found as [|first others];
    [unfold main_files; rewrite Hlen, Hfound; cbn; auto|].
  apply Nat.ltb_ge in Hlen.
  rewrite (main_files_found env fuel usage config args w first others Hlen Hfound).
  destruct (mkv config) eqn:Hmkv; cbn [andb];
    [destruct (negb (_ =? 0))|];
    try destruct (remaining (w_fs w) config (first :: others));
    cbn; repeat (split; [reflexivity|]); auto.
Qed.

(** X26.  When [main] reaches the query, the files it goes on with are the
    discovered ones, in order, without those that already have a subtitle if
    [skip] is set; there is at least one; discovery ran to its end; with
    [mkv] set the version check of the merge tool returned 0; and so far the
    remote service has not been called. *)
Theorem main_prepare_proceeds env fuel home usage verbose args w config files :
  fst (main_prepare env fuel home usage verbose args w)
    = Return (Proceed config files) ->
  fst (load_configuration env (os_path_join home ".ss.ini") w) = Return config /\
  (2 <= length args)%nat /\
  snd (find_movie_files fuel (w_fs w) (tail args) (recursive config)) = Exhausted /\
  files = remaining (w_fs w) config
            (fst (find_movie_files fuel (w_fs w) (tail args) (recursive config))) /\
  files <> [] /\
  (mkv config = true ->
   fst (popen env (w_procs w) (shell_argv ["mkvmerge"; "--version"]%string)) = 0) /\
  w_rpc (snd (main_prepare env fuel home usage verbose args w)) = w_rpc w.
Proof.
  intros Hrun.
  destruct (fst (load_configuration env (os_path_join home ".ss.ini") w))
    as [c|e] eqn:Hload;
    [|now rewrite (main_prepare_not_loaded _ _ _ _ _ _ _ _ Hload) in Hrun].
  rewrite (main_prepare_loaded _ _ _ _ _ _ _ _ Hload) in Hrun |- *.
  destruct (main_files_frame env fuel usage c args
              (with_stdout w (w_stdout w
                 ++ verbose_lines (os_path_join home ".ss.ini") c verbose)))
    as (_ & _ & Hrpc & _).
  rewrite main_files_cases in Hrun. world_simpl in Hrun.
  destruct (length args <? 2)%nat eqn:Hlen; [discriminate|].
  apply Nat.ltb_ge in Hlen.
  destruct (find_movie_files fuel (w_fs w) (tail args) (recursive c))
    as [found ending] eqn:Hfound.
  cbn [fst snd] in Hrun.
  destruct ending as [|e|]; [|discriminate|discriminate].
  destruct found as [|first others]; [discriminate|].
  destruct (mkv c) eqn:Hmkv; cbn [andb] in Hrun.
  - destruct (fst (popen env (w_procs w) (shell_argv ["mkvmerge"; "--version"]%string)) =? 0)
      eqn:Htool; cbn [negb] in Hrun; [|discriminate].
    destruct (remaining (w_fs w) c (first :: others)) as [|f fs'] eqn:Hrem;
      [discriminate|].
    injection Hrun as <- <-.
    rewrite Hfound. cbn [fst snd]. rewrite Hrem. repeat split; try assumption; try discriminate.
    intros _. now apply Z.eqb_eq.
  - destruct (remaining (w_fs w) c (first :: others)) as [|f fs'] eqn:Hrem;
      [discriminate|].
    injection Hrun as <- <-.
    rewrite Hfound. cbn [fst snd]. rewrite Hrem. repeat split; try assumption; try discriminate.
    rewrite Hmkv. discriminate.
Qed.

Lemma main_prepare_proceeds_witness :
  fst (load_configuration Examples.x86 (os_path_join "h" ".ss.ini")
         (Examples.world_of Examples.tree_fs)) = Return Configuration_default /\
  (2 <= length ["ss"; "d"]%string)%nat /\
  snd (find_movie_files 3 (w_fs (Examples.world_of Examples.tree_fs))
         (tail ["ss"; "d"]%string) (recursive Configuration_default)) = Exhausted /\
  ["d/a.mkv"%string]
    = remaining (w_fs (Examples.world_of Examples.tree_fs)) Configuration_default
        (fst (find_movie_files 3 (w_fs (Examples.world_of Examples.tree_fs))
                (tail ["ss"; "d"]%string) (recursive Configuration_default))) /\
  ["d/a.mkv"%string] <> [] /\
  (mkv Configuration_default = true ->
   fst (popen Examples.x86 (w_procs (Examples.world_of Examples.tree_fs))
          (shell_argv ["mkvmerge"; "--version"]%string)) = 0) /\
  w_rpc (snd (main_prepare Examples.x86 3 "h" "Usage: ss" false
                ["ss"; "d"]%string (Examples.world_of Examples.tree_fs)))
  = w_rpc (Examples.world_of Examples.tree_fs).
Proof.
  apply (main_prepare_proceeds Examples.x86 3 "h" "Usage: ss" false
           ["ss"; "d"]%string (Examples.world_of Examples.tree_fs)
           Configuration_default ["d/a.mkv"%string]).
  vm_compute. reflexivity.
Defined.

(** X27.  The first part of [main] returns only the codes 2, 1 and 4: 2 when
    there are fewer than two arguments, 4 when [mkv] is set and the version
    check of the merge tool fails, and 1 when discovery ended normally and no
    file is left to query for. *)
Theorem main_prepare_exit_codes env fuel home usage verbose args w code :
  fst (main_prepare env fuel home usage verbose args w) = Return (Exit code) ->
  exists config,
    fst (load_configuration env (os_path_join home ".ss.ini") w) = Return config /\
    ((code = 2 /\ (length args < 2)%nat) \/
     (code = 4 /\ (2 <= length args)%nat /\ mkv config = true /\
      fst (popen env (w_procs w) (shell_argv ["mkvmerge"; "--version"]%string)) <> 0) \/
     (code = 1 /\ (2 <= length args)%nat /\
      snd (find_movie_files fuel (w_fs w) (tail args) (recursive config))
        = Exhausted /\
      remaining (w_fs w) config
        (fst (find_movie_files fuel (w_fs w) (tail args) (recursive config)))
        = [])).
Proof.
  intros Hrun.
  destruct (fst (load_configuration env (os_path_join home ".ss.ini") w))
    as [c|e] eqn:Hload;
    [|now rewrite (main_prepare_not_loaded _ _ _ _ _ _ _ _ Hload) in Hrun].
  exists c. split; [reflexivity|].
  rewrite (main_prepare_loaded _ _ _ _ _ _ _ _ Hload) in Hrun.
  rewrite main_files_cases in Hrun. world_simpl in Hrun.
  destruct (length args <? 2)%nat eqn:Hlen.
  { apply Nat.ltb_lt in Hlen. injection Hrun as <-. left. now split. }
  apply Nat.ltb_ge in Hlen. right.
  destruct (find_movie_files fuel (w_fs w) (tail args) (recursive c))
    as [found ending].
  cbn [fst snd] in Hrun |- *.
  destruct ending as [|e|]; [|discriminate|discriminate].
  destruct found as [|first others].
  { injection Hrun as <-. right. repeat split; try assumption.
    apply remaining_nil. }
  destruct (mkv c) eqn:Hmkv; cbn [andb] in Hrun.
  - destruct (fst (popen env (w_procs w) (shell_argv ["mkvmerge"; "--version"]%string)) =? 0)
      eqn:Htool; cbn [negb] in Hrun.
    + destruct (remaining (w_fs w) c (first :: others)) as [|f fs'] eqn:Hrem;
        [|discriminate].
      injection Hrun as <-. right. now repeat split.
    + injection Hrun as <-. left. repeat split; try assumption.
      now apply Z.eqb_neq.
  - destruct (remaining (w_fs w) c (first :: others)) as [|f fs'] eqn:Hrem;
      [|discriminate].
    injection Hrun as <-. right. now repeat split.
Qed.

Lemma main_prepare_exit_codes_witness :
  exists config,
    fst (load_configuration (MoreExamples.mkv_host Examples.tool_fails)
           (os_path_join "h" ".ss.ini")
           (Examples.world_of MoreExamples.home_fs)) = Return config /\
    ((4 = 2 /\ (length ["ss"; "d"]%string < 2)%nat) \/
     (4 = 4 /\ (2 <= length ["ss"; "d"]%string)%nat /\ mkv config = true /\
      fst (popen (MoreExamples.mkv_host Examples.tool_fails)
             (w_procs (Examples.world_of MoreExamples.home_fs))
             (shell_argv ["mkvmerge"; "--version"]%string)) <> 0) \/
     (4 = 1 /\ (2 <= length ["ss"; "d"]%string)%nat /\
      snd (find_movie_files 3 (w_fs (Examples.world_of MoreExamples.home_fs))
             (tail ["ss"; "d"]%string) (recursive config))
        = Exhausted /\
      remaining (w_fs (Examples.world_of MoreExamples.home_fs)) config
        (fst (find_movie_files 3 (w_fs (Examples.world_of MoreExamples.home_fs))
                (tail ["ss"; "d"]%string) (recursive config)))
        = [])).
Proof.
  apply (main_prepare_exit_codes (MoreExamples.mkv_host Examples.tool_fails)
           3 "h" "Usage: ss" false ["ss"; "d"]%string
           (Examples.world_of MoreExamples.home_fs) 4).
  vm_compute. reflexivity.
Defined.

(** X28.  Without recursion no path is yielded twice: two positions of the
    output that hold the same path are the same position - also when the
    generator ends with an exception, for what it yielded before. *)
Theorem find_movie_files_flat_no_repeats fuel fs inputs i j x :
  fst (find_movie_files fuel fs inputs false) !! i = Some x ->
  fst (find_movie_files fuel fs inputs false) !! j = Some x ->
  i = j.
Proof.
  intros Hi Hj.
  exact (proj1 (NoDup_alt _) (find_movie_files_flat_distinct fuel fs inputs)
           i j x Hi Hj).
Qed.

Lemma find_movie_files_flat_no_repeats_witness :
  fst (find_movie_files 3 Examples.tree_fs ["d"; "d/a.mkv"]%string false) !! 0%nat
    = Some "d/a.mkv"%string /\
  (0 = 0)%nat.
Proof.
  split; [vm_compute; reflexivity|].
  apply (find_movie_files_flat_no_repeats 3 Examples.tree_fs
           ["d"; "d/a.mkv"]%string 0%nat 0%nat "d/a.mkv"%string);
    vm_compute; reflexivity.
Defined.
